(** * Notification service: dispatch engine

    A shallow embedding of the domain model (value objects, the
    [Notification] entity, the domain service) and of the request handlers
    [send_notification] and [send_batch_notifications], followed by the
    properties of the dispatch logic.

    Conventions of the embedding:
    - Python [int] is [Z]; [len(...)] is [length] injected into [Z];
    - Python [str] is [string], read as a sequence of ASCII code points;
    - [datetime] values are instants, in microseconds since the epoch;
    - an exception is a value of [exn]; code that can raise returns
      [exn + A], handlers run in the state-and-exception monad [M];
    - the external collaborators (push gateway, key/value store, clock,
      uuid generator) are inputs of the handlers. *)

From Stdlib Require Import ZArith Ascii Lia.
From stdpp Require Import base option list gmap strings pretty.

Local Open Scope Z_scope.

(** ** Python string methods used by the validators *)

Module PyStr.

(** [str.isspace] on one ASCII code point. *)
Definition isspace_char (c : ascii) : bool :=
  let n := N_of_ascii c in
  (((9 <=? n) && (n <=? 13)) || ((28 <=? n) && (n <=? 32)))%N.

Fixpoint lstrip (s : string) : string :=
  match s with
  | EmptyString => EmptyString
  | String c r => if isspace_char c then lstrip r else s
  end.

Definition rstrip (s : string) : string :=
  String.rev (lstrip (String.rev s)).

(** [s.strip()] *)
Definition strip (s : string) : string := rstrip (lstrip s).

Definition lower_char (c : ascii) : ascii :=
  let n := N_of_ascii c in
  if ((65 <=? n) && (n <=? 90))%N then ascii_of_N (n + 32) else c.

(** [s.lower()] *)
Fixpoint lower (s : string) : string :=
  match s with
  | EmptyString => EmptyString
  | String c r => String (lower_char c) (lower r)
  end.

Definition isalnum_char (c : ascii) : bool :=
  let n := N_of_ascii c in
  (((48 <=? n) && (n <=? 57)) || ((65 <=? n) && (n <=? 90))
   || ((97 <=? n) && (n <=? 122)))%N.

Fixpoint forallb_string (p : ascii -> bool) (s : string) : bool :=
  match s with
  | EmptyString => true
  | String c r => p c && forallb_string p r
  end.

(** [s.isalnum()]: false on the empty string. *)
Definition isalnum (s : string) : bool :=
  match s with
  | EmptyString => false
  | _ => forallb_string isalnum_char s
  end.

(** [s.replace(c, "")] for a one-character [c]. *)
Fixpoint remove_char (c : ascii) (s : string) : string :=
  match s with
  | EmptyString => EmptyString
  | String d r => if Ascii.eqb c d then remove_char c r else String d (remove_char c r)
  end.

(** Truth value of a string: [bool(s)]. *)
Definition truthy (s : string) : bool :=
  match s with EmptyString => false | _ => true end.

(** Truth value of an [Optional[str]]. *)
Definition truthy_opt (o : option string) : bool :=
  match o with None => false | Some s => truthy s end.

(** [len(s)] *)
Definition len (s : string) : Z := Z.of_nat (String.length s).

(** ["; ".join(l)] and friends. *)
Fixpoint join (sep : string) (l : list string) : string :=
  match l with
  | [] => ""
  | [x] => x
  | x :: r => x +:+ sep +:+ join sep r
  end.

End PyStr.

(** [len(l)] for a list. *)
Definition len {A} (l : list A) : Z := Z.of_nat (length l).

(** ** Exceptions *)

(** The exceptions the modelled code raises or lets through.
    [ValidationError] is what pydantic raises when a field validator of
    the named model raised [ValueError]: it lists (field, message). *)
Inductive exn : Type :=
| ValueError (msg : string)
| ValidationError (model : string) (errors : list (string * string))
| RedisError (msg : string)
| HTTPException (status_code : Z) (detail : string).

(** [str(e)]. The text of a [ValueError] and of an error of the store
    is its message; the text of an [HTTPException] is its status and its
    detail. For [ValidationError] the text stands for pydantic's report,
    which also quotes the input and varies with the version of the
    library: here a header naming the model, then each field with its
    message. *)
Definition str_exn (e : exn) : string :=
  match e with
  | ValueError msg => msg
  | ValidationError model errors =>
      pretty (length errors) +:+ " validation error for " +:+ model +:+
      PyStr.join "" (map (fun fm => String "010" (fst fm) +:+ String "010" ("  " +:+ snd fm))
                         errors)
  | RedisError msg => msg
  | HTTPException status_code detail => pretty status_code +:+ ": " +:+ detail
  end.

(** Result of a field validator: the [ValueError] message or the value. *)
Definition field_errors {A} (field : string) (r : string + A) : list (string * string) :=
  match r with inl msg => [(field, msg)] | inr _ => [] end.

(** ** The handler monad: world state, local variables, exceptions *)

(** The part of the outside world a handler reads: [uuid.uuid4()] and
    [datetime.now(timezone.utc)], as the sequence of values they will
    return, with the number of values already consumed. *)
Record World : Type := mkWorld {
  uuid4_at : nat -> string;
  uuid_ctr : nat;
  now_at : nat -> Z;
  clock_ctr : nat
}.

(** A computation over the world and the handler's local variables [L].
    The state is returned in both outcomes: assignments made before an
    exception is raised are kept, as in Python. *)
Definition M (L A : Type) : Type := World * L -> (exn + A) * (World * L).

Global Instance M_ret {L} : MRet (M L) := fun A a s => (inr a, s).

Global Instance M_bind {L} : MBind (M L) := fun A B f m s =>
  match m s with
  | (inl e, s') => (inl e, s')
  | (inr a, s') => f a s'
  end.

Definition raise {L A} (e : exn) : M L A := fun s => (inl e, s).

(** [try: body except Exception as e: handler(e)] *)
Definition try_except {L A} (body : M L A) (handler : exn -> M L A) : M L A :=
  fun s =>
    match body s with
    | (inl e, s') => handler e s'
    | (inr a, s') => (inr a, s')
    end.

(** Lift a pure fallible computation. *)
Definition lift {L A} (r : exn + A) : M L A := fun s => (r, s).

Definition get_locals {L} : M L L := fun s => (inr (snd s), s).
Definition set_locals {L} (l : L) : M L unit := fun s => (inr tt, (fst s, l)).

(** [str(uuid.uuid4())] *)
Definition uuid4 {L} : M L string := fun s =>
  let w := fst s in
  (inr (uuid4_at w (uuid_ctr w)),
   (mkWorld (uuid4_at w) (S (uuid_ctr w)) (now_at w) (clock_ctr w), snd s)).

(** [datetime.now(timezone.utc)] *)
Definition datetime_now {L} : M L Z := fun s =>
  let w := fst s in
  (inr (now_at w (clock_ctr w)),
   (mkWorld (uuid4_at w) (uuid_ctr w) (now_at w) (S (clock_ctr w)), snd s)).

(** List comprehension [[f(x) for x in l]] with a fallible [f]: the first
    exception ends it. *)
Fixpoint map_exn {A B} (f : A -> exn + B) (l : list A) : exn + list B :=
  match l with
  | [] => inr []
  | x :: r =>
      match f x with
      | inl e => inl e
      | inr y => match map_exn f r with inl e => inl e | inr ys => inr (y :: ys) end
      end
  end.

(** ** Value objects *)

(** [domain/value_objects/device_token.py], class [DeviceToken]. *)
Module DeviceToken.

Record t : Type := mk { value : string; platform : string }.

Definition valid_platforms : list string := ["android"; "ios"; "web"].

Definition validate_token (v : string) : string + string :=
  if negb (PyStr.truthy v) || negb (PyStr.truthy (PyStr.strip v)) then
    inl "Device token cannot be empty"
  else if PyStr.len (PyStr.strip v) <? 32 then
    inl "Device token appears to be too short"
  else inr (PyStr.strip v).

Definition validate_platform (v : string) : string + string :=
  if bool_decide (PyStr.lower v ∈ valid_platforms) then inr (PyStr.lower v)
  else inl "Platform must be one of: ['android', 'ios', 'web']".

(** [DeviceToken(value=..., platform=...)]: every field validator runs,
    the failures are reported together. *)
Definition new (value platform : string) : exn + t :=
  match validate_token value, validate_platform platform with
  | inr v, inr p => inr (mk v p)
  | rv, rp => inl (ValidationError "DeviceToken"
                     (field_errors "value" rv ++ field_errors "platform" rp))
  end.

End DeviceToken.

(** [domain/value_objects/device_token.py], class [DeviceTokenList]. *)
Module DeviceTokenList.

Record t : Type := mk { tokens : list DeviceToken.t; max_tokens : Z }.

(** The validator of field [tokens]. [values] is the dictionary pydantic
    hands to a field validator: the fields of the model that were
    validated before this one, by name. *)
Definition validate_tokens (v : list DeviceToken.t) (values : gmap string Z)
  : string + list DeviceToken.t :=
  if bool_decide (v = []) then inl "At least one device token is required"
  else
    let max_tokens := default 500 (values !! "max_tokens") in
    if max_tokens <? len v then
      inl ("Maximum " +:+ pretty max_tokens +:+ " tokens allowed per request")
    else
      let token_values := map DeviceToken.value v in
      if bool_decide (len token_values ≠
                      Z.of_nat (size (list_to_set token_values : gset string)))
      then inl "Duplicate device tokens are not allowed"
      else inr v.

(** [DeviceTokenList(tokens=..., max_tokens=...)]; [max_tokens = None]
    stands for the argument left out. pydantic validates the fields in
    the order of their declaration, [tokens] first and [max_tokens]
    second, and a validator sees only the fields validated before its
    own: [validate_tokens] runs with no entry for [max_tokens]. *)
Definition new (tokens : list DeviceToken.t) (max_tokens : option Z) : exn + t :=
  let values : gmap string Z := ∅ in
  match validate_tokens tokens values with
  | inl msg => inl (ValidationError "DeviceTokenList" [("tokens", msg)])
  | inr toks => inr (mk toks (default 500 max_tokens))
  end.

End DeviceTokenList.

(** [domain/value_objects/topic.py], classes [Topic] and
    [TopicSubscription]. *)
Module Topic.

Record t : Type := mk { name : string; description : option string }.

(** One character of the class [[a-zA-Z0-9\-_\.~%]]. *)
Definition pattern_char (c : ascii) : bool :=
  PyStr.isalnum_char c
  || bool_decide (c ∈ ["-"; "_"; "."; "~"; "%"]%char).

Definition validate_topic_name (v : string) : string + string :=
  if negb (PyStr.truthy v) || negb (PyStr.truthy (PyStr.strip v)) then
    inl "Topic name cannot be empty"
  else if negb (PyStr.forallb_string pattern_char (PyStr.strip v)) then
    inl "Topic name must contain only letters, numbers, and characters: -_.~%"
  else if 250 <? PyStr.len (PyStr.strip v) then
    inl "Topic name cannot exceed 250 characters"
  else inr (PyStr.strip v).

Definition new (name : string) : exn + t :=
  match validate_topic_name name with
  | inl msg => inl (ValidationError "Topic" [("name", msg)])
  | inr n => inr (mk n None)
  end.

End Topic.

Module TopicSubscription.

Record t : Type := mk { topic : Topic.t; device_tokens : list string }.

(** [list(set(v))] is the list of the elements of the set, in the
    order the set yields them. *)
Definition validate_device_tokens (v : list string) : string + list string :=
  if bool_decide (v = []) then inl "At least one device token is required"
  else if 1000 <? len v then
    inl "Maximum 1000 device tokens per topic subscription"
  else
    let unique_tokens := elements (list_to_set v : gset string) in
    if bool_decide (len unique_tokens ≠ len v) then
      inl "Duplicate device tokens are not allowed"
    else inr unique_tokens.

Definition new (topic : Topic.t) (device_tokens : list string) : exn + t :=
  match validate_device_tokens device_tokens with
  | inl msg => inl (ValidationError "TopicSubscription" [("device_tokens", msg)])
  | inr toks => inr (mk topic toks)
  end.

End TopicSubscription.

(** [domain/value_objects/notification_type.py]. *)
Module NotificationType.

Record t : Type := mk {
  value : string;
  template_id : option string;
  priority : string;
  ttl : option Z
}.

(** The values of [NotificationTypeEnum]. *)
Definition NotificationTypeEnum : list string :=
  ["alert"; "silent"; "custom"; "promotional"; "transactional"].

Definition valid_priorities : list string := ["high"; "normal"; "low"].

Definition validate_notification_type (v : string) : string + string :=
  if negb (PyStr.truthy v) || negb (PyStr.truthy (PyStr.strip v)) then
    inl "Notification type cannot be empty"
  else if bool_decide (PyStr.lower v ∈ NotificationTypeEnum) then inr (PyStr.lower v)
  else if negb (PyStr.isalnum (PyStr.remove_char "-" (PyStr.remove_char "_" v))) then
    inl "Custom notification type must be alphanumeric"
  else inr (PyStr.lower v).

Definition validate_priority (v : string) : string + string :=
  if bool_decide (PyStr.lower v ∈ valid_priorities) then inr (PyStr.lower v)
  else inl "Priority must be one of: ['high', 'normal', 'low']".

(** [NotificationType(value=..., priority=...)] *)
Definition new (value priority : string) : exn + t :=
  match validate_notification_type value, validate_priority priority with
  | inr v, inr p => inr (mk v None p None)
  | rv, rp => inl (ValidationError "NotificationType"
                     (field_errors "value" rv ++ field_errors "priority" rp))
  end.

Record TemplateConfig : Type := mkConfig {
  requires_title : bool;
  requires_body : bool;
  supports_data : bool;
  default_priority : string
}.

Definition get_template_config (self : t) : TemplateConfig :=
  if bool_decide (value self = "alert") then mkConfig true true true "high"
  else if bool_decide (value self = "silent") then mkConfig false false true "normal"
  else if bool_decide (value self = "custom") then mkConfig false false true "normal"
  else mkConfig true true true "normal".

End NotificationType.

(** [config/settings.py]: the setting the handlers read. *)
Record Settings : Type := mkSettings { max_tokens_per_request : Z }.

Definition default_settings : Settings := mkSettings 500.

(** ** The Notification entity *)

(** [domain/entities/notification.py]. [data] is the custom payload, a
    dictionary kept as its list of items. *)
Module Notification.

Record t : Type := mk {
  id : string;
  notification_type : NotificationType.t;
  title : option string;
  body : option string;
  data : list (string * string);
  device_tokens : option DeviceTokenList.t;
  topic : option Topic.t;
  created_at : Z;
  scheduled_at : option Z;
  expires_at : option Z;
  priority : string;
  collapse_key : option string;
  ttl : option Z;
  status : string;
  sent_count : Z;
  failed_count : Z;
  error_message : option string
}.

(** [cls(...)] with the field defaults: a fresh id, the creation time,
    status [pending] and both counters at zero. *)
Definition construct {L} (notification_type : NotificationType.t)
    (device_tokens : option DeviceTokenList.t) (topic : option Topic.t)
    (title body : option string) (data : list (string * string))
    (priority : string) (collapse_key : option string) (ttl : option Z)
    (scheduled_at : option Z) : M L t :=
  id ← uuid4;
  created_at ← datetime_now;
  mret (mk id notification_type title body data device_tokens topic
           created_at scheduled_at None priority collapse_key ttl
           "pending" 0 0 None).

(** [data or {}] *)
Definition data_or_empty (data : option (list (string * string))) : list (string * string) :=
  match data with Some d => d | None => [] end.

Definition create_device_notification {L} (notification_type : NotificationType.t)
    (device_tokens : DeviceTokenList.t) (title body : option string)
    (data : option (list (string * string))) (priority : string)
    (collapse_key : option string) (ttl : option Z) (scheduled_at : option Z) : M L t :=
  construct notification_type (Some device_tokens) None title body
            (data_or_empty data) priority collapse_key ttl scheduled_at.

Definition create_topic_notification {L} (notification_type : NotificationType.t)
    (topic : Topic.t) (title body : option string)
    (data : option (list (string * string))) (priority : string)
    (collapse_key : option string) (ttl : option Z) (scheduled_at : option Z) : M L t :=
  construct notification_type None (Some topic) title body
            (data_or_empty data) priority collapse_key ttl scheduled_at.

(** The messages of [validate]. *)
Definition msg_no_target : string :=
  "Notification must target either device tokens or a topic".
Definition msg_both_targets : string :=
  "Notification cannot target both device tokens and topic".
Definition msg_requires_title (self : t) : string :=
  "Notification type '" +:+ NotificationType.value (notification_type self) +:+
  "' requires a title".
Definition msg_requires_body (self : t) : string :=
  "Notification type '" +:+ NotificationType.value (notification_type self) +:+
  "' requires a body".
Definition msg_no_data (self : t) : string :=
  "Notification type '" +:+ NotificationType.value (notification_type self) +:+
  "' does not support custom data".
Definition msg_scheduled_past : string :=
  "Scheduled time cannot be in the past (with 5-minute buffer)".
Definition msg_expired : string := "Expiration time cannot be in the past".

(** [if cond: errors.append(msg)] *)
Definition append_if (cond : bool) (msg : string) (errors : list string) : list string :=
  if cond then errors ++ [msg] else errors.

(** [validate]; [current_time] is what [datetime.now(timezone.utc)]
    returns inside the method. An object of a model class is true, a
    dictionary is true when it has an item. *)
Definition validate (self : t) (current_time : Z) : list string :=
  let errors := [] in
  let errors :=
    append_if (negb (bool_decide (is_Some (device_tokens self)))
               && negb (bool_decide (is_Some (topic self))))
              msg_no_target errors in
  let errors :=
    append_if (bool_decide (is_Some (device_tokens self))
               && bool_decide (is_Some (topic self)))
              msg_both_targets errors in
  let template_config := NotificationType.get_template_config (notification_type self) in
  let errors :=
    append_if (NotificationType.requires_title template_config
               && negb (PyStr.truthy_opt (title self)))
              (msg_requires_title self) errors in
  let errors :=
    append_if (NotificationType.requires_body template_config
               && negb (PyStr.truthy_opt (body self)))
              (msg_requires_body self) errors in
  let errors :=
    append_if (negb (NotificationType.supports_data template_config)
               && negb (bool_decide (data self = [])))
              (msg_no_data self) errors in
  let buffer_time := (current_time - current_time `mod` 60000000) - 300000000 in
  let errors :=
    append_if (match scheduled_at self with
               | Some s => s <? buffer_time
               | None => false
               end)
              msg_scheduled_past errors in
  let errors :=
    append_if (match expires_at self with
               | Some e => e <? current_time
               | None => false
               end)
              msg_expired errors in
  errors.

Definition is_valid (self : t) (current_time : Z) : bool :=
  bool_decide (len (validate self current_time) = 0).

Definition get_target_count (self : t) : Z :=
  match device_tokens self, topic self with
  | Some d, _ => len (DeviceTokenList.tokens d)
  | None, Some _ => 1
  | None, None => 0
  end.

Definition set_outcome (self : t) (status : string) (sent_count failed_count : Z)
    (error_message : option string) : t :=
  mk (id self) (notification_type self) (title self) (body self) (data self)
     (device_tokens self) (topic self) (created_at self) (scheduled_at self)
     (expires_at self) (priority self) (collapse_key self) (ttl self)
     status sent_count failed_count error_message.

(** [mark_sent(count)]; the default of [count] is 1. *)
Definition mark_sent (self : t) (count : Z) : t :=
  set_outcome self
    (if bool_decide (status self = "pending") then "sent" else status self)
    (sent_count self + count) (failed_count self) (error_message self).

(** [mark_failed(error_message, count)]; the default of [count] is 1.
    The message is whatever the caller passes, [None] included. *)
Definition mark_failed (self : t) (error_message : option string) (count : Z) : t :=
  set_outcome self "failed" (sent_count self) (failed_count self + count) error_message.

End Notification.

(** ** The domain service *)

(** [domain/services/notification_service.py]. *)
Module NotificationDomainService.

(** The end of [create_notification]: validate, raise on any error. *)
Definition validated {L} (notification : Notification.t) : M L Notification.t :=
  current_time ← datetime_now;
  let validation_errors := Notification.validate notification current_time in
  if bool_decide (validation_errors = []) then mret notification
  else raise (ValueError ("Invalid notification: " +:+
                          PyStr.join "; " validation_errors)).

Definition create_notification {L} (notification_type : NotificationType.t)
    (title body : option string) (data : option (list (string * string)))
    (device_tokens : option DeviceTokenList.t) (topic : option Topic.t)
    (priority : string) (collapse_key : option string) (ttl : option Z)
    (scheduled_at : option Z) : M L Notification.t :=
  match device_tokens, topic with
  | None, None => raise (ValueError "Must specify either device tokens or topic")
  | Some _, Some _ => raise (ValueError "Cannot specify both device tokens and topic")
  | Some d, None =>
      notification ←
        Notification.create_device_notification notification_type d title body
          (Some (Notification.data_or_empty data)) priority collapse_key ttl scheduled_at;
      validated notification
  | None, Some tp =>
      notification ←
        Notification.create_topic_notification notification_type tp title body
          (Some (Notification.data_or_empty data)) priority collapse_key ttl scheduled_at;
      validated notification
  end.

End NotificationDomainService.

(** ** Requests and responses *)

(** [application/dto/notification_request.py]: the request models, as the
    handlers receive them. *)
Module DeviceTokenRequest.
Record t : Type := mk { token : string; platform : string }.
End DeviceTokenRequest.

Module SendNotificationRequest.
Record t : Type := mk {
  device_tokens : list DeviceTokenRequest.t;
  notification_type : string;
  title : option string;
  body : option string;
  data : list (string * string);
  priority : string;
  collapse_key : option string;
  ttl : option Z;
  scheduled_at : option Z
}.
End SendNotificationRequest.

Module BatchNotificationRequest.
Record t : Type := mk { notifications : list SendNotificationRequest.t }.
End BatchNotificationRequest.

Module TopicSubscriptionRequest.

Record t : Type := mk { topic : string; device_tokens : list string }.

Definition validate_device_tokens (v : list string) : string + list string :=
  if bool_decide (v = []) then inl "At least one device token is required"
  else if 1000 <? len v then
    inl "Maximum 1000 device tokens per topic subscription"
  else
    let unique_tokens := elements (list_to_set v : gset string) in
    if bool_decide (len unique_tokens ≠ len v) then
      inl "Duplicate device tokens are not allowed"
    else inr unique_tokens.

End TopicSubscriptionRequest.

(** [application/dto/notification_response.py]. The field
    [processing_time_ms], a float read off the wall clock, is left out. *)
Module NotificationResult.
Record t : Type := mk {
  notification_id : string;
  status : string;
  sent_count : Z;
  failed_count : Z;
  error_message : option string;
  target_count : Z
}.
End NotificationResult.

Module SendNotificationResponse.
Record t : Type := mk {
  success : bool;
  notification_id : string;
  results : list NotificationResult.t;
  total_sent : Z;
  total_failed : Z;
  total_targets : Z;
  message : string
}.
End SendNotificationResponse.

Module BatchNotificationResponse.
Record t : Type := mk {
  success : bool;
  batch_id : string;
  total_notifications : Z;
  successful_notifications : Z;
  failed_notifications : Z;
  results : list SendNotificationResponse.t;
  message : string
}.
End BatchNotificationResponse.

(** ** The push gateway *)

(** The dictionaries the gateway returns, with the keys the handlers
    read. *)
Module SendResult.
Record t : Type := mk {
  success : bool;
  message_id : option string;
  error : option string
}.
End SendResult.

Module MulticastResult.
Record t : Type := mk {
  success : bool;
  success_count : Z;
  failure_count : Z;
  error : option string
}.
End MulticastResult.

(** The gateway as the handlers use it: the two send operations of
    [FCMClient], by their arguments [device_token(s), title, body, data,
    priority, collapse_key, ttl]. *)
Record FCMClient : Type := mkFCMClient {
  send_to_device :
    string -> option string -> option string -> list (string * string) ->
    string -> option string -> option Z -> SendResult.t;
  send_to_multiple_devices :
    list string -> option string -> option string -> list (string * string) ->
    string -> option string -> option Z -> MulticastResult.t
}.

(** [infrastructure/fcm/fcm_client.py]: the client over the Firebase SDK.
    An SDK call returns or raises; both [except] clauses of a method build
    the same dictionary from [str(e)]. *)
Module FirebaseClient.

Inductive sdk_outcome (A : Type) : Type :=
| Returned (response : A)
| Raised (str_e : string).
Arguments Returned {A} _.
Arguments Raised {A} _.

(** [messaging.send] and [messaging.send_multicast]; the latter returns
    a batch response with its [success_count] and [failure_count]. *)
Record Messaging : Type := mkMessaging {
  send : string -> sdk_outcome string;
  send_multicast : list string -> sdk_outcome (Z * Z)
}.

Definition send_to_device (messaging : Messaging) (device_token : string)
    (title body : option string) (data : list (string * string)) (priority : string)
    (collapse_key : option string) (ttl : option Z) : SendResult.t :=
  match send messaging device_token with
  | Returned response => SendResult.mk true (Some response) None
  | Raised str_e => SendResult.mk false None (Some str_e)
  end.

Definition send_to_multiple_devices (messaging : Messaging) (device_tokens : list string)
    (title body : option string) (data : list (string * string)) (priority : string)
    (collapse_key : option string) (ttl : option Z) : MulticastResult.t :=
  match send_multicast messaging device_tokens with
  | Returned response => MulticastResult.mk true (fst response) (snd response) None
  | Raised str_e => MulticastResult.mk false 0 (len device_tokens) (Some str_e)
  end.

Definition client (messaging : Messaging) : FCMClient :=
  mkFCMClient (send_to_device messaging) (send_to_multiple_devices messaging).

End FirebaseClient.

(** ** The key/value and pub/sub store *)

(** A JSON value of a stored or published dictionary; [JIso t] is the
    text [t.isoformat()] of the instant [t]. *)
Inductive json : Type :=
| JNull
| JStr (s : string)
| JInt (z : Z)
| JIso (instant : Z).

Definition json_opt (o : option string) : json :=
  match o with Some s => JStr s | None => JNull end.

(** The store as the handlers use it: [set(key, value, ex)] and
    [publish(channel, message)], each of which returns or raises. *)
Record ValkeyClient : Type := mkValkeyClient {
  valkey_set : string -> list (string * json) -> option Z -> exn + bool;
  valkey_publish : string -> list (string * json) -> exn + Z
}.

(** [infrastructure/valkey/valkey_client.py]: the client over a Redis
    connection. [ensure_connected] is the outcome of
    [if not await self.is_connected(): await self.connect()]; the Redis
    commands receive the dictionary that [json.dumps] serialises. *)
Module RedisClient.

Record Redis : Type := mkRedis {
  ensure_connected : exn + unit;
  redis_set : string -> list (string * json) -> option Z -> exn + bool;
  redis_publish : string -> list (string * json) -> exn + Z
}.

(** Both [except] clauses log the error and re-raise it. *)
Definition publish (redis : Redis) (channel : string) (message : list (string * json))
  : exn + Z :=
  match ensure_connected redis with
  | inl e => inl e
  | inr _ =>
      match redis_publish redis channel message with
      | inl e => inl e
      | inr subscribers => inr subscribers
      end
  end.

Definition set (redis : Redis) (key : string) (value : list (string * json))
    (ex : option Z) : exn + bool :=
  match ensure_connected redis with
  | inl e => inl e
  | inr _ =>
      match redis_set redis key value ex with
      | inl e => inl e
      | inr result => inr result
      end
  end.

Definition client (redis : Redis) : ValkeyClient :=
  mkValkeyClient (set redis) (publish redis).

End RedisClient.

(** ** The handlers *)

(** [presentation/api/v1/notifications.py]. *)

(** [DeviceTokenList(tokens=[DeviceToken(...) for token in ...],
    max_tokens=settings.max_tokens_per_request)] *)
Definition build_device_tokens (settings : Settings)
    (device_tokens : list DeviceTokenRequest.t) : exn + DeviceTokenList.t :=
  match map_exn (fun token => DeviceToken.new (DeviceTokenRequest.token token)
                                              (DeviceTokenRequest.platform token))
                device_tokens with
  | inl e => inl e
  | inr tokens => DeviceTokenList.new tokens (Some (max_tokens_per_request settings))
  end.

(** The first part of a handler's [try] block: the request is converted
    to domain objects and the notification is created. *)
Definition prepare {L} (settings : Settings) (request : SendNotificationRequest.t)
  : M L (DeviceTokenList.t * Notification.t) :=
  device_tokens ← lift (build_device_tokens settings
                          (SendNotificationRequest.device_tokens request));
  notification_type ← lift (NotificationType.new
                              (SendNotificationRequest.notification_type request)
                              (SendNotificationRequest.priority request));
  notification ←
    NotificationDomainService.create_notification notification_type
      (SendNotificationRequest.title request) (SendNotificationRequest.body request)
      (Some (SendNotificationRequest.data request)) (Some device_tokens) None
      (SendNotificationRequest.priority request)
      (SendNotificationRequest.collapse_key request)
      (SendNotificationRequest.ttl request)
      (SendNotificationRequest.scheduled_at request);
  mret (device_tokens, notification).

(** The two gateway calls of the handlers, with the content and the
    delivery options of the notification as arguments. *)
Definition device_result (fcm_client : FCMClient) (notification : Notification.t)
    (device_token : string) : SendResult.t :=
  send_to_device fcm_client device_token
    (Notification.title notification) (Notification.body notification)
    (Notification.data notification) (Notification.priority notification)
    (Notification.collapse_key notification) (Notification.ttl notification).

Definition multicast_result (fcm_client : FCMClient) (notification : Notification.t)
    (device_token_values : list string) : MulticastResult.t :=
  send_to_multiple_devices fcm_client device_token_values
    (Notification.title notification) (Notification.body notification)
    (Notification.data notification) (Notification.priority notification)
    (Notification.collapse_key notification) (Notification.ttl notification).

(** The local variables of [send_notification] once the gateway call is
    made: the entity as [mark_sent]/[mark_failed] left it, [results],
    [sent_count], [failed_count], [status], and the entries
    [result.get("error")] and [result.get("message_id")]. *)
Record Dispatched : Type := mkDispatched {
  d_notification : Notification.t;
  d_results : list NotificationResult.t;
  d_sent_count : Z;
  d_failed_count : Z;
  d_status : string;
  d_error : option string;
  d_message_id : option string
}.

(** The gateway call of [send_notification] and the aggregation of its
    result: the branch [len(device_token_values) == 1] and its [else]. *)
Definition dispatch (fcm_client : FCMClient) (notification_id : string)
    (notification : Notification.t) (device_token_values : list string) : Dispatched :=
  match device_token_values with
  | [device_token] =>
      let result := device_result fcm_client notification device_token in
      let '(notification, sent_count, failed_count, status) :=
        if SendResult.success result then
          (Notification.mark_sent notification 1, 1, 0, "success")
        else
          (Notification.mark_failed notification (SendResult.error result) 1,
           0, 1, "failed") in
      mkDispatched notification
        [NotificationResult.mk notification_id status sent_count failed_count
           (SendResult.error result) 1]
        sent_count failed_count status
        (SendResult.error result) (SendResult.message_id result)
  | _ =>
      let result := multicast_result fcm_client notification device_token_values in
      let '(notification, sent_count, failed_count, status) :=
        if MulticastResult.success result then
          let notification :=
            Notification.mark_sent notification (MulticastResult.success_count result) in
          let notification :=
            if 0 <? MulticastResult.failure_count result then
              Notification.mark_failed notification (Some "Some devices failed")
                (MulticastResult.failure_count result)
            else notification in
          let sent_count := MulticastResult.success_count result in
          let failed_count := MulticastResult.failure_count result in
          (notification, sent_count, failed_count,
           if 0 <? failed_count then "partial" else "success")
        else
          (Notification.mark_failed notification (MulticastResult.error result) 1,
           0, len device_token_values, "failed") in
      mkDispatched notification
        [NotificationResult.mk notification_id status sent_count failed_count
           (MulticastResult.error result) (len device_token_values)]
        sent_count failed_count status
        (MulticastResult.error result) None
  end.

(** The dictionary [notification_status] of [send_notification]. *)
Definition notification_status (notification_id : string) (d : Dispatched)
  : list (string * json) :=
  [("notification_id", JStr notification_id);
   ("type", JStr (NotificationType.value (Notification.notification_type (d_notification d))));
   ("target_count", JInt (Notification.get_target_count (d_notification d)));
   ("sent_count", JInt (d_sent_count d));
   ("failed_count", JInt (d_failed_count d));
   ("status", JStr (d_status d));
   ("created_at", JIso (Notification.created_at (d_notification d)));
   ("error_message", json_opt (d_error d));
   ("message_id", json_opt (d_message_id d))].

(** The response [send_notification] returns. *)
Definition send_response (notification_id : string) (d : Dispatched)
  : SendNotificationResponse.t :=
  SendNotificationResponse.mk
    (negb (bool_decide (d_status d = "failed")))
    notification_id
    (d_results d)
    (d_sent_count d)
    (d_failed_count d)
    (Notification.get_target_count (d_notification d))
    ("Notification sent successfully to " +:+ pretty (d_sent_count d) +:+ " devices").

(** [send_notification]: any exception of the [try] block becomes an
    [HTTPException] with status 500 and the text of the exception. *)
Definition send_notification (settings : Settings) (request : SendNotificationRequest.t)
    (fcm_client : FCMClient) (valkey_client : ValkeyClient)
  : M unit SendNotificationResponse.t :=
  notification_id ← uuid4;
  try_except
    ('(device_tokens, notification) ← prepare settings request;
     let device_token_values :=
       map DeviceToken.value (DeviceTokenList.tokens device_tokens) in
     let d := dispatch fcm_client notification_id notification device_token_values in
     _ ← lift (valkey_set valkey_client ("notification:" +:+ notification_id)
                 (notification_status notification_id d) (Some 3600));
     _ ← lift (valkey_publish valkey_client "notification.sent"
                 (notification_status notification_id d));
     mret (send_response notification_id d))
    (fun e => raise (HTTPException 500 (str_exn e))).

(** Running a handler in a world, from initial local variables. *)
Definition run {L A} (m : M L A) (w : World) (locals : L) : (exn + A) * World :=
  let '(r, (w', _)) := m (w, locals) in (r, w').

(** *** The batch handler *)

(** The local variables [send_batch_notifications] keeps across the
    iterations of its loop. The handler has one variable [failed_count]:
    the loop body assigns the per-item failure count to the same variable
    that counts the failed items. *)
Record BatchLocals : Type := mkBatchLocals {
  results : list SendNotificationResponse.t;
  successful_count : Z;
  failed_count : Z
}.

(** [failed_count = v] *)
Definition assign_failed_count (v : Z) : M BatchLocals unit := fun s =>
  (inr tt, (fst s, mkBatchLocals (results (snd s)) (successful_count (snd s)) v)).

(** [failed_count += 1] *)
Definition incr_failed_count : M BatchLocals unit := fun s =>
  (inr tt, (fst s, mkBatchLocals (results (snd s)) (successful_count (snd s))
                                 (failed_count (snd s) + 1))).

(** [successful_count += 1] *)
Definition incr_successful_count : M BatchLocals unit := fun s =>
  (inr tt, (fst s, mkBatchLocals (results (snd s)) (successful_count (snd s) + 1)
                                 (failed_count (snd s)))).

(** [results.append(r)] *)
Definition append_result (r : SendNotificationResponse.t) : M BatchLocals unit := fun s =>
  (inr tt, (fst s, mkBatchLocals (results (snd s) ++ [r]) (successful_count (snd s))
                                 (failed_count (snd s)))).

(** The gateway call of one batch item. It returns [sent_count],
    [status], [result.get("error")] and [result.get("message_id")], and
    assigns [failed_count] and [successful_count]. *)
Definition batch_dispatch (fcm_client : FCMClient) (notification : Notification.t)
    (device_token_values : list string)
  : M BatchLocals (Z * string * option string * option string) :=
  match device_token_values with
  | [device_token] =>
      let result := device_result fcm_client notification device_token in
      if SendResult.success result then
        _ ← assign_failed_count 0;
        _ ← incr_successful_count;
        mret (1, "success", SendResult.error result, SendResult.message_id result)
      else
        _ ← assign_failed_count 1;
        _ ← incr_failed_count;
        mret (0, "failed", SendResult.error result, SendResult.message_id result)
  | _ =>
      let result := multicast_result fcm_client notification device_token_values in
      if MulticastResult.success result then
        _ ← assign_failed_count (MulticastResult.failure_count result);
        _ ← incr_successful_count;
        mret (MulticastResult.success_count result,
              if 0 <? MulticastResult.failure_count result then "partial" else "success",
              MulticastResult.error result, None)
      else
        _ ← assign_failed_count (len device_token_values);
        _ ← incr_failed_count;
        mret (0, "failed", MulticastResult.error result, None)
  end.

(** The dictionary [notification_status] of a batch item. *)
Definition batch_notification_status (batch_id : string) (notification : Notification.t)
    (device_token_values : list string) (sent_count failed_count : Z) (status : string)
    (error message_id : option string) : list (string * json) :=
  [("notification_id", JStr (Notification.id notification));
   ("type", JStr (NotificationType.value (Notification.notification_type notification)));
   ("target_count", JInt (len device_token_values));
   ("sent_count", JInt sent_count);
   ("failed_count", JInt failed_count);
   ("status", JStr status);
   ("created_at", JIso (Notification.created_at notification));
   ("error_message", json_opt error);
   ("message_id", json_opt message_id);
   ("batch_id", JStr batch_id)].

(** The [try] block of the loop body. *)
Definition batch_item_try (settings : Settings) (fcm_client : FCMClient)
    (valkey_client : ValkeyClient) (batch_id : string)
    (notification_request : SendNotificationRequest.t) : M BatchLocals unit :=
  '(device_tokens, notification) ← prepare settings notification_request;
  let device_token_values :=
    map DeviceToken.value (DeviceTokenList.tokens device_tokens) in
  '(sent_count, status, error, message_id) ←
    batch_dispatch fcm_client notification device_token_values;
  locals ← get_locals;
  let failed_count := failed_count locals in
  _ ← lift (valkey_set valkey_client ("notification:" +:+ Notification.id notification)
              (batch_notification_status batch_id notification device_token_values
                 sent_count failed_count status error message_id)
              (Some 3600));
  response_id ← uuid4;
  append_result
    (SendNotificationResponse.mk
       (negb (bool_decide (status = "failed")))
       response_id
       [NotificationResult.mk (Notification.id notification) status sent_count
          failed_count error (len device_token_values)]
       sent_count failed_count (len device_token_values)
       ("Batch notification " +:+ status)).

(** The [except Exception as e] block of the loop body. *)
Definition batch_item_except (e : exn) : M BatchLocals unit :=
  _ ← incr_failed_count;
  response_id ← uuid4;
  append_result
    (SendNotificationResponse.mk false response_id [] 0 1 0
       ("Failed to process notification: " +:+ str_exn e)).

(** The loop body. *)
Definition batch_item (settings : Settings) (fcm_client : FCMClient)
    (valkey_client : ValkeyClient) (batch_id : string)
    (notification_request : SendNotificationRequest.t) : M BatchLocals unit :=
  try_except
    (batch_item_try settings fcm_client valkey_client batch_id notification_request)
    batch_item_except.

(** [for x in l: body(x)] *)
Fixpoint for_each {L A} (body : A -> M L unit) (l : list A) : M L unit :=
  match l with
  | [] => mret tt
  | x :: r => _ ← body x; for_each body r
  end.

(** The event published once the loop is over. *)
Definition batch_event (batch_id : string) (request : BatchNotificationRequest.t)
    (locals : BatchLocals) : list (string * json) :=
  [("batch_id", JStr batch_id);
   ("total_notifications", JInt (len (BatchNotificationRequest.notifications request)));
   ("successful_count", JInt (successful_count locals));
   ("failed_count", JInt (failed_count locals))].

(** The response [send_batch_notifications] returns. *)
Definition batch_response (batch_id : string) (request : BatchNotificationRequest.t)
    (locals : BatchLocals) : BatchNotificationResponse.t :=
  BatchNotificationResponse.mk
    (bool_decide (failed_count locals = 0))
    batch_id
    (len (BatchNotificationRequest.notifications request))
    (successful_count locals)
    (failed_count locals)
    (results locals)
    ("Batch processing completed: " +:+ pretty (successful_count locals) +:+
     " successful, " +:+ pretty (failed_count locals) +:+ " failed").

Definition send_batch_notifications (settings : Settings)
    (request : BatchNotificationRequest.t)
    (fcm_client : FCMClient) (valkey_client : ValkeyClient)
  : M BatchLocals BatchNotificationResponse.t :=
  batch_id ← uuid4;
  try_except
    (_ ← set_locals (mkBatchLocals [] 0 0);
     _ ← for_each (batch_item settings fcm_client valkey_client batch_id)
                  (BatchNotificationRequest.notifications request);
     locals ← get_locals;
     _ ← lift (valkey_publish valkey_client "notification.batch.sent"
                 (batch_event batch_id request locals));
     mret (batch_response batch_id request locals))
    (fun e => raise (HTTPException 500 (str_exn e))).

(** The handler is entered with no local variable assigned yet. *)
Definition no_locals : BatchLocals := mkBatchLocals [] 0 0.

(** ** Call sequences on the entity *)

(** A call of one of the two mutators of [Notification]. *)
Inductive call : Type :=
| MarkSent (count : Z)
| MarkFailed (error_message : option string) (count : Z).

Definition apply_call (self : Notification.t) (c : call) : Notification.t :=
  match c with
  | MarkSent count => Notification.mark_sent self count
  | MarkFailed error_message count => Notification.mark_failed self error_message count
  end.

Definition apply_calls (self : Notification.t) (cs : list call) : Notification.t :=
  fold_left apply_call cs self.

(** The counts passed to [mark_sent], added up; likewise for
    [mark_failed]. *)
Fixpoint sent_total (cs : list call) : Z :=
  match cs with
  | [] => 0
  | MarkSent count :: r => count + sent_total r
  | MarkFailed _ _ :: r => sent_total r
  end.

Fixpoint failed_total (cs : list call) : Z :=
  match cs with
  | [] => 0
  | MarkSent _ :: r => failed_total r
  | MarkFailed _ count :: r => count + failed_total r
  end.

Definition call_count (c : call) : Z :=
  match c with MarkSent count => count | MarkFailed _ count => count end.

Definition is_mark_failed (c : call) : bool :=
  match c with MarkFailed _ _ => true | MarkSent _ => false end.

(** ** Sample inputs *)

Module Sample.

(** A world whose uuid generator returns a fixed sequence and whose clock
    stands still. *)
Definition world : World :=
  mkWorld (fun n => nth n ["id-0"; "id-1"; "id-2"; "id-3"; "id-4"; "id-5"; "id-6"] "id-n") 0
          (fun _ => 1700000000000000) 0.

Definition token (c : ascii) : string :=
  "fcm-registration-token-000000000" +:+ String c "".

Definition token_request (c : ascii) : DeviceTokenRequest.t :=
  DeviceTokenRequest.mk (token c) "android".

(** An alert with title and body for the given tokens. *)
Definition alert (tokens : list ascii) : SendNotificationRequest.t :=
  SendNotificationRequest.mk (map token_request tokens) "alert"
    (Some "Build finished") (Some "All checks passed") [] "high" None None None.

Definition alert_type : NotificationType.t :=
  NotificationType.mk "alert" None "high" None.

(** An alert that has neither target, title nor body. *)
Definition bare_alert : Notification.t :=
  Notification.mk "id-0" alert_type None None [] None None 1700000000000000
    None None "high" None None "pending" 0 0 None.

(** The SDK reports [success_count] and [failure_count] for every
    multicast and accepts every single send. *)
Definition messaging (success_count failure_count : Z) : FirebaseClient.Messaging :=
  FirebaseClient.mkMessaging
    (fun _ => FirebaseClient.Returned "projects/p/messages/1")
    (fun _ => FirebaseClient.Returned (success_count, failure_count)).

(** The SDK raises on every call. *)
Definition messaging_down : FirebaseClient.Messaging :=
  FirebaseClient.mkMessaging
    (fun _ => FirebaseClient.Raised "UNAVAILABLE")
    (fun _ => FirebaseClient.Raised "UNAVAILABLE").

(** The SDK rejects the token ending in [a] and accepts the others. *)
Definition messaging_rejects_a : FirebaseClient.Messaging :=
  FirebaseClient.mkMessaging
    (fun device_token =>
       if bool_decide (device_token = token "a")
       then FirebaseClient.Raised "UNREGISTERED"
       else FirebaseClient.Returned "projects/p/messages/1")
    (fun _ => FirebaseClient.Returned (1, 0)).

Definition redis_up : RedisClient.Redis :=
  RedisClient.mkRedis (inr tt) (fun _ _ _ => inr true) (fun _ _ => inr 0).

(** [SET] fails, [PUBLISH] works. *)
Definition redis_set_fails : RedisClient.Redis :=
  RedisClient.mkRedis (inr tt) (fun _ _ _ => inl (RedisError "READONLY"))
                      (fun _ _ => inr 0).

(** [SET] works, [PUBLISH] fails. *)
Definition redis_publish_fails : RedisClient.Redis :=
  RedisClient.mkRedis (inr tt) (fun _ _ _ => inr true)
                      (fun _ _ => inl (RedisError "READONLY")).

(** The notification [prepare] builds for [alert tokens]. *)
Definition prepared (tokens : list ascii)
  : exn + (DeviceTokenList.t * Notification.t) :=
  fst (prepare default_settings (alert tokens) (world, tt)).

Definition device_tokens (tokens : list ascii) : DeviceTokenList.t :=
  DeviceTokenList.mk (map (fun c => DeviceToken.mk (token c) "android") tokens) 500.

Definition notification_with_id (id : string) (tokens : list ascii) : Notification.t :=
  Notification.mk id alert_type (Some "Build finished") (Some "All checks passed")
    [] (Some (device_tokens tokens)) None 1700000000000000 None None "high"
    None None "pending" 0 0 None.

Definition notification (tokens : list ascii) : Notification.t :=
  notification_with_id "id-0" tokens.

(** [n] distinct device tokens. *)
Definition numbered_token (i : nat) : DeviceToken.t :=
  DeviceToken.mk ("fcm-registration-token-000000000" +:+ pretty i) "android".

Definition numbered_tokens (n : nat) : list DeviceToken.t :=
  map numbered_token (seq 0 n).

End Sample.

(** ** Predicates of the statements *)

(** The violations [validate] looks for. *)
Definition no_target (self : Notification.t) : Prop :=
  Notification.device_tokens self = None /\ Notification.topic self = None.

Definition both_targets (self : Notification.t) : Prop :=
  is_Some (Notification.device_tokens self) /\ is_Some (Notification.topic self).

Definition title_missing (self : Notification.t) : Prop :=
  NotificationType.requires_title
    (NotificationType.get_template_config (Notification.notification_type self)) = true
  /\ PyStr.truthy_opt (Notification.title self) = false.

Definition body_missing (self : Notification.t) : Prop :=
  NotificationType.requires_body
    (NotificationType.get_template_config (Notification.notification_type self)) = true
  /\ PyStr.truthy_opt (Notification.body self) = false.

Definition data_unsupported (self : Notification.t) : Prop :=
  NotificationType.supports_data
    (NotificationType.get_template_config (Notification.notification_type self)) = false
  /\ Notification.data self <> [].

Definition scheduled_in_past (self : Notification.t) (current_time : Z) : Prop :=
  exists s, Notification.scheduled_at self = Some s
            /\ s < (current_time - current_time `mod` 60000000) - 300000000.

Definition expired (self : Notification.t) (current_time : Z) : Prop :=
  exists e, Notification.expires_at self = Some e /\ e < current_time.

(** A token that [DeviceToken] accepts unchanged. *)
Definition well_formed_token (t : DeviceToken.t) : bool :=
  match DeviceToken.new (DeviceToken.value t) (DeviceToken.platform t) with
  | inr t' => bool_decide (DeviceToken.value t' = DeviceToken.value t)
              && bool_decide (DeviceToken.platform t' = DeviceToken.platform t)
  | inl _ => false
  end.

(** The world once the handler has drawn its first uuid. *)
Definition after_uuid (w : World) : World :=
  mkWorld (uuid4_at w) (S (uuid_ctr w)) (now_at w) (clock_ctr w).

(** The gateway call of [dispatch] returned a result: always for a single
    token, and for a multicast when the result has [success] set and a
    failure count that is not negative. *)
Definition gateway_returned (fcm_client : FCMClient) (notification : Notification.t)
    (device_token_values : list string) : Prop :=
  match device_token_values with
  | [_] => True
  | _ => MulticastResult.success
           (multicast_result fcm_client notification device_token_values) = true
         /\ 0 <= MulticastResult.failure_count
                   (multicast_result fcm_client notification device_token_values)
  end.

(** [s.isascii()]: every character of the string is an ASCII code
    point. On such strings the methods of [PyStr] are the methods of
    Python's [str]. *)
Definition isascii (s : string) : bool :=
  PyStr.forallb_string (fun c => Nat.ltb (nat_of_ascii c) 128) s.






(** Further sample inputs. *)
Module SampleRequests.


(** The SDK accepts every single send and, of a multicast, delivers to
    every token but one. *)
Definition messaging_all_but_one : FirebaseClient.Messaging :=
  FirebaseClient.mkMessaging
    (fun _ => FirebaseClient.Returned "projects/p/messages/1")
    (fun device_tokens => FirebaseClient.Returned (len device_tokens - 1, 1)).

End SampleRequests.

(** ** Further methods of the value objects *)

(** The grouping step of the loops that fill a dictionary of lists:
    [if k not in d: d[k] = []] followed by [d[k].append(v)]. *)
Definition append_to_group {B} (d : gmap string (list B)) (k : string) (v : B)
  : gmap string (list B) :=
  alter (fun l => l ++ [v]) k
        (if bool_decide (k ∈ dom d) then d else <[k := []]> d).

(** [domain/value_objects/device_token.py]: the derived operations of
    [DeviceTokenList]. A dictionary is a finite map; the order of its
    keys is not kept. *)
Module DeviceTokenListMethods.

(** [list(set(token.platform for token in self.tokens))] *)
Definition get_platforms (self : DeviceTokenList.t) : list string :=
  elements (list_to_set (map DeviceToken.platform (DeviceTokenList.tokens self))
            : gset string).

Definition group_by_platform (self : DeviceTokenList.t) : gmap string (list string) :=
  fold_left (fun grouped token =>
               append_to_group grouped (DeviceToken.platform token)
                                       (DeviceToken.value token))
            (DeviceTokenList.tokens self) ∅.

End DeviceTokenListMethods.

(** The tokens of a platform, in the order of the list. *)
Definition tokens_of_platform (p : string) (tokens : list DeviceToken.t) : list string :=
  map DeviceToken.value (filter (fun t => DeviceToken.platform t = p) tokens).

(** A string whose first character, if any, is not white space. *)
Definition starts_clean (s : string) : Prop :=
  match s with
  | EmptyString => True
  | String c _ => PyStr.isspace_char c = false
  end.

(** The characters of a string. *)
Definition chars (s : string) : list ascii := String.list_ascii_of_string s.

(** [domain/value_objects/notification_type.py], [is_predefined]. *)
Definition is_predefined (self : NotificationType.t) : bool :=
  bool_decide (NotificationType.value self ∈ NotificationType.NotificationTypeEnum).

(** [application/dto/notification_request.py], class
    [TopicNotificationRequest] with its validators. *)
Module TopicNotificationRequest.

Record t : Type := mk {
  topic : string;
  notification_type : string;
  title : option string;
  body : option string;
  data : list (string * string);
  priority : string;
  collapse_key : option string;
  ttl : option Z;
  scheduled_at : option Z
}.

Definition validate_topic (v : string) : string + string :=
  if negb (PyStr.truthy v) || negb (PyStr.truthy (PyStr.strip v)) then
    inl "Topic name cannot be empty"
  else if negb (PyStr.forallb_string Topic.pattern_char (PyStr.strip v)) then
    inl "Topic name must contain only letters, numbers, and characters: -_.~%"
  else if 250 <? PyStr.len (PyStr.strip v) then
    inl "Topic name cannot exceed 250 characters"
  else inr (PyStr.strip v).

Definition validate_notification_type (v : string) : string + string :=
  if negb (PyStr.truthy v) || negb (PyStr.truthy (PyStr.strip v)) then
    inl "Notification type cannot be empty"
  else inr (PyStr.lower v).

Definition validate_priority (v : string) : string + string :=
  if bool_decide (PyStr.lower v ∈ ["high"; "normal"; "low"]) then inr (PyStr.lower v)
  else inl "Priority must be one of: ['high', 'normal', 'low']".

Definition validate_ttl (v : option Z) : string + option Z :=
  match v with
  | Some ttl =>
      if (ttl <? 0) || (2419200 <? ttl) then
        inl "TTL must be between 0 and 2419200 seconds (28 days)"
      else inr v
  | None => inr v
  end.

End TopicNotificationRequest.

(** A character that is a letter, a digit, an underscore or a hyphen. *)
Definition identifier_char (c : ascii) : bool :=
  PyStr.isalnum_char c || Ascii.eqb "_" c || Ascii.eqb "-" c.

(** Exactly one of the two targets is set. *)
Definition one_target (device_tokens : option DeviceTokenList.t) (topic : option Topic.t)
  : Prop :=
  (is_Some device_tokens /\ topic = None) \/ (device_tokens = None /\ is_Some topic).

(** ** Further methods of the domain service *)

(** [domain/services/notification_service.py]. *)
Module NotificationDomainServiceMethods.

(** [validate_notification_type_requirements]; a [data] of [None] or of
    no item is false. *)
Definition validate_notification_type_requirements
    (notification_type : NotificationType.t) (title body : option string)
    (data : option (list (string * string))) : list string :=
  let errors := [] in
  let template_config := NotificationType.get_template_config notification_type in
  let errors :=
    Notification.append_if
      (NotificationType.requires_title template_config && negb (PyStr.truthy_opt title))
      ("Notification type '" +:+ NotificationType.value notification_type +:+
       "' requires a title") errors in
  let errors :=
    Notification.append_if
      (NotificationType.requires_body template_config && negb (PyStr.truthy_opt body))
      ("Notification type '" +:+ NotificationType.value notification_type +:+
       "' requires a body") errors in
  let errors :=
    Notification.append_if
      (negb (NotificationType.supports_data template_config)
       && negb (bool_decide (Notification.data_or_empty data = [])))
      ("Notification type '" +:+ NotificationType.value notification_type +:+
       "' does not support custom data") errors in
  errors.

(** [should_retry_notification]; [now] is the clock reading of the
    expiry check, the default of [max_retries] is 3. *)
Definition should_retry_notification (notification : Notification.t)
    (max_retries : Z) (now : Z) : bool :=
  if negb (bool_decide (Notification.status notification = "failed")) then false
  else if max_retries <=? Notification.failed_count notification then false
  else match Notification.expires_at notification with
       | Some e => if e <? now then false else true
       | None => true
       end.

(** [get_notification_priority] *)
Definition get_notification_priority (notification_type : NotificationType.t)
    (override_priority : option string) : string :=
  match override_priority with
  | Some p => if PyStr.truthy p then p
              else NotificationType.default_priority
                     (NotificationType.get_template_config notification_type)
  | None => NotificationType.default_priority
              (NotificationType.get_template_config notification_type)
  end.

(** [estimate_delivery_time]; the clock is read only when no
    [current_time] is passed. *)
Definition estimate_delivery_time {L} (notification : Notification.t)
    (current_time : option Z) : M L Z :=
  current_time ← match current_time with
                 | None => datetime_now
                 | Some t => mret t
                 end;
  match Notification.scheduled_at notification with
  | Some s => mret s
  | None => mret (current_time - current_time `mod` 1000000)
  end.

End NotificationDomainServiceMethods.

(** The summary [process_notification_batch] returns. *)
Module BatchSummary.
Record t : Type := mk {
  total_count : Z;
  valid_count : Z;
  invalid_count : Z;
  type_groups : gmap string Z;
  device_notifications : Z;
  topic_notifications : Z;
  total_targets : Z
}.
End BatchSummary.

(** [sum(1 for n in notifications if n.is_valid())]: every [is_valid]
    reads the clock. *)
Fixpoint count_valid {L} (notifications : list Notification.t) : M L Z :=
  match notifications with
  | [] => mret 0
  | n :: rest =>
      current_time ← datetime_now;
      k ← count_valid rest;
      mret ((if Notification.is_valid n current_time then 1 else 0) + k)
  end.

(** [sum(n.get_target_count() for n in notifications)] *)
Definition sum_target_counts (notifications : list Notification.t) : Z :=
  foldr (fun n acc => Notification.get_target_count n + acc) 0 notifications.

(** [process_notification_batch] of the domain service. *)
Definition process_notification_batch {L} (notifications : list Notification.t)
  : M L BatchSummary.t :=
  let total_count := len notifications in
  valid_count ← count_valid notifications;
  let invalid_count := total_count - valid_count in
  let type_groups :=
    fold_left (fun groups notification =>
                 append_to_group groups
                   (NotificationType.value (Notification.notification_type notification))
                   notification)
              notifications ∅ in
  let device_notifications :=
    filter (fun n => is_Some (Notification.device_tokens n)) notifications in
  let topic_notifications :=
    filter (fun n => is_Some (Notification.topic n)) notifications in
  mret (BatchSummary.mk total_count valid_count invalid_count
          ((fun v => len v) <$> type_groups)
          (len device_notifications) (len topic_notifications)
          (sum_target_counts notifications)).

(** The notifications of a type. *)
Definition of_type (value : string) (notifications : list Notification.t)
  : list Notification.t :=
  filter (fun n => NotificationType.value (Notification.notification_type n) = value)
         notifications.

(** ** The FCM message of a notification *)

(** A Python value of the message built by [to_fcm_message]: a string or
    a dictionary, kept as the list of its items in insertion order. *)
#[local] Set Warnings "-register-all".
Inductive pyobj : Type :=
| PyString (s : string)
| PyDict (items : list (string * pyobj)).

(** The exceptions of subscripting. *)
Inductive pyerr : Type :=
| KeyError (key : string)
| IndexError (msg : string)
| TypeError (msg : string).

(** [d.get(k)] on the items of a dictionary. *)
Fixpoint dict_get (items : list (string * pyobj)) (k : string) : option pyobj :=
  match items with
  | [] => None
  | (k', v) :: rest => if String.eqb k k' then Some v else dict_get rest k
  end.

(** [d[k] = v] on the items of a dictionary. *)
Fixpoint dict_set (items : list (string * pyobj)) (k : string) (v : pyobj)
  : list (string * pyobj) :=
  match items with
  | [] => [(k, v)]
  | (k', v') :: rest =>
      if String.eqb k k' then (k, v) :: rest else (k', v') :: dict_set rest k v
  end.

(** [o[p1][p2]...[pn][key] = v]: every subscript of the path must find
    its key, the last one assigns. *)
Fixpoint set_path (path : list string) (key : string) (v : pyobj) (o : pyobj)
  : pyerr + pyobj :=
  match o with
  | PyString _ => inl (TypeError "'str' object is not subscriptable")
  | PyDict items =>
      match path with
      | [] => inr (PyDict (dict_set items key v))
      | p :: rest =>
          match dict_get items p with
          | None => inl (KeyError p)
          | Some child =>
              match set_path rest key v child with
              | inl e => inl e
              | inr child' => inr (PyDict (dict_set items p child'))
              end
          end
      end
  end.

(** [o[p1][p2]...[pn]] *)
Fixpoint get_path (path : list string) (o : pyobj) : pyerr + pyobj :=
  match path with
  | [] => inr o
  | p :: rest =>
      match o with
      | PyString _ => inl (TypeError "'str' object is not subscriptable")
      | PyDict items =>
          match dict_get items p with
          | None => inl (KeyError p)
          | Some child => get_path rest child
          end
      end
  end.

(** Sequencing of steps that can raise. *)
Definition and_then {A B} (r : pyerr + A) (f : A -> pyerr + B) : pyerr + B :=
  match r with inl e => inl e | inr a => f a end.

(** [if cond: step] *)
Definition when (cond : bool) (step : pyobj -> pyerr + pyobj) (message : pyobj)
  : pyerr + pyobj :=
  if cond then step message else inr message.

(** [domain/entities/notification.py], [to_fcm_message]. *)
Definition to_fcm_message (self : Notification.t) : pyerr + pyobj :=
  let message :=
    PyDict [("message",
             PyDict [("notification", PyDict []);
                     ("data", PyDict (map (fun kv => (fst kv, PyString (snd kv)))
                                          (Notification.data self)));
                     ("android", PyDict []);
                     ("apns", PyDict []);
                     ("webpush", PyDict [])])] in
  and_then
    (when (PyStr.truthy_opt (Notification.title self))
          (set_path ["message"; "notification"] "title"
             (PyString (default "" (Notification.title self)))) message)
  (fun message =>
  and_then
    (when (PyStr.truthy_opt (Notification.body self))
          (set_path ["message"; "notification"] "body"
             (PyString (default "" (Notification.body self)))) message)
  (fun message =>
  and_then
    (match Notification.device_tokens self, Notification.topic self with
     | Some device_tokens, _ =>
         match DeviceTokenList.tokens device_tokens with
         | [] => inl (IndexError "list index out of range")
         | token :: _ =>
             set_path ["message"] "token" (PyString (DeviceToken.value token)) message
         end
     | None, Some topic => set_path ["message"] "topic" (PyString (Topic.name topic)) message
     | None, None => inr message
     end)
  (fun message =>
  and_then
    (when (PyStr.truthy (Notification.priority self))
          (fun message =>
             and_then
               (set_path ["message"; "android"] "priority"
                  (PyString (Notification.priority self)) message)
               (set_path ["message"; "apns"; "headers"] "apns-priority"
                  (PyString (if bool_decide (Notification.priority self = "high")
                          then "10" else "5"))))
          message)
  (fun message =>
  and_then
    (when (PyStr.truthy_opt (Notification.collapse_key self))
          (set_path ["message"; "android"] "collapse_key"
             (PyString (default "" (Notification.collapse_key self)))) message)
  (fun message =>
    when (match Notification.ttl self with
          | Some ttl => negb (bool_decide (ttl = 0))
          | None => false
          end)
         (set_path ["message"; "android"] "ttl"
            (PyString (pretty (default 0 (Notification.ttl self)) +:+ "s"))) message))))).

(** The target of a notification is usable by [to_fcm_message]: a token
    collection has a first token. *)
Definition has_first_token (self : Notification.t) : Prop :=
  match Notification.device_tokens self with
  | Some device_tokens => DeviceTokenList.tokens device_tokens <> []
  | None => True
  end.

(** ** The validators of the request models *)

(** [application/dto/notification_request.py]: the field validators of
    [DeviceTokenRequest], [SendNotificationRequest] and
    [BatchNotificationRequest]. *)
Module DeviceTokenRequestValidators.

Definition validate_platform (v : string) : string + string :=
  if bool_decide (PyStr.lower v ∈ ["android"; "ios"; "web"]) then inr (PyStr.lower v)
  else inl "Platform must be one of: ['android', 'ios', 'web']".

End DeviceTokenRequestValidators.

Module SendNotificationRequestValidators.

Definition validate_device_tokens (v : list DeviceTokenRequest.t)
  : string + list DeviceTokenRequest.t :=
  if bool_decide (v = []) then inl "At least one device token is required"
  else if 500 <? len v then inl "Maximum 500 device tokens allowed per request"
  else
    let token_values := map DeviceTokenRequest.token v in
    if bool_decide (len token_values ≠
                    Z.of_nat (size (list_to_set token_values : gset string)))
    then inl "Duplicate device tokens are not allowed"
    else inr v.

Definition validate_notification_type (v : string) : string + string :=
  if negb (PyStr.truthy v) || negb (PyStr.truthy (PyStr.strip v)) then
    inl "Notification type cannot be empty"
  else inr (PyStr.lower v).

Definition validate_priority (v : string) : string + string :=
  if bool_decide (PyStr.lower v ∈ ["high"; "normal"; "low"]) then inr (PyStr.lower v)
  else inl "Priority must be one of: ['high', 'normal', 'low']".

Definition validate_ttl (v : option Z) : string + option Z :=
  match v with
  | Some ttl =>
      if (ttl <? 0) || (2419200 <? ttl) then
        inl "TTL must be between 0 and 2419200 seconds (28 days)"
      else inr v
  | None => inr v
  end.

End SendNotificationRequestValidators.

Module BatchNotificationRequestValidators.

Definition validate_notifications (v : list SendNotificationRequest.t)
  : string + list SendNotificationRequest.t :=
  if bool_decide (v = []) then inl "At least one notification is required"
  else if 100 <? len v then inl "Maximum 100 notifications allowed per batch"
  else inr v.

End BatchNotificationRequestValidators.

(** A token of a request that [DeviceToken] takes as it is: in ASCII,
    trimmed, of at least 32 characters, with a platform in its
    lower-case form. *)
Definition canonical_token (r : DeviceTokenRequest.t) : Prop :=
  isascii (DeviceTokenRequest.token r) = true
  /\ PyStr.strip (DeviceTokenRequest.token r) = DeviceTokenRequest.token r
  /\ 32 <= PyStr.len (DeviceTokenRequest.token r)
  /\ DeviceTokenRequest.platform r ∈ DeviceToken.valid_platforms.

(** The domain token of a request token, fields unchanged. *)
Definition as_device_token (r : DeviceTokenRequest.t) : DeviceToken.t :=
  DeviceToken.mk (DeviceTokenRequest.token r) (DeviceTokenRequest.platform r).

(** The SDK accounts for every token of a multicast. *)
Definition accounts_for_every_token (messaging : FirebaseClient.Messaging) : Prop :=
  forall device_tokens success_count failure_count,
    FirebaseClient.send_multicast messaging device_tokens
    = FirebaseClient.Returned (success_count, failure_count) ->
    success_count + failure_count = len device_tokens.

(** ** The topic handlers and the status handler *)

(** [application/dto/notification_response.py], without
    [processing_time_ms]. *)
Module TopicNotificationResponse.
Record t : Type := mk {
  success : bool;
  notification_id : string;
  topic : string;
  message_id : option string;
  message : string
}.
End TopicNotificationResponse.

Module TopicSubscriptionResponse.
Record t : Type := mk {
  success : bool;
  topic : string;
  subscribed_count : Z;
  failed_count : Z;
  failed_tokens : list string;
  message : string
}.
End TopicSubscriptionResponse.

(** An entry of the [errors] of the SDK's response to a subscription:
    the position of the token in the list passed to the SDK, and the
    reason. *)
Record ErrorInfo : Type := mkErrorInfo { index : nat; reason : string }.

(** The two dictionaries [FCMClient.subscribe_to_topic] returns: with
    [success] set, the counts and the [errors] of the SDK's response;
    without, the number of tokens and the text of the exception. Neither
    has a key [error]. *)
Inductive SubscribeResult : Type :=
| Subscribed (success_count failure_count : Z) (errors : list ErrorInfo)
| NotSubscribed (failure_count : Z) (errors : list string).

(** The topic operations of the gateway as the handlers use them:
    [send_to_topic] by its arguments [topic, title, body, data, priority],
    [subscribe_to_topic] by [topic, device_tokens]. *)
Record FCMTopicClient : Type := mkFCMTopicClient {
  send_to_topic :
    string -> option string -> option string -> list (string * string) ->
    string -> SendResult.t;
  subscribe_to_topic_result : string -> list string -> SubscribeResult
}.

(** [infrastructure/fcm/fcm_client.py]: the topic operations of the
    client over the Firebase SDK. *)
Module FirebaseTopics.

Record TopicManagementResponse : Type := mkTopicManagementResponse {
  success_count : Z;
  failure_count : Z;
  errors : list ErrorInfo
}.

(** [messaging.send] of a message to a topic, and
    [messaging.subscribe_to_topic(device_tokens, topic)]. *)
Record Messaging : Type := mkMessaging {
  send : string -> FirebaseClient.sdk_outcome string;
  subscribe : list string -> string -> FirebaseClient.sdk_outcome TopicManagementResponse
}.

Definition send_to_topic (messaging : Messaging) (topic : string)
    (title body : option string) (data : list (string * string)) (priority : string)
  : SendResult.t :=
  match send messaging topic with
  | FirebaseClient.Returned response => SendResult.mk true (Some response) None
  | FirebaseClient.Raised str_e => SendResult.mk false None (Some str_e)
  end.

Definition subscribe_to_topic (messaging : Messaging) (topic : string)
    (device_tokens : list string) : SubscribeResult :=
  match subscribe messaging device_tokens topic with
  | FirebaseClient.Returned response =>
      Subscribed (success_count response) (failure_count response) (errors response)
  | FirebaseClient.Raised str_e => NotSubscribed (len device_tokens) [str_e]
  end.

Definition client (messaging : Messaging) : FCMTopicClient :=
  mkFCMTopicClient (send_to_topic messaging) (subscribe_to_topic messaging).

End FirebaseTopics.

(** The first part of the [try] block of [send_topic_notification]. *)
Definition prepare_topic {L} (request : TopicNotificationRequest.t)
  : M L (Topic.t * Notification.t) :=
  topic ← lift (Topic.new (TopicNotificationRequest.topic request));
  notification_type ← lift (NotificationType.new
                              (TopicNotificationRequest.notification_type request)
                              (TopicNotificationRequest.priority request));
  notification ←
    NotificationDomainService.create_notification notification_type
      (TopicNotificationRequest.title request) (TopicNotificationRequest.body request)
      (Some (TopicNotificationRequest.data request)) None (Some topic)
      (TopicNotificationRequest.priority request)
      (TopicNotificationRequest.collapse_key request)
      (TopicNotificationRequest.ttl request)
      (TopicNotificationRequest.scheduled_at request);
  mret (topic, notification).

(** The gateway call of [send_topic_notification]. *)
Definition topic_result (fcm_client : FCMTopicClient) (topic : Topic.t)
    (notification : Notification.t) : SendResult.t :=
  send_to_topic fcm_client (Topic.name topic)
    (Notification.title notification) (Notification.body notification)
    (Notification.data notification) (Notification.priority notification).

(** The local variables of [send_topic_notification] once the gateway
    call is made: the entity, [message_id], [status] and
    [result.get("error")]. *)
Record TopicDispatched : Type := mkTopicDispatched {
  t_notification : Notification.t;
  t_message_id : option string;
  t_status : string;
  t_error : option string
}.

Definition topic_dispatch (fcm_client : FCMTopicClient) (topic : Topic.t)
    (notification : Notification.t) : TopicDispatched :=
  let result := topic_result fcm_client topic notification in
  if SendResult.success result then
    mkTopicDispatched (Notification.mark_sent notification 1)
      (SendResult.message_id result) "success" (SendResult.error result)
  else
    mkTopicDispatched (Notification.mark_failed notification (SendResult.error result) 1)
      None "failed" (SendResult.error result).

(** The dictionary [notification_status] of [send_topic_notification]. *)
Definition topic_notification_status (notification_id : string) (topic : Topic.t)
    (d : TopicDispatched) : list (string * json) :=
  [("notification_id", JStr notification_id);
   ("topic", JStr (Topic.name topic));
   ("type", JStr (NotificationType.value (Notification.notification_type (t_notification d))));
   ("status", JStr (t_status d));
   ("message_id", json_opt (t_message_id d));
   ("created_at", JIso (Notification.created_at (t_notification d)));
   ("error_message", json_opt (t_error d))].

(** The response [send_topic_notification] returns. *)
Definition topic_response (notification_id : string) (topic : Topic.t)
    (d : TopicDispatched) : TopicNotificationResponse.t :=
  TopicNotificationResponse.mk
    (bool_decide (t_status d = "success"))
    notification_id
    (Topic.name topic)
    (t_message_id d)
    ("Topic notification sent successfully to " +:+ Topic.name topic).

Definition send_topic_notification (request : TopicNotificationRequest.t)
    (fcm_client : FCMTopicClient) (valkey_client : ValkeyClient)
  : M unit TopicNotificationResponse.t :=
  notification_id ← uuid4;
  try_except
    ('(topic, notification) ← prepare_topic request;
     let d := topic_dispatch fcm_client topic notification in
     _ ← lift (valkey_set valkey_client ("notification:" +:+ notification_id)
                 (topic_notification_status notification_id topic d) (Some 3600));
     _ ← lift (valkey_publish valkey_client "notification.topic.sent"
                 (topic_notification_status notification_id topic d));
     mret (topic_response notification_id topic d))
    (fun e => raise (HTTPException 500 (str_exn e))).

(** The message [subscribe_to_topic] publishes; its [failed_tokens] is
    a list. *)
Record SubscriptionEvent : Type := mkSubscriptionEvent {
  ev_topic : string;
  ev_subscribed_count : Z;
  ev_failed_count : Z;
  ev_failed_tokens : list string
}.

(** The loop of [subscribe_to_topic] over [result["errors"]]; every
    entry has an [index]. *)
Definition failed_tokens_of (device_tokens : list string) (errors : list ErrorInfo)
  : list string :=
  fold_left
    (fun failed_tokens error =>
       if Z.of_nat (index error) <? len device_tokens then
         match device_tokens !! index error with
         | Some device_token => failed_tokens ++ [device_token]
         | None => failed_tokens
         end
       else failed_tokens)
    errors [].

(** [subscribe_to_topic]; [publish] is the [publish] of the store, on
    the message of this handler. *)
Definition subscribe_to_topic (request : TopicSubscriptionRequest.t)
    (fcm_client : FCMTopicClient) (publish : string -> SubscriptionEvent -> exn + Z)
  : M unit TopicSubscriptionResponse.t :=
  let topic := TopicSubscriptionRequest.topic request in
  let device_tokens := TopicSubscriptionRequest.device_tokens request in
  try_except
    (match subscribe_to_topic_result fcm_client topic device_tokens with
     | Subscribed subscribed_count failed_count errors =>
         let failed_tokens := failed_tokens_of device_tokens errors in
         _ ← lift (publish "topic.subscription"
                     (mkSubscriptionEvent topic subscribed_count failed_count
                        failed_tokens));
         mret (TopicSubscriptionResponse.mk true topic subscribed_count failed_count
                 failed_tokens
                 ("Successfully subscribed " +:+ pretty subscribed_count +:+
                  " tokens to topic " +:+ topic))
     | NotSubscribed _ _ =>
         mret (TopicSubscriptionResponse.mk false topic 0 (len device_tokens)
                 device_tokens
                 ("Failed to subscribe tokens to topic " +:+ topic +:+
                  ": Unknown error"))
     end)
    (fun e => raise (HTTPException 500 (str_exn e))).

(** A value [ValkeyClient.get] returns for a key that is set: a decoded
    dictionary, or a text. A dictionary is true when it has an item, a
    text when it has a character. *)
Inductive stored : Type :=
| StoredDict (items : list (string * json))
| StoredText (text : string).

Definition stored_truthy (v : stored) : bool :=
  match v with
  | StoredDict items => negb (bool_decide (items = []))
  | StoredText text => PyStr.truthy text
  end.

(** [get_notification_status]; [valkey_get] is the [get] of the store,
    which returns [None] for a key that is not set. The [HTTPException]
    of the [else] branch is raised inside the [try] block. *)
Definition get_notification_status (notification_id : string)
    (valkey_get : string -> exn + option stored) : M unit stored :=
  try_except
    (status_data ← lift (valkey_get ("notification:" +:+ notification_id));
     match status_data with
     | Some v =>
         if stored_truthy v then mret v
         else raise (HTTPException 404 "Notification not found")
     | None => raise (HTTPException 404 "Notification not found")
     end)
    (fun e => raise (HTTPException 500 (str_exn e))).

(** The store accepts every write and every message. *)
Definition store_accepts (valkey_client : ValkeyClient) : Prop :=
  (forall key value ex, exists ok, valkey_set valkey_client key value ex = inr ok)
  /\ (forall channel message,
         exists subscribers, valkey_publish valkey_client channel message = inr subscribers).

Module SampleTopics.

Definition news_alert : TopicNotificationRequest.t :=
  TopicNotificationRequest.mk "news" "alert" (Some "Build finished")
    (Some "All checks passed") [] "high" None None None.

(** The SDK rejects every message. *)
Definition messaging_down : FirebaseTopics.Messaging :=
  FirebaseTopics.mkMessaging
    (fun _ => FirebaseClient.Raised "UNAVAILABLE")
    (fun _ _ => FirebaseClient.Raised "UNAVAILABLE").

End SampleTopics.

(** The number of per-item results of a batch with [success] set. *)
Definition count_successful (rs : list SendNotificationResponse.t) : Z :=
  len (List.filter SendNotificationResponse.success rs).

(** The store accepts every write. *)
Definition store_accepts_writes (valkey_client : ValkeyClient) : Prop :=
  forall key value ex, exists ok, valkey_set valkey_client key value ex = inr ok.

(** * Properties *)

(** ** The mutators of the entity *)

Lemma apply_calls_app (self : Notification.t) (cs cs' : list call) :
  apply_calls self (cs ++ cs') = apply_calls (apply_calls self cs) cs'.
Proof. unfold apply_calls. apply fold_left_app. Qed.

Lemma apply_calls_sent_count (cs : list call) (self : Notification.t) :
  Notification.sent_count (apply_calls self cs) =
  Notification.sent_count self + sent_total cs.
Proof.
  revert self. induction cs as [|c cs IH]; intros self; simpl.
  - lia.
  - unfold apply_calls in *. simpl. rewrite IH.
    destruct c; simpl; lia.
Qed.

Lemma apply_calls_failed_count (cs : list call) (self : Notification.t) :
  Notification.failed_count (apply_calls self cs) =
  Notification.failed_count self + failed_total cs.
Proof.
  revert self. induction cs as [|c cs IH]; intros self; simpl.
  - lia.
  - unfold apply_calls in *. simpl. rewrite IH.
    destruct c; simpl; lia.
Qed.

Lemma sent_total_nonneg (cs : list call) :
  Forall (fun c => 0 <= call_count c) cs -> 0 <= sent_total cs.
Proof.
  induction 1 as [|c cs Hc _ IH]; simpl; [lia|].
  destruct c; simpl in *; lia.
Qed.

Lemma failed_total_nonneg (cs : list call) :
  Forall (fun c => 0 <= call_count c) cs -> 0 <= failed_total cs.
Proof.
  induction 1 as [|c cs Hc _ IH]; simpl; [lia|].
  destruct c; simpl in *; lia.
Qed.

(** Once failed, always failed: no later call changes the status. *)
Lemma apply_calls_failed_stays (cs : list call) (self : Notification.t) :
  Notification.status self = "failed" ->
  Notification.status (apply_calls self cs) = "failed".
Proof.
  revert self. induction cs as [|c cs IH]; intros self Hst; [exact Hst|].
  unfold apply_calls in *. simpl. apply IH.
  destruct c; simpl; [|reflexivity].
  rewrite Hst. reflexivity.
Qed.

Lemma apply_calls_status_failed (cs : list call) (self : Notification.t) :
  existsb is_mark_failed cs = true ->
  Notification.status (apply_calls self cs) = "failed".
Proof.
  revert self. induction cs as [|c cs IH]; intros self Hex; [discriminate|].
  destruct c as [count|msg count].
  - simpl in Hex. unfold apply_calls in *. simpl. apply IH. exact Hex.
  - change (apply_calls self (MarkFailed msg count :: cs))
      with (apply_calls (Notification.mark_failed self msg count) cs).
    apply apply_calls_failed_stays. reflexivity.
Qed.

(** C10. [mark_sent count] adds [count] to [sent_count], which therefore
    never decreases for a count that is not negative, leaves
    [failed_count] alone and turns the status [pending] into [sent] while
    keeping every other status, [failed] in particular;
    [mark_failed msg count] adds [count] to [failed_count], stores [msg]
    and sets the status [failed] whatever it was. Over any sequence of
    calls the counters are the initial ones plus the counts passed, and
    the status is [failed] as soon as one call is [mark_failed]. *)
Theorem mark_sent_mark_failed_effects
    (self : Notification.t) (count : Z) (msg : option string) (cs : list call) :
  (Notification.sent_count (Notification.mark_sent self count)
     = Notification.sent_count self + count
   /\ (0 <= count ->
       Notification.sent_count self
         <= Notification.sent_count (Notification.mark_sent self count))
   /\ Notification.failed_count (Notification.mark_sent self count)
        = Notification.failed_count self
   /\ (Notification.status self = "pending" ->
       Notification.status (Notification.mark_sent self count) = "sent")
   /\ (Notification.status self <> "pending" ->
       Notification.status (Notification.mark_sent self count)
         = Notification.status self)
   /\ (Notification.status self = "failed" ->
       Notification.status (Notification.mark_sent self count) = "failed"))
  /\ (Notification.failed_count (Notification.mark_failed self msg count)
        = Notification.failed_count self + count
      /\ (0 <= count ->
          Notification.failed_count self
            <= Notification.failed_count (Notification.mark_failed self msg count))
      /\ Notification.sent_count (Notification.mark_failed self msg count)
           = Notification.sent_count self
      /\ Notification.error_message (Notification.mark_failed self msg count) = msg
      /\ Notification.status (Notification.mark_failed self msg count) = "failed")
  /\ (Notification.sent_count (apply_calls self cs)
        = Notification.sent_count self + sent_total cs
      /\ Notification.failed_count (apply_calls self cs)
           = Notification.failed_count self + failed_total cs
      /\ (Forall (fun c => 0 <= call_count c) cs ->
          Notification.sent_count self <= Notification.sent_count (apply_calls self cs)
          /\ Notification.failed_count self
               <= Notification.failed_count (apply_calls self cs))
      /\ (existsb is_mark_failed cs = true ->
          Notification.status (apply_calls self cs) = "failed")).
Proof.
  repeat split; simpl; try lia.
  - intros ->. reflexivity.
  - intros Hne. rewrite bool_decide_eq_false_2 by exact Hne. reflexivity.
  - intros ->. reflexivity.
  - apply apply_calls_sent_count.
  - apply apply_calls_failed_count.
  - rewrite apply_calls_sent_count. pose proof (sent_total_nonneg cs H). lia.
  - rewrite apply_calls_failed_count. pose proof (failed_total_nonneg cs H). lia.
  - apply apply_calls_status_failed.
Qed.

(** The test of the repository, [test_mark_sent] then [test_mark_failed],
    on one notification: five calls, none with a negative count. *)
Lemma mark_sent_mark_failed_effects_witness :
  Notification.sent_count
    (apply_calls (Sample.notification ["a"]%char)
       [MarkSent 1; MarkSent 5; MarkFailed (Some "Test error") 1;
        MarkFailed (Some "Another error") 3; MarkSent 2]) = 8
  /\ Notification.failed_count
       (apply_calls (Sample.notification ["a"]%char)
          [MarkSent 1; MarkSent 5; MarkFailed (Some "Test error") 1;
           MarkFailed (Some "Another error") 3; MarkSent 2]) = 4
  /\ Notification.status
       (apply_calls (Sample.notification ["a"]%char)
          [MarkSent 1; MarkSent 5; MarkFailed (Some "Test error") 1;
           MarkFailed (Some "Another error") 3; MarkSent 2]) = "failed"
  /\ Notification.status (Notification.mark_sent (Sample.notification ["a"]%char) 1)
     = "sent".
Proof.
  pose proof (mark_sent_mark_failed_effects (Sample.notification ["a"]%char) 1
                (Some "Test error")
                [MarkSent 1; MarkSent 5; MarkFailed (Some "Test error") 1;
                 MarkFailed (Some "Another error") 3; MarkSent 2])
    as [[_ [_ [_ [Hpending _]]]] [_ [Hsent [Hfailed [_ Hstatus]]]]].
  split; [rewrite Hsent; reflexivity|].
  split; [rewrite Hfailed; reflexivity|].
  split; [apply Hstatus; reflexivity|].
  apply Hpending. reflexivity.
Defined.

(** ** Validation of the entity *)

Lemma elem_of_append_if (cond : bool) (msg x : string) (errors : list string) :
  x ∈ Notification.append_if cond msg errors <-> x ∈ errors \/ (cond = true /\ x = msg).
Proof.
  unfold Notification.append_if. destruct cond.
  - rewrite elem_of_app, list_elem_of_singleton. intuition.
  - intuition congruence.
Qed.

(** [validate] returns exactly the messages of the violated rules. *)
Lemma validate_elem_of (self : Notification.t) (current_time : Z) (msg : string) :
  msg ∈ Notification.validate self current_time <->
    (no_target self /\ msg = Notification.msg_no_target)
    \/ (both_targets self /\ msg = Notification.msg_both_targets)
    \/ (title_missing self /\ msg = Notification.msg_requires_title self)
    \/ (body_missing self /\ msg = Notification.msg_requires_body self)
    \/ (data_unsupported self /\ msg = Notification.msg_no_data self)
    \/ (scheduled_in_past self current_time /\ msg = Notification.msg_scheduled_past)
    \/ (expired self current_time /\ msg = Notification.msg_expired).
Proof.
  unfold Notification.validate.
  rewrite !elem_of_append_if, elem_of_nil.
  rewrite !andb_true_iff, !negb_true_iff, !bool_decide_eq_true, !bool_decide_eq_false.
  unfold no_target, both_targets, title_missing, body_missing, data_unsupported,
    scheduled_in_past, expired.
  rewrite <- !eq_None_not_Some.
  assert (Hs : (match Notification.scheduled_at self with
                | Some s => s <? current_time - current_time `mod` 60000000 - 300000000
                | None => false
                end = true)
               <-> exists s, Notification.scheduled_at self = Some s
                     /\ s < current_time - current_time `mod` 60000000 - 300000000).
  { destruct (Notification.scheduled_at self) as [s|].
    - rewrite Z.ltb_lt. split; [eauto|]. intros (s' & [= <-] & H). exact H.
    - split; [discriminate|]. intros (s' & [=] & _). }
  assert (He : (match Notification.expires_at self with
                | Some e => e <? current_time
                | None => false
                end = true)
               <-> exists e, Notification.expires_at self = Some e /\ e < current_time).
  { destruct (Notification.expires_at self) as [e|].
    - rewrite Z.ltb_lt. split; [eauto|]. intros (e' & [= <-] & H). exact H.
    - split; [discriminate|]. intros (e' & [=] & _). }
  rewrite Hs, He. tauto.
Qed.

(** C7. [validate] returns the message of every violated rule, not only
    of the first: a message is in the list exactly when its rule is
    violated. So a notification with both targets, or with none, gets
    the targeting message; for a type whose policy requires them, a
    missing title and a missing body are each reported whether or not the
    other is missing; an alert that lacks both gets both messages. *)
Theorem validate_reports_all_violations (self : Notification.t) (current_time : Z) :
  (forall msg : string,
      msg ∈ Notification.validate self current_time <->
        (no_target self /\ msg = Notification.msg_no_target)
        \/ (both_targets self /\ msg = Notification.msg_both_targets)
        \/ (title_missing self /\ msg = Notification.msg_requires_title self)
        \/ (body_missing self /\ msg = Notification.msg_requires_body self)
        \/ (data_unsupported self /\ msg = Notification.msg_no_data self)
        \/ (scheduled_in_past self current_time /\ msg = Notification.msg_scheduled_past)
        \/ (expired self current_time /\ msg = Notification.msg_expired))
  /\ (both_targets self ->
      Notification.msg_both_targets ∈ Notification.validate self current_time)
  /\ (no_target self ->
      Notification.msg_no_target ∈ Notification.validate self current_time)
  /\ (title_missing self ->
      Notification.msg_requires_title self ∈ Notification.validate self current_time)
  /\ (body_missing self ->
      Notification.msg_requires_body self ∈ Notification.validate self current_time)
  /\ (NotificationType.value (Notification.notification_type self) = "alert" ->
      PyStr.truthy_opt (Notification.title self) = false ->
      PyStr.truthy_opt (Notification.body self) = false ->
      "Notification type 'alert' requires a title"
        ∈ Notification.validate self current_time
      /\ "Notification type 'alert' requires a body"
           ∈ Notification.validate self current_time).
Proof.
  split; [intros msg; apply validate_elem_of|].
  repeat split.
  - intros H. apply validate_elem_of. tauto.
  - intros H. apply validate_elem_of. tauto.
  - intros H. apply validate_elem_of. tauto.
  - intros H. apply validate_elem_of. tauto.
  - apply validate_elem_of. right; right; left. split.
    + split; [|assumption].
      unfold NotificationType.get_template_config. rewrite H. reflexivity.
    + unfold Notification.msg_requires_title. rewrite H. reflexivity.
  - apply validate_elem_of. right; right; right; left. split.
    + split; [|assumption].
      unfold NotificationType.get_template_config. rewrite H. reflexivity.
    + unfold Notification.msg_requires_body. rewrite H. reflexivity.
Qed.

(** An alert with no target, no title and no body: three messages. *)
Lemma validate_reports_all_violations_witness :
  Notification.validate Sample.bare_alert 1700000000000000
  = ["Notification must target either device tokens or a topic";
     "Notification type 'alert' requires a title";
     "Notification type 'alert' requires a body"]
  /\ "Notification must target either device tokens or a topic"
       ∈ Notification.validate Sample.bare_alert 1700000000000000
  /\ "Notification type 'alert' requires a title"
       ∈ Notification.validate Sample.bare_alert 1700000000000000
  /\ "Notification type 'alert' requires a body"
       ∈ Notification.validate Sample.bare_alert 1700000000000000.
Proof.
  pose proof (validate_reports_all_violations Sample.bare_alert 1700000000000000)
    as (_ & _ & Hnone & _ & _ & Halert).
  split; [reflexivity|].
  split; [apply Hnone; split; reflexivity|].
  apply Halert; reflexivity.
Defined.

(** ** Token lists *)

Lemma size_list_to_set_le (l : list string) :
  (size (list_to_set l : gset string) <= length l)%nat.
Proof.
  induction l as [|x l IH]; simpl.
  - reflexivity.
  - rewrite size_union_alt, size_singleton.
    pose proof (subseteq_size (list_to_set l ∖ {[x]}) (list_to_set l : gset string)) as H.
    assert (Hs : list_to_set l ∖ {[x]} ⊆ (list_to_set l : gset string)).
    { intros y Hy. apply elem_of_difference in Hy. tauto. }
    specialize (H Hs). lia.
Qed.

(** [len(set(l)) == len(l)] exactly when [l] has no duplicate. *)
Lemma size_list_to_set_NoDup (l : list string) :
  size (list_to_set l : gset string) = length l <-> NoDup l.
Proof.
  split; [|apply size_list_to_set].
  induction l as [|x l IH]; intros Hsz; [constructor|].
  simpl in Hsz. destruct (decide (x ∈ l)) as [Hin|Hnin].
  - exfalso.
    assert (Heq : {[x]} ∪ list_to_set l = (list_to_set l : gset string)).
    { apply set_eq. intros y.
      rewrite elem_of_union, elem_of_singleton, !elem_of_list_to_set.
      split; [intros [->|H]; assumption | tauto]. }
    rewrite Heq in Hsz. pose proof (size_list_to_set_le l). lia.
  - rewrite size_union, size_singleton in Hsz.
    + constructor; [exact Hnin|]. apply IH. lia.
    + intros y Hy1 Hy2. apply elem_of_singleton in Hy1. subst y.
      apply elem_of_list_to_set in Hy2. contradiction.
Qed.

Lemma len_elements_list_to_set (l : list string) :
  len (elements (list_to_set l : gset string)) = len l <-> NoDup l.
Proof.
  unfold len. rewrite <- size_list_to_set_NoDup. unfold size, set_size. simpl. lia.
Qed.

(** What both validators of a raw token list compute. *)
Lemma raw_tokens_validators_agree (v : list string) :
  TopicSubscriptionRequest.validate_device_tokens v
  = TopicSubscription.validate_device_tokens v.
Proof. reflexivity. Qed.

Lemma raw_tokens_duplicates (v : list string) :
  v <> [] -> len v <= 1000 -> ~ NoDup v ->
  TopicSubscription.validate_device_tokens v
  = inl "Duplicate device tokens are not allowed".
Proof.
  intros Hne Hlen Hdup. unfold TopicSubscription.validate_device_tokens.
  rewrite bool_decide_eq_false_2 by exact Hne.
  destruct (1000 <? len v) eqn:Hlt; [apply Z.ltb_lt in Hlt; lia|].
  rewrite bool_decide_eq_true_2; [reflexivity|].
  rewrite len_elements_list_to_set. exact Hdup.
Qed.

Lemma raw_tokens_distinct (v : list string) :
  v <> [] -> len v <= 1000 -> NoDup v ->
  TopicSubscription.validate_device_tokens v
  = inr (elements (list_to_set v : gset string)).
Proof.
  intros Hne Hlen Hnd. unfold TopicSubscription.validate_device_tokens.
  rewrite bool_decide_eq_false_2 by exact Hne.
  destruct (1000 <? len v) eqn:Hlt; [apply Z.ltb_lt in Hlt; lia|].
  rewrite bool_decide_eq_false_2; [reflexivity|].
  rewrite len_elements_list_to_set. tauto.
Qed.

(** C8, as the code has it. A raw list of device tokens on the topic
    subscription path that is not empty, has at most 1000 entries and
    contains a duplicate is rejected, by the model validator and by the
    request validator alike, with the message that duplicates are not
    allowed; no subscription is constructed from it. *)
Theorem topic_subscription_rejects_duplicates (topic : Topic.t) (v : list string) :
  v <> [] -> len v <= 1000 -> ~ NoDup v ->
  TopicSubscription.validate_device_tokens v
    = inl "Duplicate device tokens are not allowed"
  /\ TopicSubscriptionRequest.validate_device_tokens v
       = inl "Duplicate device tokens are not allowed"
  /\ TopicSubscription.new topic v
       = inl (ValidationError "TopicSubscription"
                [("device_tokens", "Duplicate device tokens are not allowed")]).
Proof.
  intros Hne Hlen Hdup.
  pose proof (raw_tokens_duplicates v Hne Hlen Hdup) as H.
  split; [exact H|]. split; [rewrite raw_tokens_validators_agree; exact H|].
  unfold TopicSubscription.new. rewrite H. reflexivity.
Qed.

Lemma topic_subscription_rejects_duplicates_witness :
  TopicSubscription.validate_device_tokens
    [Sample.token "a"; Sample.token "b"; Sample.token "a"]
    = inl "Duplicate device tokens are not allowed"
  /\ TopicSubscriptionRequest.validate_device_tokens
       [Sample.token "a"; Sample.token "b"; Sample.token "a"]
       = inl "Duplicate device tokens are not allowed"
  /\ TopicSubscription.new (Topic.mk "news" None)
       [Sample.token "a"; Sample.token "b"; Sample.token "a"]
       = inl (ValidationError "TopicSubscription"
                [("device_tokens", "Duplicate device tokens are not allowed")]).
Proof.
  apply (topic_subscription_rejects_duplicates (Topic.mk "news" None)
           [Sample.token "a"; Sample.token "b"; Sample.token "a"]).
  - discriminate.
  - vm_compute. discriminate.
  - intros Hnd. apply NoDup_cons in Hnd as [Hnin _]. apply Hnin.
    apply list_elem_of_further, list_elem_of_here.
Defined.

(** C8, as stated, fails: a list of three tokens with one repeated is
    not accepted on either path, so nothing is deduplicated. *)
Lemma topic_subscription_duplicates_counterexample :
  ~ (exists unique_tokens,
        TopicSubscription.validate_device_tokens
          [Sample.token "a"; Sample.token "b"; Sample.token "a"]
        = inr unique_tokens)
  /\ ~ (exists unique_tokens,
           TopicSubscriptionRequest.validate_device_tokens
             [Sample.token "a"; Sample.token "b"; Sample.token "a"]
           = inr unique_tokens)
  /\ ~ (exists subscription,
           TopicSubscription.new (Topic.mk "news" None)
             [Sample.token "a"; Sample.token "b"; Sample.token "a"]
           = inr subscription).
Proof.
  repeat split; intros [x Hx]; vm_compute in Hx; discriminate.
Qed.

(** ** The typed token collection *)

(** [validate_tokens] with the dictionary pydantic passes it. *)
Lemma validate_tokens_no_earlier_field (v : list DeviceToken.t) :
  DeviceTokenList.validate_tokens v ∅ =
    if bool_decide (v = []) then inl "At least one device token is required"
    else if 500 <? len v then inl "Maximum 500 tokens allowed per request"
    else if bool_decide (NoDup (map DeviceToken.value v)) then inr v
    else inl "Duplicate device tokens are not allowed".
Proof.
  unfold DeviceTokenList.validate_tokens. rewrite lookup_empty. simpl.
  destruct (bool_decide (v = [])); [reflexivity|].
  destruct (500 <? len v); [reflexivity|].
  destruct (decide (NoDup (map DeviceToken.value v))) as [Hnd|Hdup].
  - rewrite (bool_decide_eq_true_2 _ Hnd).
    rewrite bool_decide_eq_false_2; [reflexivity|].
    intros H. apply H. unfold len. f_equal. symmetry.
    apply size_list_to_set_NoDup. exact Hnd.
  - rewrite (bool_decide_eq_false_2 _ Hdup).
    rewrite bool_decide_eq_true_2; [reflexivity|].
    intros H. apply Hdup. apply size_list_to_set_NoDup.
    unfold len in H. lia.
Qed.

(** The constructor fails exactly on an empty list, on more than 500
    tokens and on a duplicate value, whatever [max_tokens] is passed. *)
Lemma device_token_list_new_fails_iff (tokens : list DeviceToken.t) (max_tokens : option Z) :
  (exists e, DeviceTokenList.new tokens max_tokens = inl e)
  <-> tokens = [] \/ 500 < len tokens \/ ~ NoDup (map DeviceToken.value tokens).
Proof.
  unfold DeviceTokenList.new. rewrite validate_tokens_no_earlier_field.
  destruct (decide (tokens = [])) as [Hnil|Hnil].
  { rewrite (bool_decide_eq_true_2 _ Hnil). split; [tauto|eauto]. }
  rewrite (bool_decide_eq_false_2 _ Hnil).
  destruct (500 <? len tokens) eqn:Hlen.
  { apply Z.ltb_lt in Hlen. split; [tauto|eauto]. }
  apply Z.ltb_ge in Hlen.
  destruct (decide (NoDup (map DeviceToken.value tokens))) as [Hnd|Hdup].
  - rewrite (bool_decide_eq_true_2 _ Hnd).
    split; [intros [e [=]]|]. intros [?|[?|?]]; [contradiction|lia|contradiction].
  - rewrite (bool_decide_eq_false_2 _ Hdup). split; [tauto|eauto].
Qed.

Lemma numbered_tokens_values (n : nat) :
  map DeviceToken.value (Sample.numbered_tokens n)
  = map (fun i : nat => "fcm-registration-token-000000000" +:+ pretty i) (seq 0 n).
Proof. unfold Sample.numbered_tokens. rewrite map_map. reflexivity. Qed.

Lemma numbered_tokens_NoDup (n : nat) :
  NoDup (map DeviceToken.value (Sample.numbered_tokens n)).
Proof.
  rewrite numbered_tokens_values.
  assert (Hinj : Inj (=) (=)
                   (fun i : nat => "fcm-registration-token-000000000" +:+ pretty i)).
  { intros i j H. apply (inj (String.app _)) in H. apply (inj pretty) in H. exact H. }
  apply (NoDup_fmap_2 _). apply NoDup_seq.
Qed.

(** C9, on the code. The limit [validate_tokens] applies is 500 whatever
    [max_tokens] the caller passes: 600 well-formed, pairwise distinct
    tokens with [max_tokens = 1000] are rejected with the message of the
    limit 500, and two tokens with [max_tokens = 1] are accepted. *)
Theorem device_token_list_max_tokens_not_applied :
  length (Sample.numbered_tokens 600) = 600%nat
  /\ forallb well_formed_token (Sample.numbered_tokens 600) = true
  /\ NoDup (map DeviceToken.value (Sample.numbered_tokens 600))
  /\ DeviceTokenList.new (Sample.numbered_tokens 600) (Some 1000)
     = inl (ValidationError "DeviceTokenList"
              [("tokens", "Maximum 500 tokens allowed per request")])
  /\ DeviceTokenList.new (Sample.numbered_tokens 2) (Some 1)
     = inr (DeviceTokenList.mk (Sample.numbered_tokens 2) 1).
Proof.
  split; [vm_compute; reflexivity|].
  split; [vm_compute; reflexivity|].
  split; [apply numbered_tokens_NoDup|].
  split; vm_compute; reflexivity.
Qed.

(** ** Aggregation of a multicast result *)

(** The multicast branch of [dispatch], for more than one token. *)
Lemma dispatch_multicast (fcm_client : FCMClient) (notification_id : string)
    (notification : Notification.t) (device_token_values : list string) :
  1 < len device_token_values ->
  dispatch fcm_client notification_id notification device_token_values =
    let result := multicast_result fcm_client notification device_token_values in
    if MulticastResult.success result then
      mkDispatched
        (if 0 <? MulticastResult.failure_count result then
           Notification.mark_failed
             (Notification.mark_sent notification (MulticastResult.success_count result))
             (Some "Some devices failed") (MulticastResult.failure_count result)
         else Notification.mark_sent notification (MulticastResult.success_count result))
        [NotificationResult.mk notification_id
           (if 0 <? MulticastResult.failure_count result then "partial" else "success")
           (MulticastResult.success_count result) (MulticastResult.failure_count result)
           (MulticastResult.error result) (len device_token_values)]
        (MulticastResult.success_count result) (MulticastResult.failure_count result)
        (if 0 <? MulticastResult.failure_count result then "partial" else "success")
        (MulticastResult.error result) None
    else
      mkDispatched
        (Notification.mark_failed notification (MulticastResult.error result) 1)
        [NotificationResult.mk notification_id "failed" 0 (len device_token_values)
           (MulticastResult.error result) (len device_token_values)]
        0 (len device_token_values) "failed" (MulticastResult.error result) None.
Proof.
  intros Hlen.
  destruct device_token_values as [|a [|b l]];
    [unfold len in Hlen; simpl in Hlen; lia ..|].
  unfold dispatch.
  destruct (MulticastResult.success (multicast_result fcm_client notification (a :: b :: l)));
    reflexivity.
Qed.

(** C1. For a dispatch to N > 1 device tokens, the reported result has
    [target_count = N]; when the multicast call returns a result with
    [success] set, [sent_count] and [failed_count] are the gateway's
    [success_count] and [failure_count], and the status is [partial]
    when [failure_count > 0] and [success] when it is 0; when the call
    fails outright the status is [failed], [sent_count] is 0 and
    [failed_count] is N. *)
Theorem multicast_dispatch_aggregation (fcm_client : FCMClient) (notification_id : string)
    (notification : Notification.t) (device_token_values : list string) :
  1 < len device_token_values ->
  exists res : NotificationResult.t,
    d_results (dispatch fcm_client notification_id notification device_token_values) = [res]
    /\ NotificationResult.target_count res = len device_token_values
    /\ (MulticastResult.success
          (multicast_result fcm_client notification device_token_values) = true ->
        NotificationResult.sent_count res
          = MulticastResult.success_count
              (multicast_result fcm_client notification device_token_values)
        /\ NotificationResult.failed_count res
           = MulticastResult.failure_count
               (multicast_result fcm_client notification device_token_values)
        /\ (0 < MulticastResult.failure_count
                  (multicast_result fcm_client notification device_token_values) ->
            NotificationResult.status res = "partial")
        /\ (MulticastResult.failure_count
              (multicast_result fcm_client notification device_token_values) = 0 ->
            NotificationResult.status res = "success"))
    /\ (MulticastResult.success
          (multicast_result fcm_client notification device_token_values) = false ->
        NotificationResult.status res = "failed"
        /\ NotificationResult.sent_count res = 0
        /\ NotificationResult.failed_count res = len device_token_values).
Proof.
  intros Hlen. rewrite (dispatch_multicast _ _ _ _ Hlen). cbv zeta.
  destruct (MulticastResult.success
              (multicast_result fcm_client notification device_token_values)).
  - eexists. split; [reflexivity|]. simpl.
    split; [reflexivity|]. split; [|discriminate].
    intros _. split; [reflexivity|]. split; [reflexivity|]. split.
    + intros Hf. apply Z.ltb_lt in Hf. rewrite Hf. reflexivity.
    + intros ->. reflexivity.
  - eexists. split; [reflexivity|]. simpl.
    split; [reflexivity|]. split; [discriminate|]. tauto.
Qed.

(** The example of the specification: five tokens, the gateway reports
    three successes and two failures. *)
Lemma multicast_dispatch_aggregation_witness :
  exists res : NotificationResult.t,
    d_results
      (dispatch (FirebaseClient.client (Sample.messaging 3 2)) "id-0"
         (Sample.notification ["a"; "b"; "c"; "d"; "e"]%char)
         (map Sample.token ["a"; "b"; "c"; "d"; "e"]%char)) = [res]
    /\ NotificationResult.status res = "partial"
    /\ NotificationResult.sent_count res = 3
    /\ NotificationResult.failed_count res = 2
    /\ NotificationResult.target_count res = 5.
Proof.
  destruct (multicast_dispatch_aggregation
              (FirebaseClient.client (Sample.messaging 3 2)) "id-0"
              (Sample.notification ["a"; "b"; "c"; "d"; "e"]%char)
              (map Sample.token ["a"; "b"; "c"; "d"; "e"]%char))
    as (res & Hres & Htargets & Hreturned & _); [vm_compute; reflexivity|].
  destruct Hreturned as (Hsent & Hfailed & Hpartial & _); [vm_compute; reflexivity|].
  exists res. split; [exact Hres|].
  split; [apply Hpartial; vm_compute; reflexivity|].
  split; [rewrite Hsent; vm_compute; reflexivity|].
  split; [rewrite Hfailed; vm_compute; reflexivity|].
  rewrite Htargets. vm_compute. reflexivity.
Defined.

(** Five tokens and a gateway that is down: the result reports the five
    targets as failed; [mark_failed] is called without a count, so the
    entity counts one failure. *)
Example multicast_outright_failure :
  d_results
    (dispatch (FirebaseClient.client Sample.messaging_down) "id-0"
       (Sample.notification ["a"; "b"; "c"; "d"; "e"]%char)
       (map Sample.token ["a"; "b"; "c"; "d"; "e"]%char))
  = [NotificationResult.mk "id-0" "failed" 0 5 (Some "UNAVAILABLE") 5]
  /\ Notification.failed_count
       (d_notification
          (dispatch (FirebaseClient.client Sample.messaging_down) "id-0"
             (Sample.notification ["a"; "b"; "c"; "d"; "e"]%char)
             (map Sample.token ["a"; "b"; "c"; "d"; "e"]%char)))
     = 1.
Proof. split; vm_compute; reflexivity. Qed.

(** C4, as the code has it. A multicast result with [success] set, no
    success and at least one failure is aggregated to the status
    [partial], and the response reports overall success. *)
Theorem multicast_no_success_is_partial (fcm_client : FCMClient) (notification_id : string)
    (notification : Notification.t) (device_token_values : list string) :
  1 < len device_token_values ->
  MulticastResult.success
    (multicast_result fcm_client notification device_token_values) = true ->
  MulticastResult.success_count
    (multicast_result fcm_client notification device_token_values) = 0 ->
  0 < MulticastResult.failure_count
        (multicast_result fcm_client notification device_token_values) ->
  d_status (dispatch fcm_client notification_id notification device_token_values)
    = "partial"
  /\ d_results (dispatch fcm_client notification_id notification device_token_values)
     = [NotificationResult.mk notification_id "partial" 0
          (MulticastResult.failure_count
             (multicast_result fcm_client notification device_token_values))
          (MulticastResult.error
             (multicast_result fcm_client notification device_token_values))
          (len device_token_values)]
  /\ SendNotificationResponse.success
       (send_response notification_id
          (dispatch fcm_client notification_id notification device_token_values))
     = true.
Proof.
  intros Hlen Hok Hs Hf. rewrite (dispatch_multicast _ _ _ _ Hlen). cbv zeta.
  rewrite Hok. apply Z.ltb_lt in Hf. unfold send_response. simpl.
  rewrite Hf, Hs. repeat split.
Qed.

Lemma multicast_no_success_is_partial_witness :
  d_status
    (dispatch (FirebaseClient.client (Sample.messaging 0 2)) "id-0"
       (Sample.notification ["a"; "b"]%char) (map Sample.token ["a"; "b"]%char))
  = "partial".
Proof.
  apply (multicast_no_success_is_partial
           (FirebaseClient.client (Sample.messaging 0 2)) "id-0"
           (Sample.notification ["a"; "b"]%char) (map Sample.token ["a"; "b"]%char));
    vm_compute; reflexivity.
Defined.

(** C4, as stated, fails: the Firebase client returns [success] set for
    a multicast in which both sends failed, and the status derived is
    [partial], not [failed]. *)
Lemma multicast_no_success_counterexample :
  MulticastResult.success
    (multicast_result (FirebaseClient.client (Sample.messaging 0 2))
       (Sample.notification ["a"; "b"]%char) (map Sample.token ["a"; "b"]%char)) = true
  /\ MulticastResult.success_count
       (multicast_result (FirebaseClient.client (Sample.messaging 0 2))
          (Sample.notification ["a"; "b"]%char) (map Sample.token ["a"; "b"]%char)) = 0
  /\ 0 < MulticastResult.failure_count
           (multicast_result (FirebaseClient.client (Sample.messaging 0 2))
              (Sample.notification ["a"; "b"]%char) (map Sample.token ["a"; "b"]%char))
  /\ d_status
       (dispatch (FirebaseClient.client (Sample.messaging 0 2)) "id-0"
          (Sample.notification ["a"; "b"]%char) (map Sample.token ["a"; "b"]%char))
     <> "failed".
Proof.
  repeat split; vm_compute; discriminate || reflexivity.
Qed.

(** ** The entity against the reported result *)

(** C3, as the code has it. After the gateway call of a device dispatch
    on a freshly created notification, the entity's [sent_count] is the
    reported [sent_count]; its status is [failed] exactly when the
    reported status is [failed] or [partial], since [mark_failed] is
    called for the failed part of a partial result; and when the gateway
    returned a result its [failed_count] is the reported
    [failed_count]. *)
Theorem entity_agrees_with_result (fcm_client : FCMClient) (notification_id : string)
    (notification : Notification.t) (device_token_values : list string) :
  Notification.status notification = "pending" ->
  Notification.sent_count notification = 0 ->
  Notification.failed_count notification = 0 ->
  exists res : NotificationResult.t,
    d_results (dispatch fcm_client notification_id notification device_token_values) = [res]
    /\ Notification.sent_count
         (d_notification (dispatch fcm_client notification_id notification
                            device_token_values))
       = NotificationResult.sent_count res
    /\ (Notification.status
          (d_notification (dispatch fcm_client notification_id notification
                             device_token_values)) = "failed"
        <-> NotificationResult.status res = "failed"
            \/ NotificationResult.status res = "partial")
    /\ (gateway_returned fcm_client notification device_token_values ->
        Notification.failed_count
          (d_notification (dispatch fcm_client notification_id notification
                             device_token_values))
        = NotificationResult.failed_count res).
Proof.
  intros Hst Hsent Hfailed.
  unfold dispatch, gateway_returned.
  destruct device_token_values as [|a [|b l]].
  2: { destruct (SendResult.success (device_result fcm_client notification a));
         eexists; (split; [reflexivity|]); simpl; rewrite ?Hst, ?Hsent, ?Hfailed; simpl;
         (split; [lia|]); (split; [|intros _; lia]);
         (split; [intros H; first [discriminate H | auto]
                 |intros [H|H]; first [discriminate H | reflexivity]]). }
  all: destruct (MulticastResult.success (multicast_result fcm_client notification _));
    [destruct (0 <? MulticastResult.failure_count
                      (multicast_result fcm_client notification _)) eqn:Hf|];
    eexists; (split; [reflexivity|]); simpl; rewrite ?Hst, ?Hsent, ?Hfailed; simpl;
    (split; [lia|]);
    (split; [split; [intros H; first [discriminate H | auto]
                    |intros [H|H]; first [discriminate H | reflexivity]]|]);
    first [intros [_ H0]; apply Z.ltb_ge in Hf; lia | intros [_ H0]; lia | intros [[=] _]].
Qed.

(** What [prepare] hands to the gateway call: the tokens built from the
    request, and a notification that targets them, still [pending], with
    both counters at zero. It leaves the local variables alone. *)
Lemma prepare_spec {L} (settings : Settings) (request : SendNotificationRequest.t)
    (s : World * L) :
  match prepare settings request s with
  | (inl _, s') => snd s' = snd s
  | (inr (device_tokens, notification), s') =>
      snd s' = snd s
      /\ build_device_tokens settings (SendNotificationRequest.device_tokens request)
         = inr device_tokens
      /\ Notification.device_tokens notification = Some device_tokens
      /\ Notification.status notification = "pending"
      /\ Notification.sent_count notification = 0
      /\ Notification.failed_count notification = 0
  end.
Proof.
  unfold prepare, mbind, M_bind, lift.
  destruct (build_device_tokens settings (SendNotificationRequest.device_tokens request))
    as [e|device_tokens]; [reflexivity|].
  destruct (NotificationType.new (SendNotificationRequest.notification_type request)
              (SendNotificationRequest.priority request)) as [e|notification_type];
    [reflexivity|].
  unfold NotificationDomainService.create_notification,
    Notification.create_device_notification, Notification.construct,
    NotificationDomainService.validated, mbind, M_bind, mret, M_ret, uuid4,
    datetime_now, raise.
  simpl.
  match goal with
  | |- context [bool_decide (?v = [])] => destruct (bool_decide (v = []))
  end; simpl; repeat split.
Qed.

Lemma map_exn_length {A B} (f : A -> exn + B) (l : list A) (l' : list B) :
  map_exn f l = inr l' -> length l' = length l.
Proof.
  revert l'. induction l as [|x l IH]; intros l' H; simpl in H.
  - injection H as <-. reflexivity.
  - destruct (f x) as [e|y]; [discriminate|].
    destruct (map_exn f l) as [e|ys]; [discriminate|].
    injection H as <-. simpl. f_equal. apply IH. reflexivity.
Qed.

(** The tokens built from a request are as many as the request has. *)
Lemma build_device_tokens_length (settings : Settings)
    (device_tokens : list DeviceTokenRequest.t) (built : DeviceTokenList.t) :
  build_device_tokens settings device_tokens = inr built ->
  len (map DeviceToken.value (DeviceTokenList.tokens built)) = len device_tokens.
Proof.
  unfold build_device_tokens, DeviceTokenList.new.
  destruct (map_exn _ device_tokens) as [e|tokens] eqn:Hmap; [discriminate|].
  unfold DeviceTokenList.validate_tokens.
  repeat match goal with
         | |- context [if ?c then _ else _] => destruct c
         end; try discriminate.
  intros [= <-]. simpl. unfold len. rewrite length_map.
  f_equal. eapply map_exn_length. exact Hmap.
Qed.

Lemma entity_agrees_with_result_witness :
  exists res : NotificationResult.t,
    d_results
      (dispatch (FirebaseClient.client (Sample.messaging 3 2)) "id-0"
         (Sample.notification ["a"; "b"; "c"; "d"; "e"]%char)
         (map Sample.token ["a"; "b"; "c"; "d"; "e"]%char)) = [res]
    /\ Notification.sent_count
         (d_notification
            (dispatch (FirebaseClient.client (Sample.messaging 3 2)) "id-0"
               (Sample.notification ["a"; "b"; "c"; "d"; "e"]%char)
               (map Sample.token ["a"; "b"; "c"; "d"; "e"]%char)))
       = NotificationResult.sent_count res
    /\ Notification.failed_count
         (d_notification
            (dispatch (FirebaseClient.client (Sample.messaging 3 2)) "id-0"
               (Sample.notification ["a"; "b"; "c"; "d"; "e"]%char)
               (map Sample.token ["a"; "b"; "c"; "d"; "e"]%char)))
       = NotificationResult.failed_count res.
Proof.
  destruct (entity_agrees_with_result
              (FirebaseClient.client (Sample.messaging 3 2)) "id-0"
              (Sample.notification ["a"; "b"; "c"; "d"; "e"]%char)
              (map Sample.token ["a"; "b"; "c"; "d"; "e"]%char))
    as (res & Hres & Hsent & _ & Hfailed); [reflexivity ..|].
  exists res. split; [exact Hres|]. split; [exact Hsent|].
  apply Hfailed. vm_compute. split; [reflexivity|discriminate].
Defined.

(** C3, as stated, fails. The request of [Sample.alert] for five tokens
    is prepared into [Sample.notification]; the gateway reports three
    successes and two failures: the reported status is [partial], the
    status of the entity is [failed]. *)
Lemma entity_status_counterexample :
  Sample.prepared ["a"; "b"; "c"; "d"; "e"]%char
  = inr (Sample.device_tokens ["a"; "b"; "c"; "d"; "e"]%char,
         Sample.notification ["a"; "b"; "c"; "d"; "e"]%char)
  /\ d_results
       (dispatch (FirebaseClient.client (Sample.messaging 3 2)) "id-0"
          (Sample.notification ["a"; "b"; "c"; "d"; "e"]%char)
          (map Sample.token ["a"; "b"; "c"; "d"; "e"]%char))
     = [NotificationResult.mk "id-0" "partial" 3 2 None 5]
  /\ Notification.status
       (d_notification
          (dispatch (FirebaseClient.client (Sample.messaging 3 2)) "id-0"
             (Sample.notification ["a"; "b"; "c"; "d"; "e"]%char)
             (map Sample.token ["a"; "b"; "c"; "d"; "e"]%char)))
     = "failed"
  /\ ~ (Notification.status
          (d_notification
             (dispatch (FirebaseClient.client (Sample.messaging 3 2)) "id-0"
                (Sample.notification ["a"; "b"; "c"; "d"; "e"]%char)
                (map Sample.token ["a"; "b"; "c"; "d"; "e"]%char)))
        = "failed"
        <-> d_status
              (dispatch (FirebaseClient.client (Sample.messaging 3 2)) "id-0"
                 (Sample.notification ["a"; "b"; "c"; "d"; "e"]%char)
                 (map Sample.token ["a"; "b"; "c"; "d"; "e"]%char))
            = "failed").
Proof.
  split; [vm_compute; reflexivity|].
  split; [vm_compute; reflexivity|].
  split; [vm_compute; reflexivity|].
  intros [H _]. specialize (H eq_refl). vm_compute in H. discriminate.
Qed.

(** ** Store failures in [send_notification] *)

(** The handler, stage by stage. *)
Lemma send_notification_run (settings : Settings) (request : SendNotificationRequest.t)
    (fcm_client : FCMClient) (valkey_client : ValkeyClient) (w : World) :
  send_notification settings request fcm_client valkey_client (w, tt) =
    let notification_id := uuid4_at w (uuid_ctr w) in
    match prepare settings request (after_uuid w, tt) with
    | (inl e, s) => (inl (HTTPException 500 (str_exn e)), s)
    | (inr (device_tokens, notification), s) =>
        let d := dispatch fcm_client notification_id notification
                   (map DeviceToken.value (DeviceTokenList.tokens device_tokens)) in
        match valkey_set valkey_client ("notification:" +:+ notification_id)
                (notification_status notification_id d) (Some 3600) with
        | inl e => (inl (HTTPException 500 (str_exn e)), s)
        | inr _ =>
            match valkey_publish valkey_client "notification.sent"
                    (notification_status notification_id d) with
            | inl e => (inl (HTTPException 500 (str_exn e)), s)
            | inr _ => (inr (send_response notification_id d), s)
            end
        end
    end.
Proof.
  unfold send_notification, try_except, mbind, M_bind, uuid4, after_uuid, lift, raise.
  simpl.
  destruct (prepare settings request _) as [[e|[device_tokens notification]] s];
    [reflexivity|].
  destruct (valkey_set valkey_client _ _ _) as [e|ok]; [reflexivity|].
  destruct (valkey_publish valkey_client _ _) as [e|k]; reflexivity.
Qed.

(** C5, as the code has it. Once the request is prepared and the gateway
    call is made, an exception of the status write, or of the event
    publication after a successful write, ends the handler with an
    [HTTPException] of status 500 that carries the text of the store
    error; the response with the gateway-determined result is returned
    when both store calls return. *)
Theorem store_failure_becomes_http_500 (settings : Settings)
    (request : SendNotificationRequest.t) (fcm_client : FCMClient)
    (valkey_client : ValkeyClient) (w : World)
    (device_tokens : DeviceTokenList.t) (notification : Notification.t)
    (s : World * unit) :
  prepare settings request (after_uuid w, tt) = (inr (device_tokens, notification), s) ->
  (forall e,
      valkey_set valkey_client ("notification:" +:+ uuid4_at w (uuid_ctr w))
        (notification_status (uuid4_at w (uuid_ctr w))
           (dispatch fcm_client (uuid4_at w (uuid_ctr w)) notification
              (map DeviceToken.value (DeviceTokenList.tokens device_tokens))))
        (Some 3600) = inl e ->
      send_notification settings request fcm_client valkey_client (w, tt)
      = (inl (HTTPException 500 (str_exn e)), s))
  /\ (forall ok e,
         valkey_set valkey_client ("notification:" +:+ uuid4_at w (uuid_ctr w))
           (notification_status (uuid4_at w (uuid_ctr w))
              (dispatch fcm_client (uuid4_at w (uuid_ctr w)) notification
                 (map DeviceToken.value (DeviceTokenList.tokens device_tokens))))
           (Some 3600) = inr ok ->
         valkey_publish valkey_client "notification.sent"
           (notification_status (uuid4_at w (uuid_ctr w))
              (dispatch fcm_client (uuid4_at w (uuid_ctr w)) notification
                 (map DeviceToken.value (DeviceTokenList.tokens device_tokens))))
         = inl e ->
         send_notification settings request fcm_client valkey_client (w, tt)
         = (inl (HTTPException 500 (str_exn e)), s))
  /\ (forall ok subscribers,
         valkey_set valkey_client ("notification:" +:+ uuid4_at w (uuid_ctr w))
           (notification_status (uuid4_at w (uuid_ctr w))
              (dispatch fcm_client (uuid4_at w (uuid_ctr w)) notification
                 (map DeviceToken.value (DeviceTokenList.tokens device_tokens))))
           (Some 3600) = inr ok ->
         valkey_publish valkey_client "notification.sent"
           (notification_status (uuid4_at w (uuid_ctr w))
              (dispatch fcm_client (uuid4_at w (uuid_ctr w)) notification
                 (map DeviceToken.value (DeviceTokenList.tokens device_tokens))))
         = inr subscribers ->
         send_notification settings request fcm_client valkey_client (w, tt)
         = (inr (send_response (uuid4_at w (uuid_ctr w))
                   (dispatch fcm_client (uuid4_at w (uuid_ctr w)) notification
                      (map DeviceToken.value (DeviceTokenList.tokens device_tokens)))),
            s)).
Proof.
  intros Hprep. rewrite send_notification_run, Hprep. cbv zeta.
  split; [|split].
  - intros e ->. reflexivity.
  - intros ok e -> ->. reflexivity.
  - intros ok k -> ->. reflexivity.
Qed.

(** One token, accepted by the gateway; [SET] fails. *)
Lemma store_failure_becomes_http_500_witness :
  fst (send_notification default_settings (Sample.alert ["a"]%char)
         (FirebaseClient.client (Sample.messaging 1 0))
         (RedisClient.client Sample.redis_set_fails) (Sample.world, tt))
  = inl (HTTPException 500 "READONLY").
Proof.
  pose proof (store_failure_becomes_http_500 default_settings (Sample.alert ["a"]%char)
                (FirebaseClient.client (Sample.messaging 1 0))
                (RedisClient.client Sample.redis_set_fails) Sample.world
                (Sample.device_tokens ["a"]%char)
                (Sample.notification_with_id "id-1" ["a"]%char)
                (snd (prepare default_settings (Sample.alert ["a"]%char)
                        (after_uuid Sample.world, tt)))) as H.
  destruct H as [Hset _]; [vm_compute; reflexivity|].
  rewrite (Hset (RedisError "READONLY")); [reflexivity|].
  vm_compute. reflexivity.
Defined.

(** C5, as stated, fails. With the same request and the same gateway
    success, the handler returns the response when the store works,
    and raises instead of returning it when the status write fails, or
    when the event publication fails. *)
Lemma store_failure_counterexample :
  (exists response,
      fst (send_notification default_settings (Sample.alert ["a"]%char)
             (FirebaseClient.client (Sample.messaging 1 0))
             (RedisClient.client Sample.redis_up) (Sample.world, tt))
      = inr response
      /\ SendNotificationResponse.success response = true
      /\ SendNotificationResponse.total_sent response = 1)
  /\ fst (send_notification default_settings (Sample.alert ["a"]%char)
            (FirebaseClient.client (Sample.messaging 1 0))
            (RedisClient.client Sample.redis_set_fails) (Sample.world, tt))
     = inl (HTTPException 500 "READONLY")
  /\ fst (send_notification default_settings (Sample.alert ["a"]%char)
            (FirebaseClient.client (Sample.messaging 1 0))
            (RedisClient.client Sample.redis_publish_fails) (Sample.world, tt))
     = inl (HTTPException 500 "READONLY").
Proof.
  split; [eexists; split; [vm_compute; reflexivity|split; reflexivity]|].
  split; vm_compute; reflexivity.
Qed.

(** ** The batch loop *)

Section BatchLoop.

Variable settings : Settings.
Variable fcm_client : FCMClient.
Variable valkey_client : ValkeyClient.
Variable batch_id : string.





End BatchLoop.




(** ** The counters of the batch response *)

(** C2, on the code. Two requests of one token each; the gateway rejects
    the token of the first and accepts the token of the second. The
    per-item results report one failure and one success, and the
    response counts one successful and no failed notification out of
    two. With the two requests swapped it counts one successful and two
    failed. *)
Theorem batch_failed_count_overwritten :
  (exists response,
      fst (send_batch_notifications default_settings
             (BatchNotificationRequest.mk [Sample.alert ["a"]; Sample.alert ["b"]]%char)
             (FirebaseClient.client Sample.messaging_rejects_a)
             (RedisClient.client Sample.redis_up) (Sample.world, no_locals))
      = inr response
      /\ map SendNotificationResponse.success (BatchNotificationResponse.results response)
         = [false; true]
      /\ BatchNotificationResponse.total_notifications response = 2
      /\ BatchNotificationResponse.successful_notifications response = 1
      /\ BatchNotificationResponse.failed_notifications response = 0)
  /\ (exists response,
         fst (send_batch_notifications default_settings
                (BatchNotificationRequest.mk [Sample.alert ["b"]; Sample.alert ["a"]]%char)
                (FirebaseClient.client Sample.messaging_rejects_a)
                (RedisClient.client Sample.redis_up) (Sample.world, no_locals))
         = inr response
         /\ map SendNotificationResponse.success (BatchNotificationResponse.results response)
            = [true; false]
         /\ BatchNotificationResponse.total_notifications response = 2
         /\ BatchNotificationResponse.successful_notifications response = 1
         /\ BatchNotificationResponse.failed_notifications response = 2).
Proof.
  split; eexists; (split; [vm_compute; reflexivity|]); repeat split.
Qed.

(** ** Strings *)

Lemma chars_inj (s t : string) : chars s = chars t -> s = t.
Proof.
  intros H. rewrite <- (String.string_of_list_ascii_of_string s),
              <- (String.string_of_list_ascii_of_string t).
  unfold chars in H. rewrite H. reflexivity.
Qed.

Lemma chars_rev_app (s1 s2 : string) :
  chars (String.rev_app s1 s2) = rev (chars s1) ++ chars s2.
Proof.
  revert s2. induction s1 as [|a s1 IH]; intros s2; simpl; [reflexivity|].
  rewrite IH. simpl. rewrite <- app_assoc. reflexivity.
Qed.

Lemma chars_rev (s : string) : chars (String.rev s) = rev (chars s).
Proof. unfold String.rev. rewrite chars_rev_app. simpl. apply app_nil_r. Qed.

Lemma string_rev_involutive (s : string) : String.rev (String.rev s) = s.
Proof. apply chars_inj. rewrite !chars_rev. apply rev_involutive. Qed.

Lemma lstrip_starts_clean (s : string) : starts_clean (PyStr.lstrip s).
Proof.
  induction s as [|c s IH]; simpl; [exact I|].
  destruct (PyStr.isspace_char c) eqn:Hc; [exact IH|]. simpl. exact Hc.
Qed.

Lemma lstrip_clean (s : string) : starts_clean s -> PyStr.lstrip s = s.
Proof. destruct s as [|c s]; simpl; [reflexivity|]. intros ->. reflexivity. Qed.

Lemma lstrip_spec (s : string) :
  exists ws, chars s = ws ++ chars (PyStr.lstrip s)
             /\ Forall (fun c => PyStr.isspace_char c = true) ws.
Proof.
  induction s as [|c s (ws & Heq & Hws)]; simpl.
  - exists []. split; [reflexivity|constructor].
  - destruct (PyStr.isspace_char c) eqn:Hc.
    + exists (c :: ws). split; [simpl; f_equal; exact Heq|constructor; assumption].
    + exists []. split; [reflexivity|constructor].
Qed.

Lemma strip_starts_clean (s : string) : starts_clean (PyStr.strip s).
Proof.
  unfold PyStr.strip, PyStr.rstrip.
  pose proof (lstrip_starts_clean s) as Ha.
  set (a := PyStr.lstrip s) in *.
  destruct (lstrip_spec (String.rev a)) as (ws & Heq & _).
  set (c := PyStr.lstrip (String.rev a)) in *.
  rewrite chars_rev in Heq.
  assert (Ha' : chars a = chars (String.rev c) ++ rev ws).
  { rewrite chars_rev. rewrite <- (rev_involutive (chars a)), Heq, rev_app_distr.
    reflexivity. }
  destruct (String.rev c) as [|x b] eqn:Hb; [exact I|].
  simpl in Ha'. destruct a as [|y a']; [discriminate|].
  simpl in Ha'. injection Ha' as -> _. exact Ha.
Qed.

(** [s.strip().strip() == s.strip()] *)
Lemma strip_idempotent (s : string) : PyStr.strip (PyStr.strip s) = PyStr.strip s.
Proof.
  pose proof (strip_starts_clean s) as Hb.
  unfold PyStr.strip at 1. rewrite (lstrip_clean _ Hb).
  unfold PyStr.strip, PyStr.rstrip.
  rewrite string_rev_involutive.
  rewrite (lstrip_clean _ (lstrip_starts_clean _)). reflexivity.
Qed.

Lemma lower_in_literals (v : string) (l : list string) :
  Forall (fun s => PyStr.lower s = s) l ->
  PyStr.lower v ∈ l -> PyStr.lower (PyStr.lower v) = PyStr.lower v.
Proof.
  intros Hall Hin. rewrite Forall_forall in Hall. apply Hall. exact Hin.
Qed.

(** ** Device tokens *)

Lemma validate_token_inr (v x : string) :
  DeviceToken.validate_token v = inr x ->
  x = PyStr.strip v /\ PyStr.truthy (PyStr.strip v) = true
  /\ 32 <= PyStr.len (PyStr.strip v).
Proof.
  unfold DeviceToken.validate_token.
  destruct (PyStr.truthy v); simpl; [|discriminate].
  destruct (PyStr.truthy (PyStr.strip v)); simpl; [|discriminate].
  destruct (PyStr.len (PyStr.strip v) <? 32) eqn:Hlen; [discriminate|].
  apply Z.ltb_ge in Hlen. intros [= <-]. auto.
Qed.

Lemma validate_token_stripped (x : string) :
  PyStr.strip x = x -> PyStr.truthy x = true -> 32 <= PyStr.len x ->
  DeviceToken.validate_token x = inr x.
Proof.
  intros Hs Ht Hlen. unfold DeviceToken.validate_token.
  rewrite Hs, Ht. simpl.
  destruct (PyStr.len x <? 32) eqn:H; [apply Z.ltb_lt in H; lia|reflexivity].
Qed.

Lemma validate_platform_inr (v p : string) :
  DeviceToken.validate_platform v = inr p ->
  p = PyStr.lower v /\ p ∈ DeviceToken.valid_platforms
  /\ DeviceToken.validate_platform p = inr p.
Proof.
  unfold DeviceToken.validate_platform.
  destruct (decide (PyStr.lower v ∈ DeviceToken.valid_platforms)) as [Hin|Hnin].
  - rewrite (bool_decide_eq_true_2 _ Hin). intros [= <-].
    split; [reflexivity|]. split; [exact Hin|].
    assert (Hl : PyStr.lower (PyStr.lower v) = PyStr.lower v).
    { apply (lower_in_literals v DeviceToken.valid_platforms); [|exact Hin].
      repeat constructor. }
    rewrite Hl, (bool_decide_eq_true_2 _ Hin). reflexivity.
  - rewrite (bool_decide_eq_false_2 _ Hnin). discriminate.
Qed.

(** X1. A device token that is constructed from an ASCII value holds
    the trimmed value, of at least 32 characters, and the lower-cased
    platform, one of android, ios and web; constructing a token again
    from its own fields returns it unchanged. *)
Theorem device_token_new_normal_form (value platform : string) (t : DeviceToken.t) :
  isascii value = true ->
  DeviceToken.new value platform = inr t ->
  DeviceToken.value t = PyStr.strip value
  /\ 32 <= PyStr.len (DeviceToken.value t)
  /\ DeviceToken.platform t = PyStr.lower platform
  /\ DeviceToken.platform t ∈ DeviceToken.valid_platforms
  /\ DeviceToken.new (DeviceToken.value t) (DeviceToken.platform t) = inr t.
Proof.
  intros _. unfold DeviceToken.new.
  destruct (DeviceToken.validate_token value) as [e|x] eqn:Hv;
    [destruct (DeviceToken.validate_platform platform); discriminate|].
  destruct (DeviceToken.validate_platform platform) as [e|p] eqn:Hp; [discriminate|].
  intros [= <-]. simpl.
  apply validate_token_inr in Hv as (-> & Htruthy & Hlen).
  apply validate_platform_inr in Hp as (Hp & Hin & Hagain).
  split; [reflexivity|]. split; [exact Hlen|]. split; [exact Hp|]. split; [exact Hin|].
  rewrite (validate_token_stripped (PyStr.strip value)), Hagain;
    [reflexivity|apply strip_idempotent|exact Htruthy|exact Hlen].
Qed.

Lemma device_token_new_normal_form_witness :
  DeviceToken.new ("  " +:+ Sample.token "a" +:+ " ") "Android"
  = inr (DeviceToken.mk (Sample.token "a") "android")
  /\ DeviceToken.new (Sample.token "a") "android"
     = inr (DeviceToken.mk (Sample.token "a") "android").
Proof.
  assert (H : DeviceToken.new ("  " +:+ Sample.token "a" +:+ " ") "Android"
              = inr (DeviceToken.mk (Sample.token "a") "android"))
    by (vm_compute; reflexivity).
  split; [exact H|].
  apply (device_token_new_normal_form ("  " +:+ Sample.token "a" +:+ " ") "Android" _
           eq_refl H).
Defined.

Lemma device_token_list_new_inr (tokens : list DeviceToken.t)
    (max_tokens : option Z) (d : DeviceTokenList.t) :
  DeviceTokenList.new tokens max_tokens = inr d ->
  DeviceTokenList.tokens d = tokens
  /\ tokens <> []
  /\ 1 <= len tokens <= 500
  /\ NoDup (map DeviceToken.value tokens)
  /\ DeviceTokenList.max_tokens d = default 500 max_tokens.
Proof.
  unfold DeviceTokenList.new. rewrite validate_tokens_no_earlier_field.
  destruct (decide (tokens = [])) as [Hnil|Hnil];
    [rewrite (bool_decide_eq_true_2 _ Hnil); discriminate|].
  rewrite (bool_decide_eq_false_2 _ Hnil).
  destruct (500 <? len tokens) eqn:Hlen; [discriminate|]. apply Z.ltb_ge in Hlen.
  destruct (decide (NoDup (map DeviceToken.value tokens))) as [Hnd|Hdup];
    [|rewrite (bool_decide_eq_false_2 _ Hdup); discriminate].
  rewrite (bool_decide_eq_true_2 _ Hnd). intros [= <-]. simpl.
  repeat split; auto.
  destruct tokens; [contradiction|]. unfold len. simpl. lia.
Qed.

(** X2. A token collection that is constructed holds the tokens it was
    given, at least one and at most 500 of them, with pairwise distinct
    values, and the [max_tokens] that was passed, 500 by default. *)
Theorem device_token_list_new_invariants (tokens : list DeviceToken.t)
    (max_tokens : option Z) (d : DeviceTokenList.t) :
  DeviceTokenList.new tokens max_tokens = inr d ->
  DeviceTokenList.tokens d = tokens
  /\ tokens <> []
  /\ 1 <= len tokens <= 500
  /\ NoDup (map DeviceToken.value tokens)
  /\ DeviceTokenList.max_tokens d = default 500 max_tokens.
Proof. apply device_token_list_new_inr. Qed.

Lemma device_token_list_new_invariants_witness :
  len (Sample.numbered_tokens 3) = 3
  /\ NoDup (map DeviceToken.value (Sample.numbered_tokens 3)).
Proof.
  destruct (device_token_list_new_invariants (Sample.numbered_tokens 3) None
              (DeviceTokenList.mk (Sample.numbered_tokens 3) 500))
    as (_ & _ & _ & Hnd & _); [vm_compute; reflexivity|].
  split; [reflexivity|exact Hnd].
Defined.

(** ** Grouping tokens by platform *)

Lemma append_to_group_lookup {B} (d : gmap string (list B)) (k : string) (v : B)
    (p : string) :
  append_to_group d k v !! p =
    if decide (k = p) then Some (default [] (d !! p) ++ [v]) else d !! p.
Proof.
  unfold append_to_group.
  destruct (decide (k = p)) as [<-|Hne].
  - destruct (d !! k) as [l|] eqn:Hl.
    + rewrite bool_decide_eq_true_2 by (apply elem_of_dom; eauto).
      rewrite lookup_alter_eq, Hl. reflexivity.
    + rewrite bool_decide_eq_false_2
        by (rewrite elem_of_dom, Hl; intros [? [=]]).
      rewrite lookup_alter_eq, lookup_insert_eq. reflexivity.
  - rewrite lookup_alter_ne by exact Hne.
    destruct (bool_decide _); [reflexivity|].
    rewrite lookup_insert_ne by exact Hne. reflexivity.
Qed.

(** A grouping loop files each element under its key, in order. *)
Lemma fold_append_to_group_lookup {A B} (key : A -> string) (val : A -> B)
    (l : list A) (d : gmap string (list B)) (p : string) :
  fold_left (fun d x => append_to_group d (key x) (val x)) l d !! p =
    match d !! p, map val (filter (fun x => key x = p) l) with
    | None, [] => None
    | None, vs => Some vs
    | Some l0, vs => Some (l0 ++ vs)
    end.
Proof.
  revert d. induction l as [|x l IH]; intros d; simpl.
  - destruct (d !! p); [rewrite app_nil_r|]; reflexivity.
  - rewrite IH, append_to_group_lookup, filter_cons.
    destruct (decide (key x = p)) as [_|_]; [|reflexivity].
    destruct (d !! p) as [l0|]; simpl; [rewrite <- app_assoc|]; reflexivity.
Qed.

Lemma group_by_platform_lookup_eq (self : DeviceTokenList.t) (p : string) :
  DeviceTokenListMethods.group_by_platform self !! p =
    match tokens_of_platform p (DeviceTokenList.tokens self) with
    | [] => None
    | vs => Some vs
    end.
Proof.
  unfold DeviceTokenListMethods.group_by_platform, tokens_of_platform.
  rewrite (fold_append_to_group_lookup DeviceToken.platform DeviceToken.value),
    lookup_empty.
  reflexivity.
Qed.

(** X3. [group_by_platform] maps a platform to the values of the tokens
    of that platform, in the order of the collection, and has no entry
    for a platform without a token: no token is lost, duplicated or
    filed under another platform. *)
Theorem group_by_platform_lookup (self : DeviceTokenList.t) (p : string) :
  DeviceTokenListMethods.group_by_platform self !! p =
    match tokens_of_platform p (DeviceTokenList.tokens self) with
    | [] => None
    | vs => Some vs
    end.
Proof. apply group_by_platform_lookup_eq. Qed.

(** X4. [get_platforms] lists each platform that some token of the
    collection has, once; these are the keys of [group_by_platform]. *)
Theorem get_platforms_spec (self : DeviceTokenList.t) :
  NoDup (DeviceTokenListMethods.get_platforms self)
  /\ (forall p : string,
         p ∈ DeviceTokenListMethods.get_platforms self
         <-> exists token, token ∈ DeviceTokenList.tokens self
                           /\ DeviceToken.platform token = p)
  /\ dom (DeviceTokenListMethods.group_by_platform self)
     = list_to_set (DeviceTokenListMethods.get_platforms self).
Proof.
  assert (Hmem : forall p : string,
             p ∈ DeviceTokenListMethods.get_platforms self
             <-> exists token, token ∈ DeviceTokenList.tokens self
                               /\ DeviceToken.platform token = p).
  { intros p. unfold DeviceTokenListMethods.get_platforms.
    rewrite elem_of_elements, elem_of_list_to_set, list_elem_of_fmap.
    split; intros (token & H1 & H2); exists token; auto. }
  split; [unfold DeviceTokenListMethods.get_platforms; apply NoDup_elements|].
  split; [exact Hmem|].
  apply set_eq. intros p.
  rewrite elem_of_dom, elem_of_list_to_set, Hmem, group_by_platform_lookup_eq.
  unfold tokens_of_platform. split.
  - intros [vs Hvs].
    destruct (filter _ (DeviceTokenList.tokens self)) as [|token rest] eqn:Hf;
      [discriminate|].
    assert (Hin : token ∈ filter (fun t => DeviceToken.platform t = p)
                            (DeviceTokenList.tokens self))
      by (rewrite Hf; apply list_elem_of_here).
    apply list_elem_of_filter in Hin as [Hp Hin]. eauto.
  - intros (token & Hin & Hp).
    assert (Hin' : token ∈ filter (fun t => DeviceToken.platform t = p)
                             (DeviceTokenList.tokens self))
      by (apply list_elem_of_filter; auto).
    destruct (filter _ (DeviceTokenList.tokens self)) as [|t0 rest];
      [apply elem_of_nil in Hin'; contradiction|]. simpl. eauto.
Qed.

(** ** Topic names *)

Lemma validate_topic_name_inr (v n : string) :
  Topic.validate_topic_name v = inr n ->
  n = PyStr.strip v /\ PyStr.truthy n = true
  /\ PyStr.forallb_string Topic.pattern_char n = true
  /\ PyStr.len n <= 250.
Proof.
  unfold Topic.validate_topic_name.
  destruct (PyStr.truthy v); simpl; [|discriminate].
  destruct (PyStr.truthy (PyStr.strip v)) eqn:Ht; simpl; [|discriminate].
  destruct (PyStr.forallb_string Topic.pattern_char (PyStr.strip v)) eqn:Hp; simpl;
    [|discriminate].
  destruct (250 <? PyStr.len (PyStr.strip v)) eqn:Hlen; [discriminate|].
  apply Z.ltb_ge in Hlen. intros [= <-]. auto.
Qed.

Lemma validate_topic_name_stripped (n : string) :
  PyStr.strip n = n -> PyStr.truthy n = true ->
  PyStr.forallb_string Topic.pattern_char n = true -> PyStr.len n <= 250 ->
  Topic.validate_topic_name n = inr n.
Proof.
  intros Hs Ht Hp Hlen. unfold Topic.validate_topic_name.
  rewrite Hs, Ht, Hp. simpl.
  destruct (250 <? PyStr.len n) eqn:H; [apply Z.ltb_lt in H; lia|reflexivity].
Qed.

(** X5. A topic name that is accepted is the trimmed input: not empty,
    at most 250 characters, each of them a letter, a digit or one of
    [-_.~%]. Validating it again changes nothing, so a name accepted by
    the request model is accepted as it is by [Topic]. *)
Theorem topic_name_normal_form (v n : string) :
  TopicNotificationRequest.validate_topic v = inr n ->
  n = PyStr.strip v
  /\ n <> ""
  /\ PyStr.forallb_string Topic.pattern_char n = true
  /\ PyStr.len n <= 250
  /\ Topic.validate_topic_name n = inr n
  /\ Topic.new n = inr (Topic.mk n None).
Proof.
  change (TopicNotificationRequest.validate_topic v) with (Topic.validate_topic_name v).
  intros H. apply validate_topic_name_inr in H as (-> & Ht & Hp & Hlen).
  assert (Hagain : Topic.validate_topic_name (PyStr.strip v) = inr (PyStr.strip v))
    by (apply validate_topic_name_stripped; auto using strip_idempotent).
  split; [reflexivity|]. split; [intros H; rewrite H in Ht; discriminate|].
  split; [exact Hp|]. split; [exact Hlen|]. split; [exact Hagain|].
  unfold Topic.new. rewrite Hagain. reflexivity.
Qed.

(** The names of the specification: the first is accepted, the second
    has a space and an exclamation mark. *)
Lemma topic_name_normal_form_witness :
  Topic.new "news-2024.v1" = inr (Topic.mk "news-2024.v1" None)
  /\ Topic.validate_topic_name "news feed!"
     = inl "Topic name must contain only letters, numbers, and characters: -_.~%".
Proof.
  split; [|vm_compute; reflexivity].
  apply (topic_name_normal_form " news-2024.v1 " "news-2024.v1").
  vm_compute. reflexivity.
Defined.

(** ** Notification types *)

Lemma lower_char_idempotent (c : ascii) :
  PyStr.lower_char (PyStr.lower_char c) = PyStr.lower_char c.
Proof. destruct c as [[] [] [] [] [] [] [] []]; reflexivity. Qed.

Lemma lower_idempotent (s : string) : PyStr.lower (PyStr.lower s) = PyStr.lower s.
Proof.
  induction s as [|c s IH]; simpl; [reflexivity|].
  rewrite lower_char_idempotent, IH. reflexivity.
Qed.

Lemma identifier_char_lower (c : ascii) :
  identifier_char (PyStr.lower_char c) = identifier_char c.
Proof. destruct c as [[] [] [] [] [] [] [] []]; reflexivity. Qed.

Lemma identifier_char_not_space (c : ascii) :
  identifier_char c = true -> PyStr.isspace_char c = false.
Proof. destruct c as [[] [] [] [] [] [] [] []]; intros H; try reflexivity; discriminate H. Qed.

Lemma forallb_string_chars (p : ascii -> bool) (s : string) :
  PyStr.forallb_string p s = true <-> Forall (fun c => p c = true) (chars s).
Proof.
  induction s as [|c s IH]; simpl.
  - split; [constructor|reflexivity].
  - rewrite andb_true_iff, IH. split.
    + intros [H1 H2]. constructor; assumption.
    + intros H. inversion H; subst. auto.
Qed.

(** A string without white space is its own [strip]. *)
Lemma strip_no_space (s : string) :
  PyStr.forallb_string (fun c => negb (PyStr.isspace_char c)) s = true ->
  PyStr.strip s = s.
Proof.
  intros H. apply forallb_string_chars in H.
  assert (Hclean : forall t, Forall (fun c => negb (PyStr.isspace_char c) = true) (chars t)
                             -> starts_clean t).
  { intros [|c t] Ht; [exact I|]. inversion Ht; subst. simpl.
    apply negb_true_iff. assumption. }
  unfold PyStr.strip, PyStr.rstrip.
  rewrite (lstrip_clean s) by (apply Hclean; exact H).
  rewrite lstrip_clean; [apply string_rev_involutive|].
  apply Hclean. rewrite chars_rev. apply Forall_rev. exact H.
Qed.

Lemma forallb_string_impl (p q : ascii -> bool) (s : string) :
  (forall c, p c = true -> q c = true) ->
  PyStr.forallb_string p s = true -> PyStr.forallb_string q s = true.
Proof.
  intros Hpq. induction s as [|c s IH]; simpl; [reflexivity|].
  rewrite !andb_true_iff. intros [H1 H2]. auto.
Qed.

Lemma forallb_string_lower (s : string) :
  PyStr.forallb_string identifier_char (PyStr.lower s)
  = PyStr.forallb_string identifier_char s.
Proof.
  induction s as [|c s IH]; simpl; [reflexivity|].
  rewrite identifier_char_lower, IH. reflexivity.
Qed.

(** What is left of a string once [_] and [-] are removed is
    alphanumeric only if every character is an identifier character. *)
Lemma removed_alnum_identifier (s : string) :
  PyStr.forallb_string PyStr.isalnum_char
    (PyStr.remove_char "-" (PyStr.remove_char "_" s)) = true ->
  PyStr.forallb_string identifier_char s = true.
Proof.
  induction s as [|c s IH]; [reflexivity|].
  change (PyStr.remove_char "_" (String c s))
    with (if Ascii.eqb "_" c then PyStr.remove_char "_" s
          else String c (PyStr.remove_char "_" s)).
  change (PyStr.forallb_string identifier_char (String c s))
    with (identifier_char c && PyStr.forallb_string identifier_char s).
  unfold identifier_char at 1.
  destruct (Ascii.eqb "_" c) eqn:H1.
  - intros H. rewrite orb_true_r, orb_true_l, andb_true_l. apply IH, H.
  - change (PyStr.remove_char "-" (String c (PyStr.remove_char "_" s)))
      with (if Ascii.eqb "-" c then PyStr.remove_char "-" (PyStr.remove_char "_" s)
            else String c (PyStr.remove_char "-" (PyStr.remove_char "_" s))).
    destruct (Ascii.eqb "-" c) eqn:H2.
    + intros H. rewrite orb_true_r, andb_true_l. apply IH, H.
    + change (PyStr.forallb_string PyStr.isalnum_char
                (String c (PyStr.remove_char "-" (PyStr.remove_char "_" s))))
        with (PyStr.isalnum_char c
              && PyStr.forallb_string PyStr.isalnum_char
                   (PyStr.remove_char "-" (PyStr.remove_char "_" s))).
      rewrite andb_true_iff. intros [Hc H]. rewrite Hc, !orb_false_r, andb_true_l.
      apply IH, H.
Qed.

Lemma remove_char_lower (c : ascii) (s : string) :
  (forall d, Ascii.eqb c (PyStr.lower_char d) = Ascii.eqb c d) ->
  PyStr.remove_char c (PyStr.lower s) = PyStr.lower (PyStr.remove_char c s).
Proof.
  intros Hc. induction s as [|d s IH]; simpl; [reflexivity|].
  rewrite Hc. destruct (Ascii.eqb c d); simpl; rewrite IH; reflexivity.
Qed.

Lemma underscore_lower (d : ascii) :
  Ascii.eqb "_" (PyStr.lower_char d) = Ascii.eqb "_" d.
Proof. destruct d as [[] [] [] [] [] [] [] []]; reflexivity. Qed.

Lemma hyphen_lower (d : ascii) :
  Ascii.eqb "-" (PyStr.lower_char d) = Ascii.eqb "-" d.
Proof. destruct d as [[] [] [] [] [] [] [] []]; reflexivity. Qed.

Lemma isalnum_char_lower (c : ascii) :
  PyStr.isalnum_char (PyStr.lower_char c) = PyStr.isalnum_char c.
Proof. destruct c as [[] [] [] [] [] [] [] []]; reflexivity. Qed.

Lemma isalnum_lower (s : string) : PyStr.isalnum (PyStr.lower s) = PyStr.isalnum s.
Proof.
  destruct s as [|c s]; [reflexivity|]. simpl. rewrite isalnum_char_lower. f_equal.
  induction s as [|d s IH]; simpl; [reflexivity|].
  rewrite isalnum_char_lower, IH. reflexivity.
Qed.

Lemma isalnum_forallb (s : string) :
  PyStr.isalnum s = true -> PyStr.forallb_string PyStr.isalnum_char s = true.
Proof. destruct s; [discriminate|]. intros H; exact H. Qed.

Lemma truthy_lower (s : string) : PyStr.truthy (PyStr.lower s) = PyStr.truthy s.
Proof. destruct s; reflexivity. Qed.

(** A type value that went through the validator once goes through it
    again unchanged. *)
Lemma validate_notification_type_again (v x : string) :
  NotificationType.validate_notification_type v = inr x ->
  x = PyStr.lower v /\ NotificationType.validate_notification_type x = inr x.
Proof.
  unfold NotificationType.validate_notification_type.
  destruct (PyStr.truthy v) eqn:Hv; simpl; [|discriminate].
  destruct (PyStr.truthy (PyStr.strip v)) eqn:Hsv; simpl; [|discriminate].
  destruct (decide (PyStr.lower v ∈ NotificationType.NotificationTypeEnum)) as [Hin|Hnin].
  - rewrite (bool_decide_eq_true_2 _ Hin). intros [= <-]. split; [reflexivity|].
    unfold NotificationType.NotificationTypeEnum in Hin.
    repeat (apply elem_of_cons in Hin as [->|Hin]; [vm_compute; reflexivity|]).
    apply elem_of_nil in Hin. contradiction.
  - rewrite (bool_decide_eq_false_2 _ Hnin).
    destruct (PyStr.isalnum (PyStr.remove_char "-" (PyStr.remove_char "_" v))) eqn:Hal;
      simpl; [|discriminate].
    intros [= <-]. split; [reflexivity|].
    assert (Hid : PyStr.forallb_string identifier_char (PyStr.lower v) = true).
    { rewrite forallb_string_lower. apply removed_alnum_identifier.
      apply isalnum_forallb. exact Hal. }
    assert (Hstrip : PyStr.strip (PyStr.lower v) = PyStr.lower v).
    { apply strip_no_space. revert Hid. apply forallb_string_impl.
      intros c Hc. apply negb_true_iff, identifier_char_not_space. exact Hc. }
    rewrite Hstrip, truthy_lower, Hv, lower_idempotent. simpl.
    rewrite (bool_decide_eq_false_2 _ Hnin).
    rewrite (remove_char_lower "_" _ underscore_lower),
      (remove_char_lower "-" _ hyphen_lower), isalnum_lower, Hal.
    reflexivity.
Qed.

Lemma validate_priority_again (v p : string) :
  NotificationType.validate_priority v = inr p ->
  p = PyStr.lower v /\ p ∈ NotificationType.valid_priorities
  /\ NotificationType.validate_priority p = inr p.
Proof.
  unfold NotificationType.validate_priority.
  destruct (decide (PyStr.lower v ∈ NotificationType.valid_priorities)) as [Hin|Hnin].
  - rewrite (bool_decide_eq_true_2 _ Hin). intros [= <-].
    split; [reflexivity|]. split; [exact Hin|].
    assert (Hl : PyStr.lower (PyStr.lower v) = PyStr.lower v) by apply lower_idempotent.
    rewrite Hl, (bool_decide_eq_true_2 _ Hin). reflexivity.
  - rewrite (bool_decide_eq_false_2 _ Hnin). discriminate.
Qed.

(** X6. A notification type that is constructed from an ASCII value
    holds the lower-cased value and the lower-cased priority, one of
    high, normal and low; the value is a predefined kind or consists of
    ASCII letters, digits, [_] and [-] only; constructing a type again
    from its own value and priority returns it unchanged. *)
Theorem notification_type_new_normal_form (value priority : string)
    (nt : NotificationType.t) :
  isascii value = true ->
  NotificationType.new value priority = inr nt ->
  NotificationType.value nt = PyStr.lower value
  /\ NotificationType.priority nt = PyStr.lower priority
  /\ NotificationType.priority nt ∈ NotificationType.valid_priorities
  /\ (is_predefined nt = true
      \/ PyStr.forallb_string identifier_char (NotificationType.value nt) = true)
  /\ NotificationType.new (NotificationType.value nt) (NotificationType.priority nt)
     = inr nt.
Proof.
  intros _. unfold NotificationType.new.
  destruct (NotificationType.validate_notification_type value) as [e|x] eqn:Hv;
    [destruct (NotificationType.validate_priority priority); discriminate|].
  destruct (NotificationType.validate_priority priority) as [e|p] eqn:Hp; [discriminate|].
  intros [= <-]. simpl.
  pose proof (validate_notification_type_again _ _ Hv) as (Hx & Hagain).
  apply validate_priority_again in Hp as (Hp & Hin & Hpagain).
  split; [exact Hx|]. split; [exact Hp|]. split; [exact Hin|].
  split; [|rewrite Hagain, Hpagain; reflexivity].
  unfold is_predefined. simpl.
  destruct (decide (x ∈ NotificationType.NotificationTypeEnum)) as [Hpre|Hcustom].
  - left. apply bool_decide_eq_true_2. exact Hpre.
  - right. subst x. revert Hv. unfold NotificationType.validate_notification_type.
    destruct (negb (PyStr.truthy value) || negb (PyStr.truthy (PyStr.strip value)));
      [discriminate|].
    rewrite (bool_decide_eq_false_2 _ Hcustom).
    destruct (PyStr.isalnum (PyStr.remove_char "-" (PyStr.remove_char "_" value)))
      eqn:Hal; simpl; [|discriminate].
    intros _. rewrite forallb_string_lower. apply removed_alnum_identifier.
    apply isalnum_forallb. exact Hal.
Qed.

Lemma notification_type_new_normal_form_witness :
  NotificationType.new "Order_Update-2" "HIGH"
  = inr (NotificationType.mk "order_update-2" None "high" None)
  /\ NotificationType.new "order_update-2" "high"
     = inr (NotificationType.mk "order_update-2" None "high" None).
Proof.
  assert (H : NotificationType.new "Order_Update-2" "HIGH"
              = inr (NotificationType.mk "order_update-2" None "high" None))
    by (vm_compute; reflexivity).
  split; [exact H|].
  apply (notification_type_new_normal_form "Order_Update-2" "HIGH" _ eq_refl H).
Defined.

(** ** Validity of the entity *)

Lemma prefixed_message_inj (value rest rest' : string) :
  "Notification type '" +:+ value +:+ rest = "Notification type '" +:+ value +:+ rest' ->
  rest = rest'.
Proof. intros H. apply (inj (String.app _)) in H. apply (inj (String.app _)) in H. exact H. Qed.

(** X7. No template policy refuses custom data, so [validate] never
    returns the message that the type does not support custom data,
    whatever the notification carries. *)
Theorem validate_never_rejects_data (self : Notification.t) (current_time : Z) :
  Notification.msg_no_data self ∉ Notification.validate self current_time.
Proof.
  rewrite validate_elem_of.
  assert (Hsupports : NotificationType.supports_data
                        (NotificationType.get_template_config
                           (Notification.notification_type self)) = true).
  { unfold NotificationType.get_template_config.
    repeat destruct (bool_decide _); reflexivity. }
  unfold Notification.msg_no_data, Notification.msg_requires_title,
    Notification.msg_requires_body, data_unsupported.
  intros [[_ H]|[[_ H]|[[_ H]|[[_ H]|[[[H _] _]|[[_ H]|[_ H]]]]]]].
  - vm_compute in H. discriminate.
  - vm_compute in H. discriminate.
  - apply prefixed_message_inj in H. discriminate.
  - apply prefixed_message_inj in H. discriminate.
  - rewrite Hsupports in H. discriminate.
  - vm_compute in H. discriminate.
  - vm_compute in H. discriminate.
Qed.

Lemma validate_nil_iff (self : Notification.t) (current_time : Z) :
  Notification.validate self current_time = [] <->
    one_target (Notification.device_tokens self) (Notification.topic self)
    /\ ~ title_missing self /\ ~ body_missing self
    /\ ~ scheduled_in_past self current_time /\ ~ expired self current_time.
Proof.
  split.
  - intros Hnil.
    assert (Hnone : forall msg, msg ∉ Notification.validate self current_time)
      by (intros msg; rewrite Hnil; apply not_elem_of_nil).
    assert (H1 : ~ no_target self)
      by (intros H; apply (Hnone Notification.msg_no_target), validate_elem_of; tauto).
    assert (H2 : ~ both_targets self)
      by (intros H; apply (Hnone Notification.msg_both_targets), validate_elem_of; tauto).
    split.
    + unfold one_target, no_target, both_targets in *.
      destruct (Notification.device_tokens self), (Notification.topic self);
        [exfalso; apply H2; split; eauto | left; split; eauto
        | right; split; eauto | exfalso; apply H1; split; reflexivity].
    + repeat split; intros H.
      * apply (Hnone (Notification.msg_requires_title self)), validate_elem_of; tauto.
      * apply (Hnone (Notification.msg_requires_body self)), validate_elem_of; tauto.
      * apply (Hnone Notification.msg_scheduled_past), validate_elem_of; tauto.
      * apply (Hnone Notification.msg_expired), validate_elem_of; tauto.
  - intros (Hone & Ht & Hb & Hs & He). apply elem_of_nil_inv. intros msg.
    rewrite validate_elem_of.
    assert (Hsupports : ~ data_unsupported self).
    { unfold data_unsupported, NotificationType.get_template_config.
      repeat destruct (bool_decide _); simpl; intros [[=] _]. }
    unfold one_target, no_target, both_targets in *.
    intros [[[H1 H2] _]|[[[H1 H2] _]|[[H _]|[[H _]|[[H _]|[[H _]|[H _]]]]]]];
      try tauto.
    + destruct Hone as [[[? Hd] _]|[_ [? Hd]]]; congruence.
    + destruct Hone as [[_ Hd]|[Hd _]]; rewrite Hd in *;
        [destruct H2 as [? [=]]|destruct H1 as [? [=]]].
Qed.

Lemma is_valid_true_iff (self : Notification.t) (current_time : Z) :
  Notification.is_valid self current_time = true <->
    one_target (Notification.device_tokens self) (Notification.topic self)
    /\ ~ title_missing self /\ ~ body_missing self
    /\ ~ scheduled_in_past self current_time /\ ~ expired self current_time.
Proof.
  rewrite <- validate_nil_iff. unfold Notification.is_valid.
  rewrite bool_decide_eq_true. unfold len.
  destruct (Notification.validate self current_time); simpl; split;
    intros H; try reflexivity; try discriminate; lia.
Qed.

(** X8. [is_valid] holds exactly when the notification has one target
    and not both, has the title and the body its type requires, is not
    scheduled before the five-minute grace period and has not
    expired. *)
Theorem is_valid_iff (self : Notification.t) (current_time : Z) :
  Notification.is_valid self current_time = true <->
    one_target (Notification.device_tokens self) (Notification.topic self)
    /\ ~ title_missing self /\ ~ body_missing self
    /\ ~ scheduled_in_past self current_time /\ ~ expired self current_time.
Proof. apply is_valid_true_iff. Qed.

(** ** Creation of a notification *)

(** X9. [create_notification] raises the targeting error, before it
    draws an id or reads the clock, when neither or both targets are
    given; when it returns a notification, that notification has the
    one target given, is valid at the time of the check, is [pending]
    and has both counters at zero. *)
Theorem create_notification_spec {L} (notification_type : NotificationType.t)
    (title body : option string) (data : option (list (string * string)))
    (device_tokens : option DeviceTokenList.t) (topic : option Topic.t)
    (priority : string) (collapse_key : option string) (ttl : option Z)
    (scheduled_at : option Z) (s : World * L) :
  (device_tokens = None -> topic = None ->
   NotificationDomainService.create_notification notification_type title body data
     device_tokens topic priority collapse_key ttl scheduled_at s
   = (inl (ValueError "Must specify either device tokens or topic"), s))
  /\ (is_Some device_tokens -> is_Some topic ->
      NotificationDomainService.create_notification notification_type title body data
        device_tokens topic priority collapse_key ttl scheduled_at s
      = (inl (ValueError "Cannot specify both device tokens and topic"), s))
  /\ (forall notification s',
         NotificationDomainService.create_notification notification_type title body
           data device_tokens topic priority collapse_key ttl scheduled_at s
         = (inr notification, s') ->
         one_target device_tokens topic
         /\ Notification.device_tokens notification = device_tokens
         /\ Notification.topic notification = topic
         /\ Notification.is_valid notification
              (now_at (fst s) (S (clock_ctr (fst s)))) = true
         /\ Notification.status notification = "pending"
         /\ Notification.sent_count notification = 0
         /\ Notification.failed_count notification = 0
         /\ Notification.id notification = uuid4_at (fst s) (uuid_ctr (fst s))).
Proof.
  split; [intros -> ->; reflexivity|].
  split; [intros [d ->] [tp ->]; reflexivity|].
  intros notification s'.
  unfold NotificationDomainService.create_notification.
  destruct device_tokens as [d|], topic as [tp|];
    try (unfold raise; discriminate);
    unfold Notification.create_device_notification,
      Notification.create_topic_notification, Notification.construct,
      NotificationDomainService.validated, mbind, M_bind, mret, M_ret, uuid4,
      datetime_now, raise; simpl;
    match goal with
    | |- context [bool_decide (?v = [])] =>
        destruct (decide (v = [])) as [Hnil|Hne];
        [rewrite (bool_decide_eq_true_2 _ Hnil)
        |rewrite (bool_decide_eq_false_2 _ Hne); discriminate]
    end;
    intros [= <- <-]; simpl;
    (split; [unfold one_target; eauto|]);
    repeat split;
    unfold Notification.is_valid; rewrite Hnil; reflexivity.
Qed.

Lemma create_notification_spec_witness :
  fst (NotificationDomainService.create_notification Sample.alert_type
         (Some "Build finished") None None None None "high" None None None
         (Sample.world, tt))
  = inl (ValueError "Must specify either device tokens or topic").
Proof.
  destruct (create_notification_spec Sample.alert_type (Some "Build finished") None None
              None None "high" None None None (Sample.world, tt)) as (H & _).
  rewrite H; reflexivity.
Defined.

(** ** The content check of the service *)

(** X10. For a notification with exactly one target, no schedule and
    no expiry, the entity's [validate] and the service's
    [validate_notification_type_requirements] on the same type, title,
    body and data return the same list; in general every error of the
    service's check is an error of [validate]. *)
Theorem requirements_agree_with_validate (self : Notification.t) (current_time : Z) :
  (forall msg,
      msg ∈ NotificationDomainServiceMethods.validate_notification_type_requirements
              (Notification.notification_type self) (Notification.title self)
              (Notification.body self) (Some (Notification.data self)) ->
      msg ∈ Notification.validate self current_time)
  /\ (one_target (Notification.device_tokens self) (Notification.topic self) ->
      Notification.scheduled_at self = None ->
      Notification.expires_at self = None ->
      Notification.validate self current_time
      = NotificationDomainServiceMethods.validate_notification_type_requirements
          (Notification.notification_type self) (Notification.title self)
          (Notification.body self) (Some (Notification.data self))).
Proof.
  split.
  - intros msg.
    unfold NotificationDomainServiceMethods.validate_notification_type_requirements,
      Notification.validate.
    change ("Notification type '" +:+
            NotificationType.value (Notification.notification_type self) +:+
            "' requires a title") with (Notification.msg_requires_title self).
    change ("Notification type '" +:+
            NotificationType.value (Notification.notification_type self) +:+
            "' requires a body") with (Notification.msg_requires_body self).
    change ("Notification type '" +:+
            NotificationType.value (Notification.notification_type self) +:+
            "' does not support custom data") with (Notification.msg_no_data self).
    simpl Notification.data_or_empty.
    rewrite !elem_of_append_if, !elem_of_nil. tauto.
  - intros Hone Hs He.
    unfold NotificationDomainServiceMethods.validate_notification_type_requirements,
      Notification.validate.
    rewrite Hs, He. simpl Notification.data_or_empty.
    assert (H1 : negb (bool_decide (is_Some (Notification.device_tokens self)))
                 && negb (bool_decide (is_Some (Notification.topic self))) = false).
    { destruct Hone as [[Hd ->]|[-> Ht]].
      - rewrite (bool_decide_eq_true_2 _ Hd). reflexivity.
      - rewrite (bool_decide_eq_true_2 _ Ht). apply andb_false_r. }
    assert (H2 : bool_decide (is_Some (Notification.device_tokens self))
                 && bool_decide (is_Some (Notification.topic self)) = false).
    { destruct Hone as [[Hd ->]|[-> Ht]].
      - apply andb_false_r.
      - reflexivity. }
    rewrite H1, H2. reflexivity.
Qed.

Lemma requirements_agree_with_validate_witness :
  Notification.validate (Sample.notification ["a"]%char) 1700000000000000
  = NotificationDomainServiceMethods.validate_notification_type_requirements
      Sample.alert_type (Some "Build finished") (Some "All checks passed") (Some []).
Proof.
  destruct (requirements_agree_with_validate (Sample.notification ["a"]%char)
              1700000000000000) as (_ & H).
  apply H; [left; split; [eexists|]; reflexivity|reflexivity|reflexivity].
Defined.

(** ** Retry eligibility *)

Lemma should_retry_true_iff (notification : Notification.t) (max_retries now : Z) :
  NotificationDomainServiceMethods.should_retry_notification notification max_retries now
  = true
  <-> Notification.status notification = "failed"
      /\ Notification.failed_count notification < max_retries
      /\ ~ expired notification now.
Proof.
  unfold NotificationDomainServiceMethods.should_retry_notification, expired.
  destruct (decide (Notification.status notification = "failed")) as [Hst|Hst].
  - rewrite (bool_decide_eq_true_2 _ Hst). simpl.
    destruct (max_retries <=? Notification.failed_count notification) eqn:Hmax.
    + apply Z.leb_le in Hmax. split; [discriminate|]. intros (_ & H & _). lia.
    + apply Z.leb_gt in Hmax.
      destruct (Notification.expires_at notification) as [e|].
      * destruct (e <? now) eqn:He.
        -- apply Z.ltb_lt in He. split; [discriminate|].
           intros (_ & _ & H). exfalso. apply H. eauto.
        -- apply Z.ltb_ge in He. split; [|reflexivity]. intros _.
           repeat split; auto. intros (e' & [= <-] & H). lia.
      * split; [|reflexivity]. intros _. repeat split; auto.
        intros (e' & [=] & _).
  - rewrite (bool_decide_eq_false_2 _ Hst). simpl. split; [discriminate|tauto].
Qed.

Lemma apply_calls_no_failure_status (cs : list call) (self : Notification.t) :
  existsb is_mark_failed cs = false ->
  Notification.status self <> "failed" ->
  Notification.status (apply_calls self cs) <> "failed".
Proof.
  revert self. induction cs as [|c cs IH]; intros self Hex Hst; [exact Hst|].
  destruct c as [count|msg count]; [|discriminate].
  unfold apply_calls in *. simpl in *. apply IH; [exact Hex|].
  simpl. destruct (decide (Notification.status self = "pending")) as [Hp|Hp].
  - rewrite (bool_decide_eq_true_2 _ Hp). discriminate.
  - rewrite (bool_decide_eq_false_2 _ Hp). exact Hst.
Qed.

(** X11. A notification is eligible for a retry exactly when it is
    [failed], has failed fewer than [max_retries] times and has not
    expired. Over call sequences of [mark_sent] and [mark_failed] with
    counts that are not negative, a notification that has used up its
    retries never becomes eligible again, and a notification that is not
    failed and is only marked sent never becomes eligible. *)
Theorem should_retry_over_calls (self : Notification.t) (cs : list call)
    (max_retries now : Z) :
  (NotificationDomainServiceMethods.should_retry_notification self max_retries now = true
   <-> Notification.status self = "failed"
       /\ Notification.failed_count self < max_retries
       /\ ~ expired self now)
  /\ (Forall (fun c => 0 <= call_count c) cs ->
      max_retries <= Notification.failed_count self ->
      NotificationDomainServiceMethods.should_retry_notification
        (apply_calls self cs) max_retries now = false)
  /\ (existsb is_mark_failed cs = false ->
      Notification.status self <> "failed" ->
      NotificationDomainServiceMethods.should_retry_notification
        (apply_calls self cs) max_retries now = false).
Proof.
  split; [apply should_retry_true_iff|]. split.
  - intros Hnonneg Hmax. apply not_true_is_false. rewrite should_retry_true_iff.
    intros (_ & H & _). rewrite apply_calls_failed_count in H.
    pose proof (failed_total_nonneg cs Hnonneg). lia.
  - intros Hex Hst. apply not_true_is_false. rewrite should_retry_true_iff.
    intros (H & _). revert H. apply apply_calls_no_failure_status; assumption.
Qed.

(** Three failures use up the default of three retries; a fourth call
    changes nothing. *)
Lemma should_retry_over_calls_witness :
  NotificationDomainServiceMethods.should_retry_notification
    (apply_calls
       (apply_calls (Sample.notification ["a"]%char)
          [MarkFailed (Some "UNAVAILABLE") 1; MarkFailed (Some "UNAVAILABLE") 2])
       [MarkSent 1; MarkFailed (Some "UNAVAILABLE") 1])
    3 1700000000000000 = false.
Proof.
  destruct (should_retry_over_calls
              (apply_calls (Sample.notification ["a"]%char)
                 [MarkFailed (Some "UNAVAILABLE") 1; MarkFailed (Some "UNAVAILABLE") 2])
              [MarkSent 1; MarkFailed (Some "UNAVAILABLE") 1] 3 1700000000000000)
    as (_ & Hexhausted & _).
  apply Hexhausted.
  - repeat (constructor; [simpl; lia|]). constructor.
  - vm_compute. discriminate.
Defined.

(** X12. Retry eligibility of the entity after the gateway call of
    [send_notification], with the default of three retries, for a
    freshly created notification without expiry: after a single-device
    call it is eligible exactly when the call failed; after a multicast
    that returned a result, exactly when one or two devices failed;
    after a multicast that failed outright it is eligible, whatever the
    number of tokens. *)
Theorem should_retry_after_dispatch (fcm_client : FCMClient) (notification_id : string)
    (notification : Notification.t) (device_token_values : list string) (now : Z) :
  Notification.status notification = "pending" ->
  Notification.failed_count notification = 0 ->
  Notification.expires_at notification = None ->
  NotificationDomainServiceMethods.should_retry_notification
    (d_notification (dispatch fcm_client notification_id notification
                       device_token_values)) 3 now
  = match device_token_values with
    | [device_token] =>
        negb (SendResult.success (device_result fcm_client notification device_token))
    | _ =>
        if MulticastResult.success
             (multicast_result fcm_client notification device_token_values)
        then (0 <? MulticastResult.failure_count
                     (multicast_result fcm_client notification device_token_values))
             && (MulticastResult.failure_count
                   (multicast_result fcm_client notification device_token_values) <? 3)
        else true
    end.
Proof.
  intros Hst Hfailed Hexp.
  unfold dispatch, NotificationDomainServiceMethods.should_retry_notification.
  destruct device_token_values as [|a [|b l]].
  2: { destruct (SendResult.success (device_result fcm_client notification a));
         simpl; rewrite ?Hst, ?Hfailed, ?Hexp; reflexivity. }
  all: destruct (MulticastResult.success (multicast_result fcm_client notification _));
    [destruct (0 <? MulticastResult.failure_count
                      (multicast_result fcm_client notification _)) eqn:Hf|];
    simpl; rewrite ?Hst, ?Hfailed, ?Hexp; simpl; try reflexivity;
    destruct (MulticastResult.failure_count
                (multicast_result fcm_client notification _) <? 3) eqn:H3;
    [apply Z.ltb_lt in H3|apply Z.ltb_ge in H3];
    destruct (3 <=? 0 + MulticastResult.failure_count
                          (multicast_result fcm_client notification _)) eqn:H4;
    try reflexivity;
    [apply Z.leb_le in H4|apply Z.leb_gt in H4]; lia.
Qed.

(** A multicast to five tokens of which two failed: eligible. *)
Lemma should_retry_after_dispatch_witness :
  NotificationDomainServiceMethods.should_retry_notification
    (d_notification
       (dispatch (FirebaseClient.client (Sample.messaging 3 2)) "id-0"
          (Sample.notification ["a"; "b"; "c"; "d"; "e"]%char)
          (map Sample.token ["a"; "b"; "c"; "d"; "e"]%char))) 3 1700000000000000
  = true.
Proof.
  rewrite (should_retry_after_dispatch (FirebaseClient.client (Sample.messaging 3 2)));
    reflexivity.
Defined.

(** ** The batch summary of the domain service *)

Lemma count_valid_spec {L} (notifications : list Notification.t) (s : World * L) :
  exists k s',
    count_valid notifications s = (inr k, s')
    /\ snd s' = snd s
    /\ 0 <= k <= len notifications
    /\ (k = len notifications ->
        Forall (fun n => one_target (Notification.device_tokens n) (Notification.topic n))
               notifications).
Proof.
  revert s. induction notifications as [|n rest IH]; intros s.
  - exists 0, s. repeat split; try reflexivity; try (unfold len; simpl; lia).
    constructor.
  - simpl. unfold mbind, M_bind, datetime_now. simpl.
    match goal with
    | |- context [count_valid rest ?s1] => destruct (IH s1) as (k & s' & -> & Hl & Hk & Hall)
    end.
    eexists _, s'. split; [reflexivity|]. split; [exact Hl|].
    unfold len in *. simpl length. rewrite Nat2Z.inj_succ.
    destruct (Notification.is_valid n _) eqn:Hvalid.
    + split; [lia|]. intros Heq. constructor; [|apply Hall; lia].
      apply is_valid_true_iff in Hvalid. tauto.
    + split; [lia|]. intros Heq. lia.
Qed.

Lemma one_target_partition (notifications : list Notification.t) :
  Forall (fun n => one_target (Notification.device_tokens n) (Notification.topic n))
         notifications ->
  len (filter (fun n => is_Some (Notification.device_tokens n)) notifications)
  + len (filter (fun n => is_Some (Notification.topic n)) notifications)
  = len notifications.
Proof.
  unfold len. induction 1 as [|n rest Hn _ IH]; [reflexivity|].
  rewrite !filter_cons. simpl length.
  destruct Hn as [[Hd Ht]|[Hd Ht]].
  - rewrite decide_True by exact Hd.
    rewrite decide_False by (rewrite Ht; intros [? [=]]).
    simpl length. lia.
  - rewrite decide_False by (rewrite Hd; intros [? [=]]).
    rewrite decide_True by exact Ht.
    simpl length. lia.
Qed.

(** X13. In the summary of [process_notification_batch], [total_count]
    is the number of notifications, [valid_count] and [invalid_count]
    are not negative and add up to it, and when every notification is
    valid each is counted either as device-targeted or as
    topic-targeted, never both: the two counts add up to
    [total_count]. The local variables of the caller are untouched. *)
Theorem process_notification_batch_counts {L} (notifications : list Notification.t)
    (s : World * L) :
  exists summary s',
    process_notification_batch notifications s = (inr summary, s')
    /\ snd s' = snd s
    /\ BatchSummary.total_count summary = len notifications
    /\ BatchSummary.valid_count summary + BatchSummary.invalid_count summary
       = BatchSummary.total_count summary
    /\ 0 <= BatchSummary.valid_count summary
    /\ 0 <= BatchSummary.invalid_count summary
    /\ (BatchSummary.valid_count summary = BatchSummary.total_count summary ->
        BatchSummary.device_notifications summary
        + BatchSummary.topic_notifications summary
        = BatchSummary.total_count summary).
Proof.
  unfold process_notification_batch, mbind, M_bind.
  destruct (count_valid_spec notifications s) as (k & s' & -> & Hl & Hk & Hall).
  eexists _, s'. split; [reflexivity|]. simpl.
  repeat split; try lia; try exact Hl.
  intros Heq. apply one_target_partition, Hall, Heq.
Qed.

(** A valid alert for one device and an alert without target, title
    and body. *)
Lemma process_notification_batch_counts_witness :
  exists summary,
    fst (process_notification_batch [Sample.notification ["a"]%char; Sample.bare_alert]
           (Sample.world, tt)) = inr summary
    /\ BatchSummary.total_count summary = 2
    /\ BatchSummary.valid_count summary + BatchSummary.invalid_count summary = 2.
Proof.
  destruct (process_notification_batch_counts
              [Sample.notification ["a"]%char; Sample.bare_alert] (Sample.world, tt))
    as (summary & s' & Hrun & _ & Htotal & Hsum & _).
  exists summary. rewrite Hrun. split; [reflexivity|].
  rewrite Hsum, Htotal. split; reflexivity.
Defined.

(** X14. [type_groups] maps a type value to the number of notifications
    of that type, and has no entry for a type without a notification. *)
Theorem process_notification_batch_type_groups {L}
    (notifications : list Notification.t) (s : World * L) (value : string) :
  exists summary s',
    process_notification_batch notifications s = (inr summary, s')
    /\ BatchSummary.type_groups summary !! value
       = match of_type value notifications with
         | [] => None
         | group => Some (len group)
         end.
Proof.
  unfold process_notification_batch, mbind, M_bind.
  destruct (count_valid_spec notifications s) as (k & s' & -> & _).
  eexists _, s'. split; [reflexivity|]. simpl.
  rewrite lookup_fmap.
  rewrite (fold_append_to_group_lookup
             (fun n => NotificationType.value (Notification.notification_type n))
             (fun n => n)),
    lookup_empty, map_id.
  unfold of_type. destruct (filter _ notifications); reflexivity.
Qed.

(** ** The FCM message *)

(** X15. [to_fcm_message] raises [KeyError('headers')] for every
    notification whose priority is not the empty string: it assigns
    [message["message"]["apns"]["headers"]["apns-priority"]] while the
    [apns] dictionary has no [headers] entry. With an empty priority it
    returns the message, whose target entry is the first token of the
    collection. *)
Theorem to_fcm_message_key_error (self : Notification.t) :
  has_first_token self ->
  (Notification.priority self <> "" ->
   to_fcm_message self = inl (KeyError "headers"))
  /\ (Notification.priority self = "" ->
      exists message,
        to_fcm_message self = inr message
        /\ forall device_tokens,
             Notification.device_tokens self = Some device_tokens ->
             exists token,
               head (DeviceTokenList.tokens device_tokens) = Some token
               /\ get_path ["message"; "token"] message
                  = inr (PyString (DeviceToken.value token))).
Proof.
  unfold has_first_token, to_fcm_message. intros Hfirst.
  destruct (Notification.priority self) as [|c p] eqn:Hp.
  - split; [intros H; contradiction|]. intros _.
    destruct (PyStr.truthy_opt (Notification.title self)),
      (PyStr.truthy_opt (Notification.body self)),
      (PyStr.truthy_opt (Notification.collapse_key self)),
      (match Notification.ttl self with
       | Some ttl => negb (bool_decide (ttl = 0))
       | None => false
       end);
      destruct (Notification.device_tokens self) as [d|];
      try destruct (DeviceTokenList.tokens d) as [|token rest] eqn:Htok;
      try contradiction;
      try destruct (Notification.topic self);
      (eexists; split; [reflexivity|]);
      intros device_tokens Hd; try discriminate Hd;
      injection Hd as <-; exists token; rewrite Htok; split; reflexivity.
  - split; [intros _|discriminate].
    destruct (PyStr.truthy_opt (Notification.title self)),
      (PyStr.truthy_opt (Notification.body self));
      destruct (Notification.device_tokens self) as [d|];
      try destruct (DeviceTokenList.tokens d) as [|token rest];
      try contradiction;
      try destruct (Notification.topic self);
      reflexivity.
Qed.

Lemma to_fcm_message_key_error_witness :
  to_fcm_message (Sample.notification ["a"]%char) = inl (KeyError "headers").
Proof.
  destruct (to_fcm_message_key_error (Sample.notification ["a"]%char)) as (H & _).
  - simpl. discriminate.
  - apply H. discriminate.
Defined.

(** ** From the request to the token collection *)

Lemma len_ge_32_truthy (s : string) : 32 <= PyStr.len s -> PyStr.truthy s = true.
Proof. destruct s; [unfold PyStr.len; simpl; lia|reflexivity]. Qed.

Lemma device_token_new_canonical (r : DeviceTokenRequest.t) :
  canonical_token r ->
  DeviceToken.new (DeviceTokenRequest.token r) (DeviceTokenRequest.platform r)
  = inr (as_device_token r).
Proof.
  intros (_ & Hs & Hlen & Hp). unfold DeviceToken.new.
  rewrite (validate_token_stripped _ Hs (len_ge_32_truthy _ Hlen) Hlen).
  assert (Hl : PyStr.lower (DeviceTokenRequest.platform r) = DeviceTokenRequest.platform r).
  { unfold DeviceToken.valid_platforms in Hp.
    repeat (apply elem_of_cons in Hp as [->|Hp]; [reflexivity|]).
    apply elem_of_nil in Hp. contradiction. }
  unfold DeviceToken.validate_platform. rewrite Hl, (bool_decide_eq_true_2 _ Hp).
  reflexivity.
Qed.

Lemma map_exn_all_inr {A B} (f : A -> exn + B) (g : A -> B) (l : list A) :
  Forall (fun x => f x = inr (g x)) l -> map_exn f l = inr (map g l).
Proof.
  induction 1 as [|x l Hx _ IH]; simpl; [reflexivity|]. rewrite Hx, IH. reflexivity.
Qed.

Lemma request_tokens_validated (v v' : list DeviceTokenRequest.t) :
  SendNotificationRequestValidators.validate_device_tokens v = inr v' ->
  v' = v /\ v <> [] /\ len v <= 500 /\ NoDup (map DeviceTokenRequest.token v).
Proof.
  unfold SendNotificationRequestValidators.validate_device_tokens.
  destruct (decide (v = [])) as [Hnil|Hnil];
    [rewrite (bool_decide_eq_true_2 _ Hnil); discriminate|].
  rewrite (bool_decide_eq_false_2 _ Hnil).
  destruct (500 <? len v) eqn:Hlen; [discriminate|]. apply Z.ltb_ge in Hlen.
  match goal with
  | |- context [bool_decide ?P] => destruct (decide P) as [Hd|Hd];
      [rewrite (bool_decide_eq_true_2 _ Hd); discriminate
      |rewrite (bool_decide_eq_false_2 _ Hd)]
  end.
  intros [= <-]. repeat split; auto.
  apply size_list_to_set_NoDup. apply dec_stable in Hd. unfold len in Hd. lia.
Qed.

(** X16. A list of request tokens that passed the request validator and
    holds only canonical tokens (ASCII, trimmed, of at least 32
    characters, platform in lower case) is accepted by the conversion of
    the handlers, whatever the configured maximum: the collection holds
    the same tokens in the same order. *)
Theorem validated_request_tokens_accepted (settings : Settings)
    (v v' : list DeviceTokenRequest.t) :
  SendNotificationRequestValidators.validate_device_tokens v = inr v' ->
  Forall canonical_token v ->
  build_device_tokens settings v
  = inr (DeviceTokenList.mk (map as_device_token v) (max_tokens_per_request settings)).
Proof.
  intros Hv Hall. apply request_tokens_validated in Hv as (_ & Hne & Hlen & Hnd).
  unfold build_device_tokens.
  rewrite (map_exn_all_inr _ as_device_token).
  - unfold DeviceTokenList.new. rewrite validate_tokens_no_earlier_field.
    rewrite bool_decide_eq_false_2 by (destruct v; [contradiction|discriminate]).
    assert (Hlen' : len (map as_device_token v) = len v)
      by (unfold len; rewrite length_map; reflexivity).
    rewrite Hlen'. destruct (500 <? len v) eqn:H; [apply Z.ltb_lt in H; lia|].
    rewrite map_map. simpl.
    rewrite bool_decide_eq_true_2 by exact Hnd. reflexivity.
  - eapply Forall_impl; [exact Hall|]. intros r. apply device_token_new_canonical.
Qed.

Lemma validated_request_tokens_accepted_witness :
  build_device_tokens default_settings (map Sample.token_request ["a"; "b"]%char)
  = inr (DeviceTokenList.mk
           (map as_device_token (map Sample.token_request ["a"; "b"]%char)) 500).
Proof.
  apply (validated_request_tokens_accepted default_settings
           (map Sample.token_request ["a"; "b"]%char)
           (map Sample.token_request ["a"; "b"]%char)).
  - vm_compute. reflexivity.
  - repeat constructor; vm_compute; try reflexivity; discriminate.
Defined.

Lemma chars_app (a b : string) : chars (a +:+ b) = chars a ++ chars b.
Proof.
  induction a as [|c a IH]; [reflexivity|].
  change (chars (String c (a +:+ b)) = c :: (chars a ++ chars b)).
  simpl. f_equal. exact IH.
Qed.

(** A trimmed, non-empty string followed by one space trims back to
    itself. *)
Lemma strip_app_space (s : string) :
  PyStr.strip s = s -> s <> "" -> PyStr.strip (s +:+ " ") = s.
Proof.
  intros Hs Hne.
  assert (Hclean : starts_clean s) by (rewrite <- Hs; apply strip_starts_clean).
  assert (Hr : PyStr.rstrip s = s).
  { unfold PyStr.strip in Hs. rewrite (lstrip_clean _ Hclean) in Hs. exact Hs. }
  unfold PyStr.strip.
  rewrite (lstrip_clean (s +:+ " ")).
  - unfold PyStr.rstrip in *.
    assert (Hrev : String.rev (s +:+ " ") = String " " (String.rev s)).
    { apply chars_inj. rewrite chars_rev, chars_app. simpl.
      rewrite rev_app_distr, <- chars_rev. reflexivity. }
    rewrite Hrev. simpl. exact Hr.
  - destruct s as [|c s]; [contradiction|]. exact Hclean.
Qed.

Lemma app_space_ne (s : string) : s <> s +:+ " ".
Proof.
  intros H. apply (f_equal chars) in H. rewrite chars_app in H.
  apply (f_equal length) in H. rewrite length_app in H. simpl in H. lia.
Qed.

Lemma request_tokens_accept (v : list DeviceTokenRequest.t) :
  v <> [] -> len v <= 500 -> NoDup (map DeviceTokenRequest.token v) ->
  SendNotificationRequestValidators.validate_device_tokens v = inr v.
Proof.
  intros Hne Hlen Hnd. unfold SendNotificationRequestValidators.validate_device_tokens.
  rewrite (bool_decide_eq_false_2 _ Hne).
  destruct (500 <? len v) eqn:H; [apply Z.ltb_lt in H; lia|].
  rewrite bool_decide_eq_false_2; [reflexivity|].
  intros Hd. apply Hd. unfold len. f_equal. symmetry.
  apply size_list_to_set_NoDup. exact Hnd.
Qed.

(** X17. Two request tokens in ASCII that differ only by a trailing
    space pass the duplicate check of the request, which compares the
    raw strings, and are rejected as duplicates by the token collection,
    which compares the trimmed values: [send_notification] answers such
    a request with [HTTPException] 500, whatever the gateway and the
    store. *)
Theorem padded_duplicate_reaches_collection (settings : Settings)
    (request : SendNotificationRequest.t) (token platform : string)
    (fcm_client : FCMClient) (valkey_client : ValkeyClient) (w : World) :
  isascii token = true ->
  PyStr.strip token = token ->
  32 <= PyStr.len token ->
  platform ∈ DeviceToken.valid_platforms ->
  SendNotificationRequest.device_tokens request
  = [DeviceTokenRequest.mk token platform;
     DeviceTokenRequest.mk (token +:+ " ") platform] ->
  SendNotificationRequestValidators.validate_device_tokens
    (SendNotificationRequest.device_tokens request)
  = inr (SendNotificationRequest.device_tokens request)
  /\ build_device_tokens settings (SendNotificationRequest.device_tokens request)
     = inl (ValidationError "DeviceTokenList"
              [("tokens", "Duplicate device tokens are not allowed")])
  /\ exists detail,
       send_notification settings request fcm_client valkey_client (w, tt)
       = (inl (HTTPException 500 detail), (after_uuid w, tt)).
Proof.
  intros Hascii Hs Hlen Hp Hreq.
  assert (Hne : token <> "").
  { intros ->. unfold PyStr.len in Hlen. simpl in Hlen. lia. }
  assert (Hbuild : build_device_tokens settings
                     (SendNotificationRequest.device_tokens request)
                   = inl (ValidationError "DeviceTokenList"
                            [("tokens", "Duplicate device tokens are not allowed")])).
  { pose proof (device_token_new_canonical (DeviceTokenRequest.mk token platform)
                  (conj Hascii (conj Hs (conj Hlen Hp)))) as Hnew.
    change (DeviceToken.new token platform = inr (DeviceToken.mk token platform)) in Hnew.
    assert (Hpad : DeviceToken.new (token +:+ " ") platform
                   = inr (DeviceToken.mk token platform)).
    { assert (Hv : DeviceToken.validate_token (token +:+ " ") = inr token).
      { unfold DeviceToken.validate_token.
        rewrite (strip_app_space _ Hs Hne), (len_ge_32_truthy _ Hlen).
        destruct token as [|a token']; [contradiction|].
        change (PyStr.truthy (String a token' +:+ " ")) with true. simpl negb. simpl orb.
        destruct (PyStr.len (String a token') <? 32) eqn:H;
          [apply Z.ltb_lt in H; lia|reflexivity]. }
      unfold DeviceToken.new in *. rewrite Hv.
      destruct (DeviceToken.validate_platform platform) as [e|p];
        [destruct (DeviceToken.validate_token token); discriminate|].
      destruct (DeviceToken.validate_token token); [discriminate|].
      injection Hnew as _ ->. reflexivity. }
    rewrite Hreq. unfold build_device_tokens.
    cbn [map_exn DeviceTokenRequest.token DeviceTokenRequest.platform].
    rewrite Hnew, Hpad. unfold DeviceTokenList.new.
    rewrite validate_tokens_no_earlier_field.
    rewrite bool_decide_eq_false_2 by discriminate.
    change (len [DeviceToken.mk token platform; DeviceToken.mk token platform]) with 2.
    change (500 <? 2) with false. cbv iota.
    rewrite bool_decide_eq_false_2; [reflexivity|].
    intros Hnd. apply NoDup_cons in Hnd as [Hnin _]. apply Hnin, list_elem_of_here. }
  split; [|split; [exact Hbuild|]].
  - apply request_tokens_accept; rewrite Hreq.
    + discriminate.
    + unfold len. simpl. lia.
    + simpl. apply NoDup_cons. split.
      * intros Hin. apply list_elem_of_singleton in Hin. exact (app_space_ne _ Hin).
      * apply NoDup_singleton.
  - eexists. rewrite send_notification_run.
    unfold prepare, mbind, M_bind, lift. rewrite Hbuild. reflexivity.
Qed.

Lemma padded_duplicate_reaches_collection_witness :
  exists detail,
  fst (send_notification default_settings
         (SendNotificationRequest.mk
            [DeviceTokenRequest.mk (Sample.token "a") "android";
             DeviceTokenRequest.mk (Sample.token "a" +:+ " ") "android"]
            "alert" (Some "Build finished") (Some "All checks passed") [] "high"
            None None None)
         (FirebaseClient.client (Sample.messaging 2 0))
         (RedisClient.client Sample.redis_up) (Sample.world, tt))
  = inl (HTTPException 500 detail).
Proof.
  destruct (padded_duplicate_reaches_collection default_settings
              (SendNotificationRequest.mk
                 [DeviceTokenRequest.mk (Sample.token "a") "android";
                  DeviceTokenRequest.mk (Sample.token "a" +:+ " ") "android"]
                 "alert" (Some "Build finished") (Some "All checks passed") [] "high"
                 None None None)
              (Sample.token "a") "android"
              (FirebaseClient.client (Sample.messaging 2 0))
              (RedisClient.client Sample.redis_up) Sample.world)
    as (_ & _ & detail & H).
  - reflexivity.
  - vm_compute. reflexivity.
  - vm_compute. discriminate.
  - apply list_elem_of_here.
  - reflexivity.
  - exists detail. rewrite H. reflexivity.
Defined.

(** ** Responses of [send_notification] *)

(** The gateway call changes the status and the counters of the entity
    only. *)
Lemma dispatch_keeps_target (fcm_client : FCMClient) (notification_id : string)
    (notification : Notification.t) (device_token_values : list string) :
  Notification.get_target_count
    (d_notification (dispatch fcm_client notification_id notification
                       device_token_values))
  = Notification.get_target_count notification.
Proof.
  unfold dispatch.
  destruct device_token_values as [|a [|b l]];
    [destruct (MulticastResult.success _);
       [destruct (0 <? MulticastResult.failure_count _)|]
    |destruct (SendResult.success _)
    |destruct (MulticastResult.success _);
       [destruct (0 <? MulticastResult.failure_count _)|]];
    reflexivity.
Qed.

(** The one result [dispatch] reports. *)
Lemma dispatch_result_shape (fcm_client : FCMClient) (notification_id : string)
    (notification : Notification.t) (device_token_values : list string) :
  device_token_values <> [] ->
  exists res,
    d_results (dispatch fcm_client notification_id notification device_token_values)
    = [res]
    /\ NotificationResult.notification_id res = notification_id
    /\ NotificationResult.target_count res = len device_token_values
    /\ NotificationResult.sent_count res
       = d_sent_count (dispatch fcm_client notification_id notification
                         device_token_values)
    /\ NotificationResult.failed_count res
       = d_failed_count (dispatch fcm_client notification_id notification
                           device_token_values)
    /\ NotificationResult.status res
       = d_status (dispatch fcm_client notification_id notification
                     device_token_values)
    /\ NotificationResult.status res ∈ ["success"; "partial"; "failed"].
Proof.
  intros Hne. unfold dispatch.
  destruct device_token_values as [|a [|b l]]; [contradiction| |].
  - destruct (SendResult.success _); eexists; (split; [reflexivity|]); simpl;
      repeat split; auto; set_solver.
  - destruct (MulticastResult.success _);
      [destruct (0 <? MulticastResult.failure_count _)|];
      eexists; (split; [reflexivity|]); simpl; repeat split; auto; set_solver.
Qed.

Lemma build_device_tokens_inr (settings : Settings)
    (device_tokens : list DeviceTokenRequest.t) (built : DeviceTokenList.t) :
  build_device_tokens settings device_tokens = inr built ->
  DeviceTokenList.tokens built <> []
  /\ 1 <= len (DeviceTokenList.tokens built) <= 500
  /\ len (DeviceTokenList.tokens built) = len device_tokens.
Proof.
  intros H. pose proof (build_device_tokens_length _ _ _ H) as Hlen.
  unfold build_device_tokens in H.
  destruct (map_exn _ device_tokens) as [e|tokens]; [discriminate|].
  apply device_token_list_new_inr in H as (Heq & Hne & Hb & _).
  rewrite <- Heq in Hne, Hb.
  split; [exact Hne|]. split; [exact Hb|].
  rewrite <- Hlen. unfold len. rewrite length_map. reflexivity.
Qed.

(** X18. Every response [send_notification] returns carries the id the
    handler drew first, reports as [total_targets] the number of device
    tokens of the request, between 1 and 500, and holds exactly one
    result, with the same id, target count, sent and failed counts; the
    status of that result is success, partial or failed, and [success]
    is false exactly when it is failed. *)
Theorem send_notification_response_invariants (settings : Settings)
    (request : SendNotificationRequest.t) (fcm_client : FCMClient)
    (valkey_client : ValkeyClient) (w : World)
    (response : SendNotificationResponse.t) (s' : World * unit) :
  send_notification settings request fcm_client valkey_client (w, tt)
  = (inr response, s') ->
  SendNotificationResponse.notification_id response = uuid4_at w (uuid_ctr w)
  /\ SendNotificationResponse.total_targets response
     = len (SendNotificationRequest.device_tokens request)
  /\ 1 <= SendNotificationResponse.total_targets response <= 500
  /\ exists res,
       SendNotificationResponse.results response = [res]
       /\ NotificationResult.notification_id res
          = SendNotificationResponse.notification_id response
       /\ NotificationResult.target_count res
          = SendNotificationResponse.total_targets response
       /\ NotificationResult.sent_count res
          = SendNotificationResponse.total_sent response
       /\ NotificationResult.failed_count res
          = SendNotificationResponse.total_failed response
       /\ NotificationResult.status res ∈ ["success"; "partial"; "failed"]
       /\ (SendNotificationResponse.success response = false
           <-> NotificationResult.status res = "failed").
Proof.
  rewrite send_notification_run. cbv zeta.
  pose proof (prepare_spec settings request (after_uuid w, tt)) as Hprep.
  destruct (prepare settings request (after_uuid w, tt))
    as [[e|[device_tokens notification]] s1]; [discriminate|].
  destruct Hprep as (_ & Hbuilt & Htarget & _).
  destruct (valkey_set valkey_client _ _ _); [discriminate|].
  destruct (valkey_publish valkey_client _ _); [discriminate|].
  intros [= <- <-].
  apply build_device_tokens_inr in Hbuilt as (Hne & Hbounds & Hlen).
  assert (Hcount : Notification.get_target_count notification
                   = len (DeviceTokenList.tokens device_tokens))
    by (unfold Notification.get_target_count; rewrite Htarget; reflexivity).
  unfold send_response. simpl.
  rewrite dispatch_keeps_target, Hcount.
  split; [reflexivity|]. split; [exact Hlen|]. split; [exact Hbounds|].
  destruct (dispatch_result_shape fcm_client (uuid4_at w (uuid_ctr w)) notification
              (map DeviceToken.value (DeviceTokenList.tokens device_tokens)))
    as (res & Hres & Hid & Htc & Hsent & Hfailed & Hstatus & Hin).
  { destruct (DeviceTokenList.tokens device_tokens); [contradiction|discriminate]. }
  exists res. split; [exact Hres|]. split; [exact Hid|].
  split; [rewrite Htc; unfold len; rewrite length_map; reflexivity|].
  split; [exact Hsent|]. split; [exact Hfailed|]. split; [exact Hin|].
  rewrite <- Hstatus, negb_false_iff, bool_decide_eq_true. reflexivity.
Qed.

Lemma send_notification_response_invariants_witness :
  exists response,
    fst (send_notification default_settings (Sample.alert ["a"; "b"]%char)
           (FirebaseClient.client (Sample.messaging 1 1))
           (RedisClient.client Sample.redis_up) (Sample.world, tt))
    = inr response
    /\ SendNotificationResponse.total_targets response = 2.
Proof.
  destruct (send_notification default_settings (Sample.alert ["a"; "b"]%char)
              (FirebaseClient.client (Sample.messaging 1 1))
              (RedisClient.client Sample.redis_up) (Sample.world, tt))
    as [[e|response] s'] eqn:Hrun; [vm_compute in Hrun; discriminate|].
  exists response. split; [reflexivity|].
  destruct (send_notification_response_invariants _ _ _ _ _ _ _ Hrun)
    as (_ & Htargets & _).
  rewrite Htargets. reflexivity.
Defined.

(** ** The Firebase client under the handlers *)

(** X19. With the Firebase client, whenever the SDK accounts for every
    token of a multicast, the counts [send_notification] reports add up
    to the number of tokens: a call that raised counts every token as
    failed. *)
Theorem firebase_dispatch_counts_add_up (messaging : FirebaseClient.Messaging)
    (notification_id : string) (notification : Notification.t)
    (device_token_values : list string) :
  accounts_for_every_token messaging ->
  d_sent_count (dispatch (FirebaseClient.client messaging) notification_id
                   notification device_token_values)
  + d_failed_count (dispatch (FirebaseClient.client messaging) notification_id
                      notification device_token_values)
  = len device_token_values.
Proof.
  intros Hacc. unfold dispatch, multicast_result, device_result; simpl.
  unfold FirebaseClient.send_to_multiple_devices, FirebaseClient.send_to_device.
  destruct device_token_values as [|a [|b l]].
  - destruct (FirebaseClient.send_multicast messaging []) as [[sc fc]|e] eqn:Hsdk;
      simpl; [apply (Hacc _ _ _ Hsdk)|reflexivity].
  - destruct (FirebaseClient.send messaging a); reflexivity.
  - destruct (FirebaseClient.send_multicast messaging (a :: b :: l))
      as [[sc fc]|e] eqn:Hsdk; simpl; [apply (Hacc _ _ _ Hsdk)|reflexivity].
Qed.

(** Two tokens and an SDK that delivers to all but one of them: one
    sent, one failed. *)
Lemma firebase_dispatch_counts_add_up_witness :
  accounts_for_every_token SampleRequests.messaging_all_but_one
  /\ d_sent_count (dispatch (FirebaseClient.client SampleRequests.messaging_all_but_one)
                     "id-0" (Sample.notification ["a"; "b"]%char)
                     (map Sample.token ["a"; "b"]%char))
     = 1
  /\ d_sent_count (dispatch (FirebaseClient.client SampleRequests.messaging_all_but_one)
                     "id-0" (Sample.notification ["a"; "b"]%char)
                     (map Sample.token ["a"; "b"]%char))
     + d_failed_count (dispatch
                         (FirebaseClient.client SampleRequests.messaging_all_but_one)
                         "id-0" (Sample.notification ["a"; "b"]%char)
                         (map Sample.token ["a"; "b"]%char))
     = 2.
Proof.
  assert (Haccounts : accounts_for_every_token SampleRequests.messaging_all_but_one).
  { intros device_tokens success_count failure_count H.
    injection H as <- <-. lia. }
  split; [exact Haccounts|]. split; [reflexivity|].
  exact (firebase_dispatch_counts_add_up SampleRequests.messaging_all_but_one "id-0"
           (Sample.notification ["a"; "b"]%char) (map Sample.token ["a"; "b"]%char)
           Haccounts).
Defined.

(** ** The topic handlers *)

Lemma prepare_topic_spec {L} (request : TopicNotificationRequest.t) (s : World * L) :
  match prepare_topic request s with
  | (inl _, s') => snd s' = snd s
  | (inr (topic, notification), s') =>
      snd s' = snd s
      /\ Topic.new (TopicNotificationRequest.topic request) = inr topic
      /\ Notification.topic notification = Some topic
      /\ Notification.title notification = TopicNotificationRequest.title request
      /\ Notification.body notification = TopicNotificationRequest.body request
      /\ Notification.data notification = TopicNotificationRequest.data request
      /\ Notification.priority notification = TopicNotificationRequest.priority request
  end.
Proof.
  unfold prepare_topic, mbind, M_bind, lift.
  destruct (Topic.new (TopicNotificationRequest.topic request)) as [e|topic];
    [reflexivity|].
  destruct (NotificationType.new (TopicNotificationRequest.notification_type request)
              (TopicNotificationRequest.priority request)) as [e|notification_type];
    [reflexivity|].
  unfold NotificationDomainService.create_notification,
    Notification.create_topic_notification, Notification.construct,
    NotificationDomainService.validated, mbind, M_bind, mret, M_ret, uuid4,
    datetime_now, raise.
  simpl.
  match goal with
  | |- context [bool_decide (?v = [])] => destruct (bool_decide (v = []))
  end; simpl; repeat split.
Qed.

Lemma topic_new_name (name : string) (topic : Topic.t) :
  Topic.new name = inr topic -> Topic.name topic = PyStr.strip name.
Proof.
  unfold Topic.new. destruct (Topic.validate_topic_name name) as [msg|n] eqn:Hn;
    [discriminate|].
  intros [= <-]. simpl. apply validate_topic_name_inr in Hn as (-> & _). reflexivity.
Qed.

Lemma send_topic_notification_run (request : TopicNotificationRequest.t)
    (fcm_client : FCMTopicClient) (valkey_client : ValkeyClient) (w : World) :
  send_topic_notification request fcm_client valkey_client (w, tt) =
    let notification_id := uuid4_at w (uuid_ctr w) in
    match prepare_topic request (after_uuid w, tt) with
    | (inl e, s) => (inl (HTTPException 500 (str_exn e)), s)
    | (inr (topic, notification), s) =>
        let d := topic_dispatch fcm_client topic notification in
        match valkey_set valkey_client ("notification:" +:+ notification_id)
                (topic_notification_status notification_id topic d) (Some 3600) with
        | inl e => (inl (HTTPException 500 (str_exn e)), s)
        | inr _ =>
            match valkey_publish valkey_client "notification.topic.sent"
                    (topic_notification_status notification_id topic d) with
            | inl e => (inl (HTTPException 500 (str_exn e)), s)
            | inr _ => (inr (topic_response notification_id topic d), s)
            end
        end
    end.
Proof.
  unfold send_topic_notification, try_except, mbind, M_bind, uuid4, after_uuid, lift,
    raise.
  simpl.
  destruct (prepare_topic request _) as [[e|[topic notification]] s]; [reflexivity|].
  destruct (valkey_set valkey_client _ _ _) as [e|ok]; [reflexivity|].
  destruct (valkey_publish valkey_client _ _) as [e|k]; reflexivity.
Qed.

(** X20. With a store that accepts every write, [send_topic_notification]
    raises only what the conversion of the request raised, as a 500;
    otherwise its response carries the handler's uuid and the stripped
    topic name, [success] is the gateway's [success], [message_id] is the
    gateway's only on success, and the message says that the notification
    was sent successfully whether it was or not. *)
Theorem send_topic_notification_outcome (request : TopicNotificationRequest.t)
    (fcm_client : FCMTopicClient) (valkey_client : ValkeyClient) (w : World) :
  store_accepts valkey_client ->
  let name := PyStr.strip (TopicNotificationRequest.topic request) in
  let result :=
    send_to_topic fcm_client name
      (TopicNotificationRequest.title request) (TopicNotificationRequest.body request)
      (TopicNotificationRequest.data request) (TopicNotificationRequest.priority request) in
  match send_topic_notification request fcm_client valkey_client (w, tt) with
  | (inr response, _) =>
      TopicNotificationResponse.notification_id response = uuid4_at w (uuid_ctr w)
      /\ TopicNotificationResponse.topic response = name
      /\ TopicNotificationResponse.success response = SendResult.success result
      /\ TopicNotificationResponse.message_id response
         = (if SendResult.success result then SendResult.message_id result else None)
      /\ TopicNotificationResponse.message response
         = "Topic notification sent successfully to " +:+ name
  | (inl e, _) =>
      exists e', fst (prepare_topic request (after_uuid w, tt)) = inl e'
                 /\ e = HTTPException 500 (str_exn e')
  end.
Proof.
  intros [Hset Hpublish] name result. rewrite send_topic_notification_run. cbv zeta.
  pose proof (prepare_topic_spec request (after_uuid w, tt)) as Hprep.
  destruct (prepare_topic request (after_uuid w, tt))
    as [[e|[topic notification]] s]; [exists e; split; reflexivity|].
  destruct Hprep as (_ & Hnew & _ & Htitle & Hbody & Hdata & Hpriority).
  apply topic_new_name in Hnew.
  match goal with
  | |- context [valkey_set valkey_client ?k ?v ?ex] =>
      destruct (Hset k v ex) as [ok ->]
  end.
  match goal with
  | |- context [valkey_publish valkey_client ?c ?m] =>
      destruct (Hpublish c m) as [k ->]
  end.
  assert (Hresult : topic_result fcm_client topic notification = result).
  { unfold topic_result, result, name.
    rewrite Hnew, Htitle, Hbody, Hdata, Hpriority. reflexivity. }
  unfold topic_response, topic_dispatch. rewrite Hresult. fold name in Hnew.
  destruct (SendResult.success result); simpl; rewrite Hnew; repeat split.
Qed.

(** The gateway is down: the response has [success] unset and no
    [message_id], and still says that the notification was sent. *)
Lemma send_topic_notification_outcome_witness :
  exists response,
    fst (send_topic_notification SampleTopics.news_alert
           (FirebaseTopics.client SampleTopics.messaging_down)
           (RedisClient.client Sample.redis_up) (Sample.world, tt))
    = inr response
    /\ TopicNotificationResponse.success response = false
    /\ TopicNotificationResponse.message_id response = None
    /\ TopicNotificationResponse.message response
       = "Topic notification sent successfully to news".
Proof.
  assert (Haccepts : store_accepts (RedisClient.client Sample.redis_up))
    by (split; intros; eexists; reflexivity).
  pose proof (send_topic_notification_outcome SampleTopics.news_alert
                (FirebaseTopics.client SampleTopics.messaging_down)
                (RedisClient.client Sample.redis_up) Sample.world Haccepts) as H.
  cbv zeta in H.
  destruct (send_topic_notification SampleTopics.news_alert
              (FirebaseTopics.client SampleTopics.messaging_down)
              (RedisClient.client Sample.redis_up) (Sample.world, tt))
    as [[e|response] s'] eqn:Hrun; [vm_compute in Hrun; discriminate|].
  exists response. destruct H as (_ & _ & Hsuccess & Hid & Hmessage).
  split; [reflexivity|]. split; [rewrite Hsuccess; reflexivity|].
  split; [rewrite Hid; reflexivity|]. rewrite Hmessage. reflexivity.
Defined.

Lemma failed_tokens_fold (device_tokens : list string) (errors : list ErrorInfo)
    (acc : list string) :
  fold_left
    (fun failed_tokens error =>
       if Z.of_nat (index error) <? len device_tokens then
         match device_tokens !! index error with
         | Some device_token => failed_tokens ++ [device_token]
         | None => failed_tokens
         end
       else failed_tokens)
    errors acc
  = acc ++ omap (fun error => device_tokens !! index error) errors.
Proof.
  revert acc. induction errors as [|error errors IH]; intros acc; simpl.
  - rewrite app_nil_r. reflexivity.
  - rewrite IH. unfold len.
    destruct (Z.ltb_spec (Z.of_nat (index error)) (Z.of_nat (length device_tokens)))
      as [Hlt|Hge].
    + destruct (device_tokens !! index error) as [t|]; simpl;
        [rewrite <- app_assoc; reflexivity | reflexivity].
    + rewrite (lookup_ge_None_2 device_tokens (index error)) by lia. reflexivity.
Qed.

Lemma failed_tokens_of_omap (device_tokens : list string) (errors : list ErrorInfo) :
  failed_tokens_of device_tokens errors
  = omap (fun error => device_tokens !! index error) errors.
Proof. unfold failed_tokens_of. rewrite failed_tokens_fold. reflexivity. Qed.

Lemma omap_lookup_elem_of (device_tokens : list string) (errors : list ErrorInfo) :
  Forall (fun t => t ∈ device_tokens)
         (omap (fun error => device_tokens !! index error) errors)
  /\ (length (omap (fun error => device_tokens !! index error) errors)
      <= length errors)%nat.
Proof.
  induction errors as [|error errors [IH1 IH2]]; [split; [constructor|reflexivity]|].
  change (omap (fun error => device_tokens !! index error) (error :: errors))
    with (match device_tokens !! index error with
          | Some t => t :: omap (fun error => device_tokens !! index error) errors
          | None => omap (fun error => device_tokens !! index error) errors
          end).
  destruct (device_tokens !! index error) as [t|] eqn:Ht.
  - split; [constructor; [eapply list_elem_of_lookup_2; exact Ht | exact IH1]|].
    cbn [length]. lia.
  - split; [exact IH1|]. cbn [length]. lia.
Qed.

(** X21. [subscribe_to_topic]: when the gateway did not subscribe, the
    handler returns, without publishing, a response with [success]
    unset that lists every token of the request as failed and gives
    "Unknown error" as the cause. When the gateway subscribed, the
    response has the gateway's counts, and [failed_tokens] are the
    request's tokens at the positions of the errors, in the order of the
    errors, positions outside the request left out; the only exception
    is the store's, as a 500. *)
Theorem subscribe_to_topic_outcome (request : TopicSubscriptionRequest.t)
    (fcm_client : FCMTopicClient) (publish : string -> SubscriptionEvent -> exn + Z)
    (s : World * unit) :
  let topic := TopicSubscriptionRequest.topic request in
  let device_tokens := TopicSubscriptionRequest.device_tokens request in
  match subscribe_to_topic_result fcm_client topic device_tokens with
  | NotSubscribed _ _ =>
      subscribe_to_topic request fcm_client publish s
      = (inr (TopicSubscriptionResponse.mk false topic 0 (len device_tokens)
                device_tokens
                ("Failed to subscribe tokens to topic " +:+ topic +:+ ": Unknown error")),
         s)
  | Subscribed success_count failure_count errors =>
      let failed_tokens := omap (fun error => device_tokens !! index error) errors in
      Forall (fun t => t ∈ device_tokens) failed_tokens
      /\ (length failed_tokens <= length errors)%nat
      /\ match publish "topic.subscription"
                 (mkSubscriptionEvent topic success_count failure_count failed_tokens) with
         | inl e =>
             subscribe_to_topic request fcm_client publish s
             = (inl (HTTPException 500 (str_exn e)), s)
         | inr _ =>
             exists message,
               subscribe_to_topic request fcm_client publish s
               = (inr (TopicSubscriptionResponse.mk true topic success_count
                         failure_count failed_tokens message), s)
         end
  end.
Proof.
  intros topic device_tokens. unfold subscribe_to_topic, try_except.
  fold topic device_tokens.
  destruct (subscribe_to_topic_result fcm_client topic device_tokens)
    as [success_count failure_count errors|failure_count errors]; [|reflexivity].
  cbv zeta. rewrite failed_tokens_of_omap.
  destruct (omap_lookup_elem_of device_tokens errors) as [Hin Hlen].
  split; [exact Hin|]. split; [exact Hlen|].
  unfold mbind, M_bind, lift, raise.
  destruct (publish "topic.subscription" _) as [e|k]; [reflexivity|].
  eexists. reflexivity.
Qed.

(** X22. [get_notification_status] never answers 404: every exception
    it raises has status 500, the one for a key that is not set
    included; it returns a value exactly when the store returned a value
    that is true, and then returns that value. *)
Theorem get_notification_status_never_404 (notification_id : string)
    (valkey_get : string -> exn + option stored) (s : World * unit) :
  (forall e s', get_notification_status notification_id valkey_get s = (inl e, s') ->
                exists detail, e = HTTPException 500 detail)
  /\ (valkey_get ("notification:" +:+ notification_id) = inr None ->
      exists detail,
        get_notification_status notification_id valkey_get s
        = (inl (HTTPException 500 detail), s))
  /\ (forall v s',
         get_notification_status notification_id valkey_get s = (inr v, s')
         <-> valkey_get ("notification:" +:+ notification_id) = inr (Some v)
             /\ stored_truthy v = true /\ s' = s).
Proof.
  unfold get_notification_status, try_except, mbind, M_bind, lift, raise, mret, M_ret.
  destruct (valkey_get ("notification:" +:+ notification_id)) as [e|[v|]] eqn:Hget.
  - split; [intros e' s' [= <- _]; eexists; reflexivity|].
    split; [discriminate|]. intros v s'. split; [discriminate|]. intros [[=] _].
  - destruct (stored_truthy v) eqn:Hv.
    + split; [discriminate|]. split; [discriminate|].
      intros v' s'. split.
      * intros [= <- <-]. auto.
      * intros ([= <-] & _ & ->). reflexivity.
    + split; [intros e' s' [= <- _]; eexists; reflexivity|].
      split; [discriminate|]. intros v' s'. split; [discriminate|].
      intros ([= <-] & Hv' & _). congruence.
  - split; [intros e' s' [= <- _]; eexists; reflexivity|].
    split; [intros _; eexists; reflexivity|].
    intros v s'. split; [discriminate|]. intros [[=] _].
Qed.

(** A key that is not set: the answer is a 500. *)
Lemma get_notification_status_never_404_witness :
  exists detail,
    fst (get_notification_status "id-0" (fun _ => inr None) (Sample.world, tt))
    = inl (HTTPException 500 detail).
Proof.
  destruct (get_notification_status_never_404 "id-0" (fun _ => inr None)
              (Sample.world, tt)) as (_ & H & _).
  destruct (H eq_refl) as [detail ->]. exists detail. reflexivity.
Defined.

(** ** The counter of successful batch items *)

Lemma count_successful_app (rs rs' : list SendNotificationResponse.t) :
  count_successful (rs ++ rs') = count_successful rs + count_successful rs'.
Proof.
  unfold count_successful, len. rewrite List.filter_app, length_app. lia.
Qed.

Section BatchCounter.

Variable settings : Settings.
Variable fcm_client : FCMClient.
Variable valkey_client : ValkeyClient.
Variable batch_id : string.
Hypothesis store_up : store_accepts_writes valkey_client.

(** The gateway call of an item adds one to [successful_count] exactly
    when the status it returns is not "failed". *)
Lemma batch_dispatch_counter (notification : Notification.t)
    (device_token_values : list string) (s : World * BatchLocals) :
  exists sent_count status error message_id s',
    batch_dispatch fcm_client notification device_token_values s
    = (inr (sent_count, status, error, message_id), s')
    /\ results (snd s') = results (snd s)
    /\ successful_count (snd s')
       = successful_count (snd s)
         + (if negb (bool_decide (status = "failed")) then 1 else 0).
Proof.
  unfold batch_dispatch.
  destruct device_token_values as [|a [|b l]];
    [destruct (MulticastResult.success _)
    |destruct (SendResult.success _)
    |destruct (MulticastResult.success _)];
    do 5 eexists; (split; [reflexivity|]); (split; [reflexivity|]); simpl;
    try (match goal with
         | |- context [if ?c then "partial" else "success"] => destruct c
         end);
    try (rewrite bool_decide_eq_false_2 by discriminate); simpl; lia.
Qed.

(** The loop body appends one result and adds one to [successful_count]
    exactly when that result has [success] set. *)
Lemma batch_item_counter (notification_request : SendNotificationRequest.t)
    (s : World * BatchLocals) :
  exists res s',
    batch_item settings fcm_client valkey_client batch_id notification_request s
    = (inr tt, s')
    /\ results (snd s') = results (snd s) ++ [res]
    /\ successful_count (snd s')
       = successful_count (snd s)
         + (if SendNotificationResponse.success res then 1 else 0).
Proof.
  unfold batch_item, try_except, batch_item_try, mbind, M_bind.
  pose proof (prepare_spec settings notification_request s) as Hprep.
  destruct (prepare settings notification_request s)
    as [[e|[device_tokens notification]] s1].
  - unfold batch_item_except, mbind, M_bind, incr_failed_count, uuid4, append_result.
    simpl. do 2 eexists. split; [reflexivity|]. simpl. rewrite Hprep.
    split; [reflexivity|]. simpl. lia.
  - destruct Hprep as (Hlocals & _).
    destruct (batch_dispatch_counter notification
                (map DeviceToken.value (DeviceTokenList.tokens device_tokens)) s1)
      as (sent_count & status & error & message_id & s2 & -> & Hres & Hcount).
    unfold get_locals, lift, uuid4, append_result. simpl.
    match goal with
    | |- context [valkey_set valkey_client ?k ?v ?ex] =>
        destruct (store_up k v ex) as [ok ->]
    end.
    simpl. do 2 eexists. split; [reflexivity|]. simpl.
    rewrite Hres, Hcount, Hlocals. split; reflexivity.
Qed.

Lemma for_each_batch_item_counter (notifications : list SendNotificationRequest.t)
    (s : World * BatchLocals) :
  exists rs s',
    for_each (batch_item settings fcm_client valkey_client batch_id) notifications s
    = (inr tt, s')
    /\ results (snd s') = results (snd s) ++ rs
    /\ length rs = length notifications
    /\ successful_count (snd s') = successful_count (snd s) + count_successful rs.
Proof.
  revert s. induction notifications as [|notification_request rest IH]; intros s.
  - exists [], s. split; [reflexivity|]. split; [rewrite app_nil_r; reflexivity|].
    split; [reflexivity|]. unfold count_successful, len. simpl. lia.
  - destruct (batch_item_counter notification_request s)
      as (res & s1 & Hrun & Hres & Hcount).
    destruct (IH s1) as (rs & s2 & Hloop & Hrs & Hlen & Hcounts).
    exists (res :: rs), s2. simpl. unfold mbind, M_bind. rewrite Hrun, Hloop.
    split; [reflexivity|].
    split; [rewrite Hrs, Hres, <- app_assoc; reflexivity|].
    split; [rewrite Hlen; reflexivity|].
    rewrite Hcounts, Hcount.
    change (res :: rs) with ([res] ++ rs). rewrite count_successful_app.
    unfold count_successful at 2, len. simpl.
    destruct (SendNotificationResponse.success res); simpl; lia.
Qed.

End BatchCounter.

(** X23. With a store that accepts every write, the
    [successful_notifications] of a batch response is the number of its
    per-item results that have [success] set, whatever the local
    variables held when the handler was entered. *)
Theorem batch_successful_count (settings : Settings)
    (request : BatchNotificationRequest.t) (fcm_client : FCMClient)
    (valkey_client : ValkeyClient) (w : World) (locals : BatchLocals)
    (response : BatchNotificationResponse.t) (s' : World * BatchLocals) :
  store_accepts_writes valkey_client ->
  send_batch_notifications settings request fcm_client valkey_client (w, locals)
  = (inr response, s') ->
  BatchNotificationResponse.successful_notifications response
  = count_successful (BatchNotificationResponse.results response)
  /\ 0 <= BatchNotificationResponse.successful_notifications response
     <= BatchNotificationResponse.total_notifications response.
Proof.
  intros Hstore. unfold send_batch_notifications, try_except, mbind, M_bind, uuid4,
    set_locals, get_locals, lift, raise. simpl.
  match goal with
  | |- context [for_each ?body ?l ?s] =>
      destruct (for_each_batch_item_counter settings fcm_client valkey_client
                  (uuid4_at w (uuid_ctr w)) Hstore l s)
        as (rs & s2 & Hloop & Hrs & Hall & Hcount)
  end.
  rewrite Hloop. simpl in Hrs, Hcount.
  simpl. destruct (valkey_publish valkey_client _ _) as [e|k]; [discriminate|].
  intros [= <- _]. simpl. rewrite Hcount, Hrs.
  split; [lia|].
  unfold count_successful, len. rewrite <- Hall.
  pose proof (List.filter_length_le SendNotificationResponse.success rs). lia.
Qed.

(** Two alerts, the second with no token: one item succeeds. *)
Lemma batch_successful_count_witness :
  exists response,
    fst (send_batch_notifications default_settings
           (BatchNotificationRequest.mk [Sample.alert ["a"]%char; Sample.alert []])
           (FirebaseClient.client (Sample.messaging 1 0))
           (RedisClient.client Sample.redis_up) (Sample.world, no_locals))
    = inr response
    /\ BatchNotificationResponse.successful_notifications response = 1
    /\ count_successful (BatchNotificationResponse.results response) = 1.
Proof.
  assert (Hstore : store_accepts_writes (RedisClient.client Sample.redis_up))
    by (intros key value ex; eexists; reflexivity).
  destruct (send_batch_notifications default_settings
              (BatchNotificationRequest.mk [Sample.alert ["a"]%char; Sample.alert []])
              (FirebaseClient.client (Sample.messaging 1 0))
              (RedisClient.client Sample.redis_up) (Sample.world, no_locals))
    as [[e|response] s'] eqn:Hrun; [vm_compute in Hrun; discriminate|].
  exists response. split; [reflexivity|].
  destruct (batch_successful_count _ _ _ _ _ _ _ _ Hstore Hrun) as [Hcount _].
  rewrite <- Hcount.
  assert (Hone : BatchNotificationResponse.successful_notifications response = 1)
    by (vm_compute in Hrun; injection Hrun as <- _; reflexivity).
  split; exact Hone.
Defined.

(** ** Priority and delivery estimate *)

(** X24. Without an override, [get_notification_priority] returns the
    default priority of the template of the type: high for an alert,
    normal for every other type; the validator of [NotificationType]
    accepts it unchanged. An override that is not empty is returned as
    it is, valid or not. *)
Theorem get_notification_priority_valid (notification_type : NotificationType.t)
    (override_priority : option string) :
  let priority :=
    NotificationDomainServiceMethods.get_notification_priority notification_type
      override_priority in
  (PyStr.truthy_opt override_priority = false ->
   priority = (if bool_decide (NotificationType.value notification_type = "alert")
               then "high" else "normal")
   /\ NotificationType.validate_priority priority = inr priority)
  /\ (forall p, override_priority = Some p -> p <> "" -> priority = p).
Proof.
  unfold NotificationDomainServiceMethods.get_notification_priority,
    NotificationType.get_template_config.
  split.
  - intros Hnone.
    assert (Hdefault :
      forall config : NotificationType.TemplateConfig,
        match override_priority with
        | Some p => if PyStr.truthy p then p else NotificationType.default_priority config
        | None => NotificationType.default_priority config
        end = NotificationType.default_priority config).
    { intros config. destruct override_priority as [p|]; [|reflexivity].
      simpl in Hnone. rewrite Hnone. reflexivity. }
    rewrite Hdefault.
    repeat match goal with
           | |- context [bool_decide ?P] => destruct (bool_decide P)
           end; split; reflexivity.
  - intros p -> Hp. destruct p; [contradiction|reflexivity].
Qed.

(** An alert and a custom type without override, and an override. *)
Lemma get_notification_priority_valid_witness :
  NotificationDomainServiceMethods.get_notification_priority Sample.alert_type None
  = "high"
  /\ NotificationDomainServiceMethods.get_notification_priority
       (NotificationType.mk "order_update" None "low" None) (Some "")
     = "normal"
  /\ NotificationDomainServiceMethods.get_notification_priority Sample.alert_type
       (Some "low")
     = "low".
Proof.
  split; [|split].
  - destruct (get_notification_priority_valid Sample.alert_type None) as [H _].
    destruct (H eq_refl) as [-> _]. reflexivity.
  - destruct (get_notification_priority_valid
                (NotificationType.mk "order_update" None "low" None) (Some ""))
      as [H _].
    destruct (H eq_refl) as [-> _]. reflexivity.
  - destruct (get_notification_priority_valid Sample.alert_type (Some "low")) as [_ H].
    apply (H "low" eq_refl). discriminate.
Defined.

(** X25. For a notification with no schedule, [estimate_delivery_time]
    returns the current time cut to the whole second: an instant that is
    never after the current time and less than a second before it. No
    processing time is added. The clock is read, once, only when no
    current time is passed. *)
Theorem estimate_delivery_time_unscheduled {L} (notification : Notification.t)
    (s : World * L) :
  Notification.scheduled_at notification = None ->
  (forall current_time,
      exists r,
        NotificationDomainServiceMethods.estimate_delivery_time notification
          (Some current_time) s = (inr r, s)
        /\ r <= current_time < r + 1000000
        /\ r `mod` 1000000 = 0)
  /\ exists r s',
       NotificationDomainServiceMethods.estimate_delivery_time notification None s
       = (inr r, s')
       /\ r <= now_at (fst s) (clock_ctr (fst s)) < r + 1000000
       /\ clock_ctr (fst s') = S (clock_ctr (fst s))
       /\ snd s' = snd s.
Proof.
  intros Hnone.
  assert (Hcut : forall t, t - t `mod` 1000000 <= t < t - t `mod` 1000000 + 1000000
                           /\ (t - t `mod` 1000000) `mod` 1000000 = 0).
  { intros t. pose proof (Z.mod_pos_bound t 1000000 ltac:(lia)) as Hb.
    split; [lia|].
    rewrite Zminus_mod, Zmod_mod, Z.sub_diag. reflexivity. }
  unfold NotificationDomainServiceMethods.estimate_delivery_time, mbind, M_bind, mret,
    M_ret, datetime_now.
  rewrite Hnone. split.
  - intros current_time. eexists. split; [reflexivity|]. apply Hcut.
  - do 2 eexists. split; [reflexivity|]. simpl.
    split; [apply Hcut|]. split; reflexivity.
Qed.

Lemma estimate_delivery_time_unscheduled_witness :
  NotificationDomainServiceMethods.estimate_delivery_time Sample.bare_alert
    (Some 1700000000999999) (Sample.world, tt)
  = (inr 1700000000000000, (Sample.world, tt)).
Proof.
  destruct (estimate_delivery_time_unscheduled Sample.bare_alert (Sample.world, tt)
              eq_refl) as [H _].
  destruct (H 1700000000999999) as (r & -> & [Hle Hlt] & Hmod).
  f_equal. f_equal.
  assert (r = 1700000000000000) as ->; [|reflexivity].
  apply Z.mod_divide in Hmod; [|lia]. destruct Hmod as [k ->]. lia.
Defined.
